(** * MinIO-Learn: the storage gateway and its HTTP adapter

    A shallow embedding of the Go sources
    - [cmd/server/main.go]        (package main: gateway methods, handlers, startup),
    - [internal/storage/minio.go] (package storage: the exported gateway),
    - the configuration loader    (package config),
    followed by the properties of the written specification that concern them.

    The object store client (minio-go) is an external collaborator. It is
    modelled as a record of operations over an abstract backend state; every
    call the gateway issues is appended to a call log, so that statements of
    the form "without calling the backend" can be expressed. *)

From Stdlib Require Import ZArith Ascii String.
From stdpp Require Import base decidable option list strings gmap pretty.

Local Open Scope Z_scope.
Local Open Scope string_scope.
Local Open Scope list_scope.

(** ** Go values shared by all packages *)

(** A Go [error] value as this program observes it: through [err.Error()]
    and through [minio.ToErrorResponse(err).Code].  [ErrorResponse] is the
    S3 error of the client library ([Message] stands for the text its
    [Error()] method returns); every other error is an [OtherError]. *)
Inductive error : Type :=
  | ErrorResponse (Code : string) (Message : string)
  | OtherError (text : string).

Definition Error (e : error) : string :=
  match e with
  | ErrorResponse _ m => m
  | OtherError t => t
  end.

(** [(value, err)] pairs of Go, with the convention that the value is the
    zero value when [err != nil]. *)
Inductive result (A : Type) : Type :=
  | Ok (a : A)
  | Fail (e : error).
Arguments Ok {A} a.
Arguments Fail {A} e.

(** [fmt.Errorf(prefix + ": %w", err)]: the text is the prefix, a colon and
    the text of the wrapped error; the wrapper is not an [ErrorResponse]. *)
Definition Errorf_w (prefix : string) (err : error) : error :=
  OtherError (prefix +:+ ": " +:+ Error err).

(** [fmt.Errorf(text)] without verbs. *)
Definition Errorf (text : string) : error := OtherError text.

(** The verb [%d] of package fmt on an integer. *)
Definition fmt_d (n : Z) : string := pretty n.

(** ** Package strconv *)
Module strconv.

(** [strconv.ParseBool]; [None] is the syntax error. *)
Definition ParseBool (str : string) : option bool :=
  if decide (str = "1") then Some true
  else if decide (str = "t") then Some true
  else if decide (str = "T") then Some true
  else if decide (str = "TRUE") then Some true
  else if decide (str = "true") then Some true
  else if decide (str = "True") then Some true
  else if decide (str = "0") then Some false
  else if decide (str = "f") then Some false
  else if decide (str = "F") then Some false
  else if decide (str = "FALSE") then Some false
  else if decide (str = "false") then Some false
  else if decide (str = "False") then Some false
  else None.

End strconv.

(** ** Package os: the process environment *)
Module os.

Definition Environ : Type := gmap string string.

(** [os.Getenv]: the value, or the empty string when the variable is unset. *)
Definition Getenv (env : Environ) (key : string) : string :=
  default "" (env !! key).

End os.

(** The configuration record.  Packages main and config declare it as
    [MinIOConfig], package storage as [Config], with the same six fields. *)
Module MinIOConfig.
Record t : Type := mk {
    Endpoint : string;
    AccessKeyID : string;
    SecretAccessKey : string;
    UseSSL : bool;
    BucketName : string;
    Location : string
  }.
End MinIOConfig.

(** ** Package config *)
Module config.

Definition getEnv (env : os.Environ) (key defaultValue : string) : string :=
  let value := os.Getenv env key in
  if decide (value = "") then defaultValue else value.

Definition getEnvBool (env : os.Environ) (key : string) (defaultValue : bool) : bool :=
  let value := os.Getenv env key in
  if decide (value = "") then defaultValue
  else match strconv.ParseBool value with
       | None => defaultValue
       | Some boolValue => boolValue
       end.

(** The four required-field checks of [LoadMinIOConfig], applied to the
    record the function has just built. *)
Definition LoadMinIOConfig_checks (config : MinIOConfig.t) : MinIOConfig.t * option error :=
  if decide (MinIOConfig.Endpoint config = "") then
    (config, Some (Errorf "MINIO_ENDPOINT is required"))
  else if decide (MinIOConfig.AccessKeyID config = "") then
    (config, Some (Errorf "MINIO_ACCESS_KEY is required"))
  else if decide (MinIOConfig.SecretAccessKey config = "") then
    (config, Some (Errorf "MINIO_SECRET_KEY is required"))
  else if decide (MinIOConfig.BucketName config = "") then
    (config, Some (Errorf "MINIO_BUCKET is required"))
  else (config, None).

Definition LoadMinIOConfig (env : os.Environ) : MinIOConfig.t * option error :=
  let config := {|
    MinIOConfig.Endpoint := getEnv env "MINIO_ENDPOINT" "localhost:9000";
    MinIOConfig.AccessKeyID := getEnv env "MINIO_ACCESS_KEY" "minio_admin";
    MinIOConfig.SecretAccessKey := getEnv env "MINIO_SECRET_KEY" "minio_password";
    MinIOConfig.UseSSL := getEnvBool env "MINIO_USE_SSL" false;
    MinIOConfig.BucketName := getEnv env "MINIO_BUCKET" "mybucket";
    MinIOConfig.Location := getEnv env "MINIO_LOCATION" "us-east-1"
  |} in
  LoadMinIOConfig_checks config.

End config.

(** ** Package path/filepath (Unix separators) *)
Module filepath.

Definition slash : ascii := "/"%char.
Definition dot : ascii := "."%char.

(** The scan of [filepath.Ext] from the last byte towards the first:
    [rpath] is what is still to be read (reversed), [acc] what has been
    read. *)
Fixpoint Ext_scan (rpath acc : list ascii) : list ascii :=
  match rpath with
  | [] => []
  | c :: rest =>
      if decide (c = slash) then []
      else if decide (c = dot) then c :: acc
      else Ext_scan rest (c :: acc)
  end.

(** [filepath.Ext]: the suffix beginning at the final dot of the final
    element of the path; empty if there is no dot. *)
Definition Ext (path : string) : string :=
  string_of_list_ascii (Ext_scan (rev (list_ascii_of_string path)) []).

Fixpoint strip_slashes (rpath : list ascii) : list ascii :=
  match rpath with
  | [] => []
  | c :: rest => if decide (c = slash) then strip_slashes rest else rpath
  end.

Fixpoint last_element (rpath acc : list ascii) : list ascii :=
  match rpath with
  | [] => acc
  | c :: rest => if decide (c = slash) then acc else last_element rest (c :: acc)
  end.

(** [filepath.Base]: the last element of the path, trailing slashes
    removed; ["."] for the empty path and ["/"] for a path of slashes. *)
Definition Base (path : string) : string :=
  if decide (path = "") then "."
  else
    let elem := last_element (strip_slashes (rev (list_ascii_of_string path))) [] in
    match elem with
    | [] => "/"
    | _ => string_of_list_ascii elem
    end.

End filepath.

(** ** Package encoding/json: the values an encoder writes *)
Module json.

(** [JTime t] stands for the RFC 3339 string that [time.Time] marshals
    to. *)
Local Unset Elimination Schemes.
Inductive value : Type :=
  | JNull
  | JBool (b : bool)
  | JNumber (n : Z)
  | JString (s : string)
  | JTime (t : Z)
  | JArray (items : list value)
  | JObject (fields : list (string * value)).
Local Set Elimination Schemes.

(** The value written under a key of an object, if the key is written. *)
Fixpoint assoc (key : string) (fields : list (string * value)) : option value :=
  match fields with
  | [] => None
  | (k, v) :: rest => if decide (k = key) then Some v else assoc key rest
  end.

Definition field (key : string) (v : value) : option value :=
  match v with
  | JObject fields => assoc key fields
  | _ => None
  end.

End json.

(** ** Package time *)
Module time.
(** A [time.Duration] is a count of nanoseconds. *)
Definition Duration : Type := Z.
Definition Second : Duration := 1000000000.
Definition Hour : Duration := 3600 * Second.
(** A [time.Time], as seconds since the Unix epoch. *)
Definition Time : Type := Z.
Definition Unix (t : Time) : Z := t.
End time.

(** ** Package net/http: the constants used *)
Module http.
Definition MethodGet : string := "GET".
Definition MethodPost : string := "POST".
Definition StatusOK : Z := 200.
Definition StatusFound : Z := 302.
Definition StatusBadRequest : Z := 400.
Definition StatusNotFound : Z := 404.
Definition StatusMethodNotAllowed : Z := 405.
Definition StatusInternalServerError : Z := 500.
Definition StatusServiceUnavailable : Z := 503.
End http.

(** ** Package minio: the object store client, as the gateway consumes it *)
Module minio.

Module UploadInfo.
Record t : Type := mk { Size : Z }.
End UploadInfo.

(** An item of a listing or the result of a stat.  [Err] is set on the
    item with which a listing reports a failure. *)
Module ObjectInfo.
Record t : Type := mk {
    Key : string;
    Size : Z;
    ContentType : string;
    LastModified : time.Time;
    Err : option error
  }.
End ObjectInfo.

(** What [io.ReadAll] yields on the reader that [GetObject] returned. *)
Definition Object : Type := result (list Byte.byte).

(** The methods of [*minio.Client] that the gateway calls, each one a
    transition of the backend state [S].  Arguments are in the order of
    the Go signatures, context and option structs left out except for the
    option fields the gateway sets. *)
Record Client (S : Type) : Type := mkClient {
    BucketExists : string -> S -> result bool * S;
    MakeBucket : string -> string -> S -> option error * S;
    PutObject : string -> string -> list Byte.byte -> Z -> string -> S
                -> result UploadInfo.t * S;
    GetObject : string -> string -> S -> result Object * S;
    ListObjects : string -> string -> bool -> S -> list ObjectInfo.t * S;
    RemoveObject : string -> string -> S -> option error * S;
    PresignedGetObject : string -> string -> time.Duration -> S -> result string * S;
    StatObject : string -> string -> S -> result ObjectInfo.t * S
  }.
Arguments BucketExists {S} _ _ _.
Arguments MakeBucket {S} _ _ _ _.
Arguments PutObject {S} _ _ _ _ _ _ _.
Arguments GetObject {S} _ _ _ _.
Arguments ListObjects {S} _ _ _ _ _.
Arguments RemoveObject {S} _ _ _ _.
Arguments PresignedGetObject {S} _ _ _ _ _.
Arguments StatObject {S} _ _ _ _.

(** [minio.ToErrorResponse(err).Code]: the code of an [ErrorResponse],
    empty for any other error. *)
Definition ToErrorResponse_Code (err : error) : string :=
  match err with
  | ErrorResponse code _ => code
  | OtherError _ => ""
  end.

(** One entry of the call log per request sent to the client. *)
Inductive Call : Type :=
  | CallBucketExists (bucket : string)
  | CallMakeBucket (bucket region : string)
  | CallPutObject (bucket key : string) (size : Z) (contentType : string)
  | CallGetObject (bucket key : string)
  | CallListObjects (bucket prefix : string) (recursive : bool)
  | CallRemoveObject (bucket key : string)
  | CallPresignedGetObject (bucket key : string) (expiry : time.Duration)
  | CallStatObject (bucket key : string).

Definition is_remove (c : Call) : bool :=
  match c with CallRemoveObject _ _ => true | _ => false end.

End minio.

(** ** The world a gateway method runs in, and the monad that threads it *)

Record World (S : Type) : Type := mkWorld {
  backend : S;
  calls : list minio.Call
}.
Arguments mkWorld {S} _ _.
Arguments backend {S} _.
Arguments calls {S} _.

Definition M (S A : Type) : Type := World S -> A * World S.

Definition ret {S A : Type} (a : A) : M S A := fun w => (a, w).

Definition bind {S A B : Type} (m : M S A) (k : A -> M S B) : M S B :=
  fun w => let '(a, w') := m w in k a w'.

Declare Scope gateway_scope.
Delimit Scope gateway_scope with gateway.
Notation "x <- m ;; k" := (bind m (fun x => k))
  (at level 100, m at next level, right associativity) : gateway_scope.
Local Open Scope gateway_scope.

(** A client call: the backend makes its transition and the call is
    logged. *)
Definition invoke {S A : Type} (c : minio.Call) (op : S -> A * S) : M S A :=
  fun w =>
    let '(r, s') := op (backend w) in
    (r, mkWorld s' (calls w ++ [c])).

(** The gateway handle; packages main and storage declare the same
    struct. *)
Module MinIOService.
Record t (S : Type) : Type := mk {
    Client : minio.Client S;
    BucketName : string;
    Location : string
  }.
Arguments mk {S} _ _ _.
Arguments Client {S} _.
Arguments BucketName {S} _.
Arguments Location {S} _.
End MinIOService.

(** ** Package storage (internal/storage/minio.go) *)
Module storage.
Section Methods.
Context {S : Type}.
Implicit Types s : MinIOService.t S.

Definition EnsureBucket s : M S (option error) :=
  let bucket := MinIOService.BucketName s in
  r <- invoke (minio.CallBucketExists bucket)
              (minio.BucketExists (MinIOService.Client s) bucket) ;;
  match r with
  | Fail err => ret (Some (Errorf_w "failed to check if bucket exists" err))
  | Ok exists_ =>
      if negb exists_ then
        e <- invoke (minio.CallMakeBucket bucket (MinIOService.Location s))
                    (minio.MakeBucket (MinIOService.Client s) bucket
                                      (MinIOService.Location s)) ;;
        match e with
        | Some err => ret (Some (Errorf_w "failed to create bucket" err))
        | None => ret None
        end
      else ret None
  end.

Definition DeleteObject s (objectName : string) : M S (option error) :=
  let bucket := MinIOService.BucketName s in
  e <- invoke (minio.CallRemoveObject bucket objectName)
              (minio.RemoveObject (MinIOService.Client s) bucket objectName) ;;
  match e with
  | Some err => ret (Some (Errorf_w "failed to delete object" err))
  | None => ret None
  end.

Definition CheckObjectExists s (objectName : string) : M S (bool * option error) :=
  let bucket := MinIOService.BucketName s in
  r <- invoke (minio.CallStatObject bucket objectName)
              (minio.StatObject (MinIOService.Client s) bucket objectName) ;;
  match r with
  | Fail err =>
      if decide (minio.ToErrorResponse_Code err = "NoSuchKey") then ret (false, None)
      else ret (false, Some (Errorf_w "failed to check if object exists" err))
  | Ok _ => ret (true, None)
  end.

End Methods.
End storage.

(** ** Package main (cmd/server/main.go) *)

Module FileInfo.
Record t : Type := mk {
    FileName : string;
    Size : Z;
    ContentType : string;
    URL : string;
    UploadedAt : time.Time
  }.
End FileInfo.

(** What the handlers pass as [data interface{}].  The list is the slice
    [fileList] of the list handler. *)
Inductive payload : Type :=
  | DataFileInfo (fileInfo : FileInfo.t)
  | DataFileList (fileList : list FileInfo.t).

Module Response.
(** [Data = None] is the nil interface. *)
Record t : Type := mk {
    Success : bool;
    Message : string;
    Data : option payload
  }.
End Response.

(** The file part of a multipart form. *)
Module FileHeader.
Record t : Type := mk {
    Filename : string;
    Header : list (string * string)
  }.
End FileHeader.

(** First value stored under a key, or the empty string: the [Get] of
    [url.Values] and of a MIME header. *)
Fixpoint Get (values : list (string * string)) (key : string) : string :=
  match values with
  | [] => ""
  | (k, v) :: rest => if decide (k = key) then v else Get rest key
  end.

(** The parts of an [*http.Request] the handlers read: the method, the
    path of the URL, its parsed query, and what [r.FormFile] returns for a
    field name (the header of the part and its content). *)
Module Request.
Record t : Type := mk {
    Method : string;
    Path : string;
    Query : list (string * string);
    FormFile : string -> result (FileHeader.t * list Byte.byte)
  }.
End Request.

(** The machine a request runs on: temporary files and the clock.
    [Now n] is the n-th reading of [time.Now()] within the request. *)
Module Host.
Record t : Type := mk {
    CreateTemp : string -> result string;
    Copy : string -> list Byte.byte -> option error;
    Open : string -> result (list Byte.byte);
    Stat : string -> result Z;
    Now : nat -> time.Time
  }.
End Host.

(** What a handler has written to its [http.ResponseWriter]. *)
Inductive body : Type :=
  | BodyJSON (v : json.value)
  | BodyBytes (data : list Byte.byte)
  | BodyRedirect (url : string)
  | BodyText (text : string).

Module Written.
Record t : Type := mk {
    StatusCode : Z;
    Header : list (string * string);
    Body : body
  }.
End Written.

Module server.

(** *** The response envelope on the wire

    The struct tags of [FileInfo] and [Response]: [url] and [data] carry
    [omitempty], so an empty [URL] and a nil [Data] are not written.
    [fileList] is declared with [var] and grows by [append] only, hence is
    the nil slice exactly when it has no element; the encoder writes a nil
    slice as [null].  A [json.JString] holds the Go string: the escaping
    done by the encoder, and its replacement of bytes that are not valid
    UTF-8, are below this model. *)

Definition encodeFileInfo (f : FileInfo.t) : json.value :=
  json.JObject
    ([("fileName", json.JString (FileInfo.FileName f));
      ("size", json.JNumber (FileInfo.Size f));
      ("contentType", json.JString (FileInfo.ContentType f))]
     ++ (if decide (FileInfo.URL f = "") then []
         else [("url", json.JString (FileInfo.URL f))])
     ++ [("uploadedAt", json.JTime (FileInfo.UploadedAt f))]).

Definition encodePayload (p : payload) : json.value :=
  match p with
  | DataFileInfo f => encodeFileInfo f
  | DataFileList [] => json.JNull
  | DataFileList l => json.JArray (map encodeFileInfo l)
  end.

Definition encodeResponse (r : Response.t) : json.value :=
  json.JObject
    ([("success", json.JBool (Response.Success r));
      ("message", json.JString (Response.Message r))]
     ++ match Response.Data r with
        | None => []
        | Some p => [("data", encodePayload p)]
        end).

(** [sendResponse]; the values passed here always encode, so the branch
    that reports an encoding failure is not reached. *)
Definition sendResponse (success : bool) (message : string) (data : option payload)
    (statusCode : Z) : Written.t :=
  let response := {| Response.Success := success;
                     Response.Message := message;
                     Response.Data := data |} in
  {| Written.StatusCode := statusCode;
     Written.Header := [("Content-Type", "application/json")];
     Written.Body := BodyJSON (encodeResponse response) |}.

(** *** Configuration *)

Definition getEnv (env : os.Environ) (key defaultValue : string) : string :=
  let value := os.Getenv env key in
  if decide (value = "") then defaultValue else value.

Definition getEnvBool (env : os.Environ) (key : string) (defaultValue : bool) : bool :=
  let value := os.Getenv env key in
  if decide (value = "") then defaultValue
  else match strconv.ParseBool value with
       | None => defaultValue
       | Some boolValue => boolValue
       end.

(** The four required-field checks of [loadMinIOConfig], applied to the
    record the function has just built. *)
Definition loadMinIOConfig_checks (config : MinIOConfig.t) : MinIOConfig.t * option error :=
  if decide (MinIOConfig.Endpoint config = "") then
    (config, Some (Errorf "MINIO_ENDPOINT is required"))
  else if decide (MinIOConfig.AccessKeyID config = "") then
    (config, Some (Errorf "MINIO_ACCESS_KEY is required"))
  else if decide (MinIOConfig.SecretAccessKey config = "") then
    (config, Some (Errorf "MINIO_SECRET_KEY is required"))
  else if decide (MinIOConfig.BucketName config = "") then
    (config, Some (Errorf "MINIO_BUCKET is required"))
  else (config, None).

Definition loadMinIOConfig (env : os.Environ) : MinIOConfig.t * option error :=
  let config := {|
    MinIOConfig.Endpoint := getEnv env "MINIO_ENDPOINT" "localhost:9000";
    MinIOConfig.AccessKeyID := getEnv env "MINIO_ACCESS_KEY" "minio_admin";
    MinIOConfig.SecretAccessKey := getEnv env "MINIO_SECRET_KEY" "minio_password";
    MinIOConfig.UseSSL := getEnvBool env "MINIO_USE_SSL" false;
    MinIOConfig.BucketName := getEnv env "MINIO_BUCKET" "mybucket";
    MinIOConfig.Location := getEnv env "MINIO_LOCATION" "us-east-1"
  |} in
  loadMinIOConfig_checks config.

Section Gateway.
Context {S : Type}.
Implicit Types s : MinIOService.t S.

(** *** Gateway methods.  The [log.Printf] lines are not modelled, and
    [downloadFile], which nothing calls, is left out. *)

Definition ensureBucket s : M S (option error) :=
  let bucket := MinIOService.BucketName s in
  r <- invoke (minio.CallBucketExists bucket)
              (minio.BucketExists (MinIOService.Client s) bucket) ;;
  match r with
  | Fail err => ret (Some (Errorf_w "failed to check if bucket exists" err))
  | Ok exists_ =>
      if negb exists_ then
        e <- invoke (minio.CallMakeBucket bucket (MinIOService.Location s))
                    (minio.MakeBucket (MinIOService.Client s) bucket
                                      (MinIOService.Location s)) ;;
        match e with
        | Some err => ret (Some (Errorf_w "failed to create bucket" err))
        | None => ret None
        end
      else ret None
  end.

(** [minio.New] is the argument [New]: endpoint, access key, secret key
    and the TLS flag yield a client or an error. *)
Definition newMinIOService
    (New : string -> string -> string -> bool -> result (minio.Client S))
    (config : MinIOConfig.t) : M S (result (MinIOService.t S)) :=
  match New (MinIOConfig.Endpoint config) (MinIOConfig.AccessKeyID config)
            (MinIOConfig.SecretAccessKey config) (MinIOConfig.UseSSL config) with
  | Fail err => ret (Fail (Errorf_w "failed to initialize MinIO client" err))
  | Ok client =>
      let service := MinIOService.mk client (MinIOConfig.BucketName config)
                                     (MinIOConfig.Location config) in
      e <- ensureBucket service ;;
      match e with
      | Some err => ret (Fail (Errorf_w "failed to ensure bucket exists" err))
      | None => ret (Ok service)
      end
  end.

Definition uploadFile (h : Host.t) s (objectName filePath contentType : string)
    : M S (minio.UploadInfo.t * option error) :=
  match Host.Open h filePath with
  | Fail err => ret (minio.UploadInfo.mk 0, Some (Errorf_w "failed to open file" err))
  | Ok file =>
      match Host.Stat h filePath with
      | Fail err =>
          ret (minio.UploadInfo.mk 0, Some (Errorf_w "failed to get file stats" err))
      | Ok size =>
          let bucket := MinIOService.BucketName s in
          r <- invoke (minio.CallPutObject bucket objectName size contentType)
                      (minio.PutObject (MinIOService.Client s) bucket objectName
                                       file size contentType) ;;
          match r with
          | Fail err =>
              ret (minio.UploadInfo.mk 0, Some (Errorf_w "failed to upload file" err))
          | Ok uploadInfo => ret (uploadInfo, None)
          end
      end
  end.

Definition downloadBuffer s (objectName : string)
    : M S (list Byte.byte * option error) :=
  let bucket := MinIOService.BucketName s in
  r <- invoke (minio.CallGetObject bucket objectName)
              (minio.GetObject (MinIOService.Client s) bucket objectName) ;;
  match r with
  | Fail err => ret ([], Some (Errorf_w "failed to get object" err))
  | Ok obj =>
      match obj with
      | Fail err => ret ([], Some (Errorf_w "failed to read object data" err))
      | Ok data => ret (data, None)
      end
  end.

(** The loop of [listObjects] over the items of the channel: the first
    item that carries an error ends it. *)
Fixpoint collectObjects (items objects : list minio.ObjectInfo.t)
    : list minio.ObjectInfo.t * option error :=
  match items with
  | [] => (objects, None)
  | object :: rest =>
      match minio.ObjectInfo.Err object with
      | Some err => ([], Some (Errorf_w "error listing objects" err))
      | None => collectObjects rest (objects ++ [object])
      end
  end.

Definition listObjects s (prefix : string)
    : M S (list minio.ObjectInfo.t * option error) :=
  let bucket := MinIOService.BucketName s in
  objectCh <- invoke (minio.CallListObjects bucket prefix true)
                     (minio.ListObjects (MinIOService.Client s) bucket prefix true) ;;
  ret (collectObjects objectCh []).

Definition deleteObject s (objectName : string) : M S (option error) :=
  let bucket := MinIOService.BucketName s in
  e <- invoke (minio.CallRemoveObject bucket objectName)
              (minio.RemoveObject (MinIOService.Client s) bucket objectName) ;;
  match e with
  | Some err => ret (Some (Errorf_w "failed to delete object" err))
  | None => ret None
  end.

Definition getObjectURL s (objectName : string) (expiry : time.Duration)
    : M S (string * option error) :=
  let bucket := MinIOService.BucketName s in
  r <- invoke (minio.CallPresignedGetObject bucket objectName expiry)
              (minio.PresignedGetObject (MinIOService.Client s) bucket objectName
                                        expiry) ;;
  match r with
  | Fail err => ret ("", Some (Errorf_w "failed to generate presigned URL" err))
  | Ok presignedURL => ret (presignedURL, None)
  end.

Definition checkObjectExists s (objectName : string) : M S (bool * option error) :=
  let bucket := MinIOService.BucketName s in
  r <- invoke (minio.CallStatObject bucket objectName)
              (minio.StatObject (MinIOService.Client s) bucket objectName) ;;
  match r with
  | Fail err =>
      if decide (minio.ToErrorResponse_Code err = "NoSuchKey") then ret (false, None)
      else ret (false, Some (Errorf_w "failed to check if object exists" err))
  | Ok _ => ret (true, None)
  end.

(** *** Handlers.  Each returns what it wrote to the response writer.
    Deferred clean-up of temporary files is not modelled; the multipart
    parsing of the upload ([r.ParseMultipartForm], [r.FormFile]) is the
    field [Request.FormFile] of the request. *)

(** [path[n:]]; [None] is the run-time panic on [n > len(path)]. *)
Definition slice_from (path : string) (n : nat) : option string :=
  if decide (n <= String.length path)%nat
  then Some (String.substring n (String.length path - n) path)
  else None.

Inductive Outcome : Type :=
  | Replied (w : Written.t)
  | Panicked.

Definition uploadHandler (h : Host.t) s (r : Request.t) : M S Written.t :=
  if decide (Request.Method r <> http.MethodPost) then
    ret (sendResponse false "Method not allowed" None http.StatusMethodNotAllowed)
  else
    match Request.FormFile r "file" with
    | Fail err =>
        ret (sendResponse false ("Error retrieving file: " +:+ Error err) None
                          http.StatusBadRequest)
    | Ok (handler, file) =>
        match Host.CreateTemp h ("upload-*" +:+ filepath.Ext (FileHeader.Filename handler)) with
        | Fail err =>
            ret (sendResponse false ("Error creating temporary file: " +:+ Error err)
                              None http.StatusInternalServerError)
        | Ok tempFile =>
            match Host.Copy h tempFile file with
            | Some err =>
                ret (sendResponse false ("Error saving temporary file: " +:+ Error err)
                                  None http.StatusInternalServerError)
            | None =>
                let objectName :=
                  "uploads/" +:+ fmt_d (time.Unix (Host.Now h 0)) +:+ "-"
                             +:+ FileHeader.Filename handler in
                let contentType := Get (FileHeader.Header handler) "Content-Type" in
                let contentType :=
                  if decide (contentType = "") then "application/octet-stream"
                  else contentType in
                up <- uploadFile h s objectName tempFile contentType ;;
                match up with
                | (_, Some err) =>
                    ret (sendResponse false ("Error uploading to MinIO: " +:+ Error err)
                                      None http.StatusInternalServerError)
                | (uploadInfo, None) =>
                    u <- getObjectURL s objectName (time.Hour * 24) ;;
                    let url := fst u in
                    let fileInfo := {|
                      FileInfo.FileName := FileHeader.Filename handler;
                      FileInfo.Size := minio.UploadInfo.Size uploadInfo;
                      FileInfo.ContentType := contentType;
                      FileInfo.URL := url;
                      FileInfo.UploadedAt := Host.Now h 1
                    |} in
                    ret (sendResponse true "File uploaded successfully"
                                      (Some (DataFileInfo fileInfo)) http.StatusOK)
                end
            end
        end
    end.

(** The loop of [listFilesHandler] over the listed objects. *)
Fixpoint appendFileInfos s (objects : list minio.ObjectInfo.t)
    (fileList : list FileInfo.t) : M S (list FileInfo.t) :=
  match objects with
  | [] => ret fileList
  | obj :: rest =>
      u <- getObjectURL s (minio.ObjectInfo.Key obj) (time.Hour * 24) ;;
      let url := fst u in
      appendFileInfos s rest
        (fileList ++ [{|
           FileInfo.FileName := filepath.Base (minio.ObjectInfo.Key obj);
           FileInfo.Size := minio.ObjectInfo.Size obj;
           FileInfo.ContentType := minio.ObjectInfo.ContentType obj;
           FileInfo.URL := url;
           FileInfo.UploadedAt := minio.ObjectInfo.LastModified obj
         |}])
  end.

Definition listFilesHandler s (r : Request.t) : M S Written.t :=
  if decide (Request.Method r <> http.MethodGet) then
    ret (sendResponse false "Method not allowed" None http.StatusMethodNotAllowed)
  else
    let prefix := Get (Request.Query r) "prefix" in
    let prefix := if decide (prefix = "") then "uploads/" else prefix in
    l <- listObjects s prefix ;;
    match l with
    | (_, Some err) =>
        ret (sendResponse false ("Error listing files: " +:+ Error err) None
                          http.StatusInternalServerError)
    | (objects, None) =>
        fileList <- appendFileInfos s objects [] ;;
        ret (sendResponse true
               ("Found " +:+ fmt_d (Z.of_nat (length fileList)) +:+ " files")
               (Some (DataFileList fileList)) http.StatusOK)
    end.

Definition getFileHandler s (r : Request.t) : M S Outcome :=
  if decide (Request.Method r <> http.MethodGet) then
    ret (Replied (sendResponse false "Method not allowed" None
                               http.StatusMethodNotAllowed))
  else
    match slice_from (Request.Path r) (String.length "/files/") with
    | None => ret Panicked
    | Some objectName =>
        if decide (objectName = "") then
          ret (Replied (sendResponse false "Object name is required" None
                                     http.StatusBadRequest))
        else
          c <- checkObjectExists s objectName ;;
          match c with
          | (_, Some err) =>
              ret (Replied (sendResponse false ("Error checking object: " +:+ Error err)
                                         None http.StatusInternalServerError))
          | (exists_, None) =>
              if negb exists_ then
                ret (Replied (sendResponse false "File not found" None
                                           http.StatusNotFound))
              else
                let download :=
                  bool_decide (Get (Request.Query r) "download" = "true") in
                if download then
                  d <- downloadBuffer s objectName ;;
                  match d with
                  | (_, Some err) =>
                      ret (Replied (sendResponse false
                                      ("Error downloading file: " +:+ Error err) None
                                      http.StatusInternalServerError))
                  | (data, None) =>
                      ret (Replied {|
                        Written.StatusCode := http.StatusOK;
                        Written.Header :=
                          [("Content-Disposition",
                            "attachment; filename=" +:+ filepath.Base objectName);
                           ("Content-Type", "application/octet-stream");
                           ("Content-Length", fmt_d (Z.of_nat (length data)))];
                        Written.Body := BodyBytes data |})
                  end
                else
                  u <- getObjectURL s objectName time.Hour ;;
                  match u with
                  | (_, Some err) =>
                      ret (Replied (sendResponse false
                                      ("Error generating URL: " +:+ Error err) None
                                      http.StatusInternalServerError))
                  | (url, None) =>
                      ret (Replied {|
                        Written.StatusCode := http.StatusFound;
                        Written.Header := [("Location", url)];
                        Written.Body := BodyRedirect url |})
                  end
          end
    end.

Definition healthCheckHandler s (r : Request.t) : M S Written.t :=
  l <- listObjects s "" ;;
  match l with
  | (_, Some err) =>
      ret (sendResponse false ("MinIO service is not healthy: " +:+ Error err) None
                        http.StatusServiceUnavailable)
  | (_, None) => ret (sendResponse true "Service is healthy" None http.StatusOK)
  end.

(** *** Routing

    [main] registers four patterns on the default multiplexer of net/http.
    The multiplexer is modelled as in Go 1.21, the release the Dockerfile
    builds with: a request other than CONNECT whose path is not in
    canonical form is answered with a 301 to the cleaned path ([cleanPath],
    a function of net/http, is an argument here; the raw query that follows
    the path in the Location is left out); otherwise an exact match of the
    path wins, then the patterns that end in a slash are tried as prefixes,
    longest first (there is one), and a path that matches nothing gets the
    multiplexer's own 404. *)

Definition Handler : Type := Request.t -> M S Outcome.

Definition HandlerFunc (f : Request.t -> M S Written.t) : Handler :=
  fun r => w <- f r ;; ret (Replied w).

Definition routes (h : Host.t) s : list (string * Handler) :=
  [("/upload", HandlerFunc (uploadHandler h s));
   ("/files", HandlerFunc (listFilesHandler s));
   ("/files/", getFileHandler s);
   ("/health", HandlerFunc (healthCheckHandler s))].

Definition ends_in_slash (pattern : string) : bool :=
  match rev (list_ascii_of_string pattern) with
  | c :: _ => bool_decide (c = filepath.slash)
  | [] => false
  end.

Fixpoint exactMatch (table : list (string * Handler)) (path : string) : option Handler :=
  match table with
  | [] => None
  | (pattern, handler) :: rest =>
      if decide (pattern = path) then Some handler else exactMatch rest path
  end.

Fixpoint subtreeMatch (table : list (string * Handler)) (path : string) : option Handler :=
  match table with
  | [] => None
  | (pattern, handler) :: rest =>
      if ends_in_slash pattern && String.prefix pattern path then Some handler
      else subtreeMatch rest path
  end.

Definition notFound : Written.t :=
  {| Written.StatusCode := http.StatusNotFound;
     Written.Header := [("Content-Type", "text/plain; charset=utf-8")];
     Written.Body := BodyText "404 page not found" |}.

Definition movedPermanently (path : string) : Written.t :=
  {| Written.StatusCode := 301;
     Written.Header := [("Location", path)];
     Written.Body := BodyRedirect path |}.

Definition serve (cleanPath : string -> string) (h : Host.t) s (r : Request.t)
    : M S Outcome :=
  let path := Request.Path r in
  if decide (Request.Method r <> "CONNECT" /\ cleanPath path <> path) then
    ret (Replied (movedPermanently (cleanPath path)))
  else
    match exactMatch (routes h s) path with
    | Some handler => handler r
    | None =>
        match subtreeMatch (routes h s) path with
        | Some handler => handler r
        | None => ret (Replied notFound)
        end
    end.

(** *** Startup *)

Inductive Process : Type :=
  | Fatal (message : string)
  | Serving (port : string) (service : MinIOService.t S).

(** [main] from the point where [loadMinIOConfig] has returned. *)
Definition startup
    (New : string -> string -> string -> bool -> result (minio.Client S))
    (env : os.Environ) (loaded : MinIOConfig.t * option error) : M S Process :=
  match loaded with
  | (_, Some err) =>
      ret (Fatal ("Failed to load MinIO configuration: " +:+ Error err))
  | (config, None) =>
      r <- newMinIOService New config ;;
      match r with
      | Fail err => ret (Fatal ("Failed to initialize MinIO service: " +:+ Error err))
      | Ok service => ret (Serving (getEnv env "PORT" "8080") service)
      end
  end.

Definition main
    (New : string -> string -> string -> bool -> result (minio.Client S))
    (env : os.Environ) : M S Process :=
  startup New env (loadMinIOConfig env).

End Gateway.
Arguments Outcome : clear implicits.
Arguments Process : clear implicits.
Arguments Handler : clear implicits.
End server.

(** ** A reference object store

    An in-memory client that satisfies the capability contract of the
    backend: buckets are a set of names, objects a map from bucket and key
    to content type and bytes.  [Faults] makes chosen operations fail, the
    way an unreachable or misbehaving backend would. *)
Module memstore.

Record Store : Type := mkStore {
    buckets : gset string;
    objects : gmap (string * string) (string * list Byte.byte)
  }.

Record Faults : Type := mkFaults {
    fault_exists : option error;
    fault_make : option error;
    fault_put : option error;
    fault_list : option error;
    fault_presign : string -> option error;
    fault_stat : string -> option error
  }.

Definition no_faults : Faults :=
  mkFaults None None None None (fun _ => None) (fun _ => None).

Definition NoSuchKey : error :=
  ErrorResponse "NoSuchKey" "The specified key does not exist.".
Definition NoSuchBucket : error :=
  ErrorResponse "NoSuchBucket" "The specified bucket does not exist.".

Definition info (key : string) (entry : string * list Byte.byte) : minio.ObjectInfo.t :=
  {| minio.ObjectInfo.Key := key;
     minio.ObjectInfo.Size := Z.of_nat (length entry.2);
     minio.ObjectInfo.ContentType := entry.1;
     minio.ObjectInfo.LastModified := 0;
     minio.ObjectInfo.Err := None |}.

Definition listing (bucket prefix : string) (st : Store) : list minio.ObjectInfo.t :=
  omap (fun '((b, k), entry) =>
          if decide (b = bucket) then
            if String.prefix prefix k then Some (info k entry) else None
          else None)
       (map_to_list (objects st)).

Definition client (f : Faults) : minio.Client Store :=
  {| minio.BucketExists := fun bucket st =>
       match fault_exists f with
       | Some err => (Fail err, st)
       | None => (Ok (bool_decide (bucket ∈ buckets st)), st)
       end;
     minio.MakeBucket := fun bucket region st =>
       match fault_make f with
       | Some err => (Some err, st)
       | None => (None, mkStore ({[bucket]} ∪ buckets st) (objects st))
       end;
     minio.PutObject := fun bucket key data size contentType st =>
       match fault_put f with
       | Some err => (Fail err, st)
       | None =>
           if decide (bucket ∈ buckets st) then
             (Ok (minio.UploadInfo.mk size),
              mkStore (buckets st) (<[(bucket, key) := (contentType, data)]> (objects st)))
           else (Fail NoSuchBucket, st)
       end;
     minio.GetObject := fun bucket key st =>
       match objects st !! (bucket, key) with
       | Some entry => (Ok (Ok entry.2), st)
       | None => (Ok (Fail NoSuchKey), st)
       end;
     minio.ListObjects := fun bucket prefix recursive st =>
       match fault_list f with
       | Some err =>
           ([{| minio.ObjectInfo.Key := "";
                minio.ObjectInfo.Size := 0;
                minio.ObjectInfo.ContentType := "";
                minio.ObjectInfo.LastModified := 0;
                minio.ObjectInfo.Err := Some err |}], st)
       | None => (listing bucket prefix st, st)
       end;
     minio.RemoveObject := fun bucket key st =>
       (None, mkStore (buckets st) (delete (bucket, key) (objects st)));
     minio.PresignedGetObject := fun bucket key expiry st =>
       match fault_presign f key with
       | Some err => (Fail err, st)
       | None => (Ok ("http://localhost:9000/" +:+ bucket +:+ "/" +:+ key), st)
       end;
     minio.StatObject := fun bucket key st =>
       match fault_stat f key with
       | Some err => (Fail err, st)
       | None =>
           match objects st !! (bucket, key) with
           | Some entry => (Ok (info key entry), st)
           | None => (Fail NoSuchKey, st)
           end
       end |}.

Definition service (f : Faults) : MinIOService.t Store :=
  MinIOService.mk (client f) "mybucket" "us-east-1".

Definition empty : Store := mkStore ∅ ∅.

(** A store that holds the bucket and two uploads. *)
Definition sample : Store :=
  mkStore {["mybucket"]}
          (<[("mybucket", "uploads/1-a.txt") := ("text/plain", [Byte.x68; Byte.x69])]>
             (<[("mybucket", "uploads/2-b.bin") := ("application/octet-stream", [])]> ∅)).

Definition start (st : Store) : World Store := mkWorld st [].

(** A host whose temporary files always work; the clock reads [t0] and
    then [t1]. *)
Definition host (content : list Byte.byte) (t0 t1 : time.Time) : Host.t :=
  {| Host.CreateTemp := fun pattern => Ok ("/tmp/" +:+ pattern);
     Host.Copy := fun _ _ => None;
     Host.Open := fun _ => Ok content;
     Host.Stat := fun _ => Ok (Z.of_nat (length content));
     Host.Now := fun n => match n with O => t0 | _ => t1 end |}.

Definition get (path : string) (query : list (string * string)) : Request.t :=
  {| Request.Method := "GET";
     Request.Path := path;
     Request.Query := query;
     Request.FormFile := fun _ =>
       Fail (OtherError "request Content-Type isn't multipart/form-data") |}.

Definition post_file (path filename contentType : string)
    (content : list Byte.byte) : Request.t :=
  {| Request.Method := "POST";
     Request.Path := path;
     Request.Query := [];
     Request.FormFile := fun field =>
       if decide (field = "file") then
         Ok ({| FileHeader.Filename := filename;
                FileHeader.Header :=
                  if decide (contentType = "") then []
                  else [("Content-Type", contentType)] |}, content)
       else Fail (OtherError "http: no such file") |}.

End memstore.

(** ** Observations used to state the properties *)

Section Observations.
Context {S : Type} (s : MinIOService.t S).

(** What the backend answers to the metadata probe for [key] in the state
    of [w]. *)
Definition stat_reply (key : string) (w : World S) : result minio.ObjectInfo.t :=
  (minio.StatObject (MinIOService.Client s) (MinIOService.BucketName s) key (backend w)).1.

Definition stat_world (key : string) (w : World S) : World S :=
  mkWorld
    (minio.StatObject (MinIOService.Client s) (MinIOService.BucketName s) key (backend w)).2
    (calls w ++ [minio.CallStatObject (MinIOService.BucketName s) key]).

(** The same for a presigned-URL request and for an object write. *)
Definition presign_reply (key : string) (expiry : time.Duration) (w : World S)
    : result string :=
  (minio.PresignedGetObject (MinIOService.Client s) (MinIOService.BucketName s) key
                            expiry (backend w)).1.

Definition presign_world (key : string) (expiry : time.Duration) (w : World S) : World S :=
  mkWorld
    (minio.PresignedGetObject (MinIOService.Client s) (MinIOService.BucketName s) key
                              expiry (backend w)).2
    (calls w ++ [minio.CallPresignedGetObject (MinIOService.BucketName s) key expiry]).

Definition put_reply (key : string) (data : list Byte.byte) (size : Z)
    (contentType : string) (w : World S) : result minio.UploadInfo.t :=
  (minio.PutObject (MinIOService.Client s) (MinIOService.BucketName s) key data size
                   contentType (backend w)).1.

Definition put_world (key : string) (data : list Byte.byte) (size : Z)
    (contentType : string) (w : World S) : World S :=
  mkWorld
    (minio.PutObject (MinIOService.Client s) (MinIOService.BucketName s) key data size
                     contentType (backend w)).2
    (calls w ++ [minio.CallPutObject (MinIOService.BucketName s) key size contentType]).

(** The same for a listing. *)
Definition list_reply (prefix : string) (w : World S) : list minio.ObjectInfo.t :=
  (minio.ListObjects (MinIOService.Client s) (MinIOService.BucketName s) prefix true
                     (backend w)).1.

Definition list_world (prefix : string) (w : World S) : World S :=
  mkWorld
    (minio.ListObjects (MinIOService.Client s) (MinIOService.BucketName s) prefix true
                       (backend w)).2
    (calls w ++ [minio.CallListObjects (MinIOService.BucketName s) prefix true]).

(** The 24-hour URL requests for the objects of a listing, issued one
    after the other from [w]: what each request returned, and the world
    after the last. *)
Fixpoint presignEach (objects : list minio.ObjectInfo.t) (w : World S)
    : list (string * option error) * World S :=
  match objects with
  | [] => ([], w)
  | obj :: rest =>
      let u := server.getObjectURL s (minio.ObjectInfo.Key obj) (time.Hour * 24) w in
      let following := presignEach rest u.2 in
      (u.1 :: following.1, following.2)
  end.

(** The answer of the backend to the bucket probe in a backend state, and
    the world after [n] calls of [ensureBucket] in succession. *)
Definition probe_reply (st : S) : result bool :=
  (minio.BucketExists (MinIOService.Client s) (MinIOService.BucketName s) st).1.

Definition ensureBucket_times (n : nat) (w : World S) : World S :=
  Nat.iter n (fun w' => (server.ensureBucket s w').2) w.

(** The calls that running [m] from [w] added to the log. *)
Definition issued {A : Type} (m : M S A) (w : World S) : list minio.Call :=
  drop (length (calls w)) (calls (m w).2).

(** The backend state that one call of [ensureBucket] leaves. *)
Definition after_ensureBucket (st : S) : S :=
  let probed :=
    (minio.BucketExists (MinIOService.Client s) (MinIOService.BucketName s) st).2 in
  match (minio.BucketExists (MinIOService.Client s) (MinIOService.BucketName s) st).1 with
  | Ok false =>
      (minio.MakeBucket (MinIOService.Client s) (MinIOService.BucketName s)
                        (MinIOService.Location s) probed).2
  | _ => probed
  end.

(** A computation that, from any world, only adds calls that satisfy [P]
    to the log. *)
Definition adds_only {A : Type} (P : minio.Call -> Prop) (m : M S A) : Prop :=
  forall w : World S,
    exists added : list minio.Call,
      calls (m w).2 = calls w ++ added /\ Forall P added.

End Observations.

Definition not_remove (c : minio.Call) : Prop := minio.is_remove c = false.

(** The descriptor the list handler appends for an object, given what the
    URL request returned. *)
Definition listed_entry (obj : minio.ObjectInfo.t) (u : string * option error)
    : FileInfo.t :=
  {| FileInfo.FileName := filepath.Base (minio.ObjectInfo.Key obj);
     FileInfo.Size := minio.ObjectInfo.Size obj;
     FileInfo.ContentType := minio.ObjectInfo.ContentType obj;
     FileInfo.URL := u.1;
     FileInfo.UploadedAt := minio.ObjectInfo.LastModified obj |}.

(** The object key and the content type the upload handler derives from
    the clock and the file part, named for use in statements. *)
Definition upload_key (h : Host.t) (handler : FileHeader.t) : string :=
  "uploads/" +:+ fmt_d (time.Unix (Host.Now h 0)) +:+ "-" +:+ FileHeader.Filename handler.

Definition upload_content_type (handler : FileHeader.t) : string :=
  let contentType := Get (FileHeader.Header handler) "Content-Type" in
  if decide (contentType = "") then "application/octet-stream" else contentType.

(** ** Package storage: the remaining methods

    [DownloadFile] (and [downloadFile] of package main), which hands a
    local path to the client library, is left out. *)
Module storage_rest.
Section Methods.
Context {S : Type}.
Implicit Types s : MinIOService.t S.

Definition NewMinIOService
    (New : string -> string -> string -> bool -> result (minio.Client S))
    (config : MinIOConfig.t) : M S (result (MinIOService.t S)) :=
  match New (MinIOConfig.Endpoint config) (MinIOConfig.AccessKeyID config)
            (MinIOConfig.SecretAccessKey config) (MinIOConfig.UseSSL config) with
  | Fail err => ret (Fail (Errorf_w "failed to initialize MinIO client" err))
  | Ok client =>
      let service := MinIOService.mk client (MinIOConfig.BucketName config)
                                     (MinIOConfig.Location config) in
      e <- storage.EnsureBucket service ;;
      match e with
      | Some err => ret (Fail (Errorf_w "failed to ensure bucket exists" err))
      | None => ret (Ok service)
      end
  end.

Definition UploadFile (h : Host.t) s (objectName filePath contentType : string)
    : M S (minio.UploadInfo.t * option error) :=
  match Host.Open h filePath with
  | Fail err => ret (minio.UploadInfo.mk 0, Some (Errorf_w "failed to open file" err))
  | Ok file =>
      match Host.Stat h filePath with
      | Fail err =>
          ret (minio.UploadInfo.mk 0, Some (Errorf_w "failed to get file stats" err))
      | Ok size =>
          let bucket := MinIOService.BucketName s in
          r <- invoke (minio.CallPutObject bucket objectName size contentType)
                      (minio.PutObject (MinIOService.Client s) bucket objectName
                                       file size contentType) ;;
          match r with
          | Fail err =>
              ret (minio.UploadInfo.mk 0, Some (Errorf_w "failed to upload file" err))
          | Ok uploadInfo => ret (uploadInfo, None)
          end
      end
  end.

Definition UploadBuffer s (objectName : string) (data : list Byte.byte)
    (contentType : string) : M S (minio.UploadInfo.t * option error) :=
  let bucket := MinIOService.BucketName s in
  let size := Z.of_nat (length data) in
  r <- invoke (minio.CallPutObject bucket objectName size contentType)
              (minio.PutObject (MinIOService.Client s) bucket objectName data size
                               contentType) ;;
  match r with
  | Fail err => ret (minio.UploadInfo.mk 0, Some (Errorf_w "failed to upload data" err))
  | Ok uploadInfo => ret (uploadInfo, None)
  end.

Definition DownloadBuffer s (objectName : string)
    : M S (list Byte.byte * option error) :=
  let bucket := MinIOService.BucketName s in
  r <- invoke (minio.CallGetObject bucket objectName)
              (minio.GetObject (MinIOService.Client s) bucket objectName) ;;
  match r with
  | Fail err => ret ([], Some (Errorf_w "failed to get object" err))
  | Ok obj =>
      match obj with
      | Fail err => ret ([], Some (Errorf_w "failed to read object data" err))
      | Ok data => ret (data, None)
      end
  end.

(** The loop of [ListObjects] over the items of the channel. *)
Fixpoint collectObjects (items objects : list minio.ObjectInfo.t)
    : list minio.ObjectInfo.t * option error :=
  match items with
  | [] => (objects, None)
  | object :: rest =>
      match minio.ObjectInfo.Err object with
      | Some err => ([], Some (Errorf_w "error listing objects" err))
      | None => collectObjects rest (objects ++ [object])
      end
  end.

Definition ListObjects s (prefix : string)
    : M S (list minio.ObjectInfo.t * option error) :=
  let bucket := MinIOService.BucketName s in
  objectCh <- invoke (minio.CallListObjects bucket prefix true)
                     (minio.ListObjects (MinIOService.Client s) bucket prefix true) ;;
  ret (collectObjects objectCh []).

Definition GetObjectURL s (objectName : string) (expiry : time.Duration)
    : M S (string * option error) :=
  let bucket := MinIOService.BucketName s in
  r <- invoke (minio.CallPresignedGetObject bucket objectName expiry)
              (minio.PresignedGetObject (MinIOService.Client s) bucket objectName
                                        expiry) ;;
  match r with
  | Fail err => ret ("", Some (Errorf_w "failed to generate presigned URL" err))
  | Ok presignedURL => ret (presignedURL, None)
  end.

End Methods.
End storage_rest.

(** ** Further observations *)

(** What the backend answers to a request for the object [key] in the
    state of [w], and the world after it. *)
Definition get_reply {S : Type} (s : MinIOService.t S) (key : string) (w : World S)
    : result minio.Object :=
  (minio.GetObject (MinIOService.Client s) (MinIOService.BucketName s) key (backend w)).1.

Definition get_world {S : Type} (s : MinIOService.t S) (key : string) (w : World S)
    : World S :=
  mkWorld
    (minio.GetObject (MinIOService.Client s) (MinIOService.BucketName s) key (backend w)).2
    (calls w ++ [minio.CallGetObject (MinIOService.BucketName s) key]).

(** What the backend answers to the creation of the bucket, asked after
    the probe made from the backend state [st]. *)
Definition make_reply {S : Type} (s : MinIOService.t S) (st : S) : option error :=
  (minio.MakeBucket (MinIOService.Client s) (MinIOService.BucketName s)
     (MinIOService.Location s)
     (minio.BucketExists (MinIOService.Client s) (MinIOService.BucketName s) st).2).1.

(** The bucket a call names. *)
Definition call_bucket (c : minio.Call) : string :=
  match c with
  | minio.CallBucketExists bucket => bucket
  | minio.CallMakeBucket bucket _ => bucket
  | minio.CallPutObject bucket _ _ _ => bucket
  | minio.CallGetObject bucket _ => bucket
  | minio.CallListObjects bucket _ _ => bucket
  | minio.CallRemoveObject bucket _ => bucket
  | minio.CallPresignedGetObject bucket _ _ => bucket
  | minio.CallStatObject bucket _ => bucket
  end.

(** Calls that only read objects: stat, get, list and presign. *)
Definition is_object_read (c : minio.Call) : bool :=
  match c with
  | minio.CallGetObject _ _ | minio.CallListObjects _ _ _
  | minio.CallPresignedGetObject _ _ _ | minio.CallStatObject _ _ => true
  | _ => false
  end.

(** The call that writes an object. *)
Definition is_write (c : minio.Call) : bool :=
  match c with
  | minio.CallPutObject _ _ _ _ => true
  | _ => false
  end.

(** Calls of bucket provisioning: the probe and the creation. *)
Definition is_provisioning (c : minio.Call) : bool :=
  match c with
  | minio.CallBucketExists _ | minio.CallMakeBucket _ _ => true
  | _ => false
  end.

(** A computation whose value, from any world, satisfies [P]. *)
Definition returns {S A : Type} (P : A -> Prop) (m : M S A) : Prop :=
  forall w : World S, P (m w).1.

(** The shape of a reply: a JSON body is an envelope whose [success] is
    true exactly when the status is 200, that carries a [message], and that
    carries [data] only on success. *)
Definition envelope_ok (reply : Written.t) : Prop :=
  match Written.Body reply with
  | BodyJSON v =>
      exists (success : bool) (message : string),
        json.field "success" v = Some (json.JBool success)
        /\ json.field "message" v = Some (json.JString message)
        /\ (success = true <-> Written.StatusCode reply = 200)
        /\ (success = false -> json.field "data" v = None)
  | _ => True
  end.

(** The status codes the server answers with. *)
Definition known_status (reply : Written.t) : Prop :=
  Written.StatusCode reply ∈ [200; 301; 302; 400; 404; 405; 500; 503].

Definition outcome_ok (o : server.Outcome) : Prop :=
  match o with
  | server.Replied reply => envelope_ok reply /\ known_status reply
  | server.Panicked => False
  end.

(** The decimal digits. *)
Definition is_digit (c : ascii) : Prop :=
  c ∈ ["0"; "1"; "2"; "3"; "4"; "5"; "6"; "7"; "8"; "9"]%char.

(** A string without a path separator. *)
Definition no_slash (str : string) : Prop :=
  Forall (fun c => c <> filepath.slash) (list_ascii_of_string str).

(** The presign calls of a listing, one per object, in order. *)
Definition presign_calls (bucket : string) (objects : list minio.ObjectInfo.t)
    : list minio.Call :=
  map (fun obj => minio.CallPresignedGetObject bucket (minio.ObjectInfo.Key obj)
                                               (time.Hour * 24)) objects.

(** * Properties *)

(** ** Reasoning about gateway computations *)

Lemma bind_run {S A B : Type} (m : M S A) (k : A -> M S B) (w : World S) :
  bind m k w = k (m w).1 (m w).2.
Proof. unfold bind. destruct (m w); reflexivity. Qed.

Lemma invoke_run {S A : Type} (c : minio.Call) (op : S -> A * S) (w : World S) :
  invoke c op w = ((op (backend w)).1, mkWorld (op (backend w)).2 (calls w ++ [c])).
Proof. unfold invoke. destruct (op (backend w)); reflexivity. Qed.

(** ** Configuration *)

Lemma server_getEnv_nonempty (env : os.Environ) (key defaultValue : string) :
  defaultValue <> "" -> server.getEnv env key defaultValue <> "".
Proof. unfold server.getEnv. simpl. case_decide; auto. Qed.

Lemma config_getEnv_nonempty (env : os.Environ) (key defaultValue : string) :
  defaultValue <> "" -> config.getEnv env key defaultValue <> "".
Proof. unfold config.getEnv. simpl. case_decide; auto. Qed.

(** The two loaders are the same function. *)
Lemma loaders_agree (env : os.Environ) :
  config.LoadMinIOConfig env = server.loadMinIOConfig env.
Proof. reflexivity. Qed.

(** With the defaults of the source no environment makes a required field
    empty: the loader never returns an error. *)
Lemma loadMinIOConfig_never_fails (env : os.Environ) :
  (server.loadMinIOConfig env).2 = None.
Proof.
  unfold server.loadMinIOConfig, server.loadMinIOConfig_checks. simpl.
  repeat case_decide; try reflexivity;
    match goal with
    | H : server.getEnv _ _ _ = "" |- _ =>
        exfalso; revert H; apply server_getEnv_nonempty; discriminate
    end.
Qed.

Lemma getEnvBool_agree (env : os.Environ) (key : string) (d : bool) :
  config.getEnvBool env key d = server.getEnvBool env key d.
Proof. reflexivity. Qed.

Lemma getEnvBool_differs (env : os.Environ) (key : string) (d : bool) :
  server.getEnvBool env key d <> d ->
  strconv.ParseBool (os.Getenv env key) = Some (server.getEnvBool env key d).
Proof.
  unfold server.getEnvBool. simpl. case_decide; [congruence |].
  destruct (strconv.ParseBool (os.Getenv env key)); congruence.
Qed.

(** C10: a boolean variable that is set to a value [strconv.ParseBool]
    rejects yields the default, in package main and in package config alike;
    loading the configuration reports no error for it (the TLS flag is read
    with [getEnvBool] and the loader returns no error); and whenever the
    result differs from the default, the value parsed and the result is the
    parsed boolean. *)
Theorem C10_unparseable_bool_yields_default :
  forall (env : os.Environ) (key value : string) (defaultValue : bool),
    env !! key = Some value ->
    strconv.ParseBool value = None ->
    server.getEnvBool env key defaultValue = defaultValue
    /\ config.getEnvBool env key defaultValue = defaultValue
    /\ MinIOConfig.UseSSL (server.loadMinIOConfig env).1
       = server.getEnvBool env "MINIO_USE_SSL" false
    /\ MinIOConfig.UseSSL (config.LoadMinIOConfig env).1
       = config.getEnvBool env "MINIO_USE_SSL" false
    /\ (server.loadMinIOConfig env).2 = None
    /\ (config.LoadMinIOConfig env).2 = None
    /\ (forall (env' : os.Environ) (key' : string) (d : bool),
          server.getEnvBool env' key' d <> d ->
          strconv.ParseBool (os.Getenv env' key') = Some (server.getEnvBool env' key' d))
    /\ (forall (env' : os.Environ) (key' : string) (d : bool),
          config.getEnvBool env' key' d <> d ->
          strconv.ParseBool (os.Getenv env' key') = Some (config.getEnvBool env' key' d)).
Proof.
  intros env key value d Hset Hbad.
  assert (Hd : server.getEnvBool env key d = d).
  { unfold server.getEnvBool, os.Getenv. rewrite Hset. simpl.
    case_decide; [reflexivity |]. rewrite Hbad. reflexivity. }
  split; [exact Hd |].
  split; [rewrite getEnvBool_agree; exact Hd |].
  split.
  { unfold server.loadMinIOConfig, server.loadMinIOConfig_checks. simpl.
    repeat case_decide; reflexivity. }
  split.
  { rewrite loaders_agree, getEnvBool_agree.
    unfold server.loadMinIOConfig, server.loadMinIOConfig_checks. simpl.
    repeat case_decide; reflexivity. }
  split; [apply loadMinIOConfig_never_fails |].
  split; [rewrite loaders_agree; apply loadMinIOConfig_never_fails |].
  split; intros env' key' d'.
  - apply getEnvBool_differs.
  - rewrite getEnvBool_agree. apply getEnvBool_differs.
Qed.

Lemma C10_witness :
  let env : os.Environ := {["MINIO_USE_SSL" := "yes"]} in
  server.getEnvBool env "MINIO_USE_SSL" true = true
  /\ MinIOConfig.UseSSL (server.loadMinIOConfig env).1 = false
  /\ (server.loadMinIOConfig env).2 = None.
Proof.
  intros env.
  destruct (C10_unparseable_bool_yields_default env "MINIO_USE_SSL" "yes" true)
    as (H1 & _ & H3 & _ & H5 & _); [reflexivity | reflexivity |].
  destruct (C10_unparseable_bool_yields_default env "MINIO_USE_SSL" "yes" false)
    as (H1' & _); [reflexivity | reflexivity |].
  split; [exact H1 |]. split; [rewrite H3; exact H1' | exact H5].
Defined.

Lemma loadMinIOConfig_checks_fst (cfg : MinIOConfig.t) :
  (server.loadMinIOConfig_checks cfg).1 = cfg.
Proof. unfold server.loadMinIOConfig_checks. repeat case_decide; reflexivity. Qed.

Lemma loadMinIOConfig_is_checked (env : os.Environ) :
  server.loadMinIOConfig env = server.loadMinIOConfig_checks (server.loadMinIOConfig env).1.
Proof.
  unfold server.loadMinIOConfig at 2. cbv zeta.
  rewrite loadMinIOConfig_checks_fst. reflexivity.
Qed.

Lemma loadMinIOConfig_value (env : os.Environ) :
  server.loadMinIOConfig env
  = ({| MinIOConfig.Endpoint := server.getEnv env "MINIO_ENDPOINT" "localhost:9000";
        MinIOConfig.AccessKeyID := server.getEnv env "MINIO_ACCESS_KEY" "minio_admin";
        MinIOConfig.SecretAccessKey :=
          server.getEnv env "MINIO_SECRET_KEY" "minio_password";
        MinIOConfig.UseSSL := server.getEnvBool env "MINIO_USE_SSL" false;
        MinIOConfig.BucketName := server.getEnv env "MINIO_BUCKET" "mybucket";
        MinIOConfig.Location := server.getEnv env "MINIO_LOCATION" "us-east-1" |}, None).
Proof.
  pose proof (loadMinIOConfig_never_fails env) as Hnone.
  pose proof (loadMinIOConfig_is_checked env) as Hchk.
  destruct (server.loadMinIOConfig env) as [cfg e] eqn:E. simpl in Hnone. subst e.
  f_equal. unfold server.loadMinIOConfig in E. cbv zeta in E.
  match type of E with
  | server.loadMinIOConfig_checks ?c = _ =>
      pose proof (loadMinIOConfig_checks_fst c) as Hfst; rewrite E in Hfst
  end.
  simpl in Hfst. exact Hfst.
Qed.

Lemma getEnv_empty_is_unset (env : os.Environ) (key defaultValue : string) :
  env !! key = Some "" -> server.getEnv env key defaultValue = defaultValue.
Proof. intros H. unfold server.getEnv, os.Getenv. rewrite H. reflexivity. Qed.

Lemma getEnv_unset (env : os.Environ) (key defaultValue : string) :
  env !! key = None -> server.getEnv env key defaultValue = defaultValue.
Proof. intros H. unfold server.getEnv, os.Getenv. rewrite H. reflexivity. Qed.

Lemma getEnv_set (env : os.Environ) (key value defaultValue : string) :
  env !! key = Some value -> value <> "" -> server.getEnv env key defaultValue = value.
Proof.
  intros H Hne. unfold server.getEnv, os.Getenv. rewrite H. simpl.
  case_decide; [contradiction | reflexivity].
Qed.

Lemma main_run {S : Type}
    (New : string -> string -> string -> bool -> result (minio.Client S))
    (env : os.Environ) (w : World S) :
  let cfg := (server.loadMinIOConfig env).1 in
  server.main New env w
  = match New (MinIOConfig.Endpoint cfg) (MinIOConfig.AccessKeyID cfg)
              (MinIOConfig.SecretAccessKey cfg) (MinIOConfig.UseSSL cfg) with
    | Fail err =>
        (server.Fatal ("Failed to initialize MinIO service: "
                       +:+ "failed to initialize MinIO client: " +:+ Error err), w)
    | Ok client =>
        let service := MinIOService.mk client (MinIOConfig.BucketName cfg)
                                       (MinIOConfig.Location cfg) in
        (match (server.ensureBucket service w).1 with
         | Some err =>
             server.Fatal ("Failed to initialize MinIO service: "
                           +:+ "failed to ensure bucket exists: " +:+ Error err)
         | None => server.Serving (server.getEnv env "PORT" "8080") service
         end, (server.ensureBucket service w).2)
    end.
Proof.
  intros cfg. subst cfg. unfold server.main.
  rewrite loadMinIOConfig_value. simpl.
  unfold server.startup, server.newMinIOService. simpl.
  destruct (New _ _ _ _) as [client | err]; [| reflexivity].
  rewrite !bind_run. simpl.
  destruct (server.ensureBucket _ w).1 as [err |]; reflexivity.
Qed.




(** ** The existence check *)

Section ExistenceCheck.
Context {S : Type} (s : MinIOService.t S).

Lemma checkObjectExists_run (key : string) (w : World S) :
  server.checkObjectExists s key w =
    (match stat_reply s key w with
     | Ok _ => (true, None)
     | Fail err =>
         if decide (minio.ToErrorResponse_Code err = "NoSuchKey") then (false, None)
         else (false, Some (Errorf_w "failed to check if object exists" err))
     end, stat_world s key w).
Proof.
  unfold server.checkObjectExists, stat_reply, stat_world, bind, invoke, ret.
  destruct (minio.StatObject _ _ _ _) as [[info | err] st]; simpl; [reflexivity |].
  case_decide; reflexivity.
Qed.

Lemma CheckObjectExists_agree (key : string) (w : World S) :
  storage.CheckObjectExists s key w = server.checkObjectExists s key w.
Proof. reflexivity. Qed.

End ExistenceCheck.

(** C2: [checkObjectExists] returns [false] with a nil error exactly when
    the backend's stat fails with the not-found code [NoSuchKey]; it returns
    an error exactly when the stat fails with any other error, and then the
    error wraps the backend's and the boolean is [false]; it returns [true]
    with a nil error exactly when the stat succeeds.  The exported
    [CheckObjectExists] of package storage behaves the same. *)
Theorem C2_not_found_is_distinguished :
  forall (S : Type) (s : MinIOService.t S) (key : string) (w : World S),
    let out := (server.checkObjectExists s key w).1 in
    (out = (false, None)
       <-> exists err, stat_reply s key w = Fail err
                       /\ minio.ToErrorResponse_Code err = "NoSuchKey")
    /\ (is_Some out.2
       <-> exists err, stat_reply s key w = Fail err
                       /\ minio.ToErrorResponse_Code err <> "NoSuchKey")
    /\ (forall err, stat_reply s key w = Fail err ->
                    minio.ToErrorResponse_Code err <> "NoSuchKey" ->
                    out = (false, Some (Errorf_w "failed to check if object exists" err)))
    /\ (out = (true, None) <-> exists info, stat_reply s key w = Ok info)
    /\ storage.CheckObjectExists s key w = server.checkObjectExists s key w.
Proof.
  intros S s key w out. subst out.
  split; [| split; [| split; [| split; [| reflexivity]]]];
    rewrite checkObjectExists_run; simpl.
  - destruct (stat_reply s key w) as [info | err].
    + split; [discriminate | intros (e & He & _); discriminate].
    + case_decide as Hc; split.
      * intros _. eauto.
      * reflexivity.
      * discriminate.
      * intros (e & He & Hk). congruence.
  - destruct (stat_reply s key w) as [info | err]; simpl.
    + split; [intros [x Hx]; discriminate | intros (e & He & _); discriminate].
    + case_decide as Hc; simpl; split.
      * intros [x Hx]; discriminate.
      * intros (e & He & Hne). congruence.
      * intros _. eauto.
      * intros _. eauto.
  - intros err ->. intros Hne. case_decide; [contradiction | reflexivity].
  - destruct (stat_reply s key w) as [info | err].
    + split; eauto.
    + case_decide; (split; [discriminate | intros [i Hi]; discriminate]).
Qed.

Lemma C2_witness :
  (server.checkObjectExists (memstore.service memstore.no_faults) "uploads/none"
     (memstore.start memstore.sample)).1 = (false, None)
  /\ (server.checkObjectExists
        (memstore.service
           (memstore.mkFaults None None None None (fun _ => None)
              (fun _ => Some (OtherError "connection refused"))))
        "uploads/none" (memstore.start memstore.sample)).1
     = (false, Some (OtherError "failed to check if object exists: connection refused")).
Proof.
  pose proof (C2_not_found_is_distinguished memstore.Store
                (memstore.service memstore.no_faults) "uploads/none"
                (memstore.start memstore.sample)) as Habsent.
  pose proof (C2_not_found_is_distinguished memstore.Store
                (memstore.service
                   (memstore.mkFaults None None None None (fun _ => None)
                      (fun _ => Some (OtherError "connection refused"))))
                "uploads/none" (memstore.start memstore.sample)) as Hdown.
  cbv zeta in Habsent, Hdown.
  destruct Habsent as ([_ Habsent] & _).
  destruct Hdown as (_ & _ & Hdown & _).
  split.
  - apply Habsent. exists memstore.NoSuchKey. split; reflexivity.
  - apply (Hdown (OtherError "connection refused")); [reflexivity | discriminate].
Defined.

(** ** The retrieve route *)

Lemma substring_all (str : string) : String.substring 0 (String.length str) str = str.
Proof. induction str as [| c str IH]; simpl; [reflexivity | now rewrite IH]. Qed.

Lemma slice_from_files (key : string) :
  server.slice_from ("/files/" +:+ key) (String.length "/files/") = Some key.
Proof.
  unfold server.slice_from. simpl String.length.
  case_decide as H; [| exfalso; apply H; lia].
  f_equal. simpl. rewrite Nat.sub_0_r. apply substring_all.
Qed.

Lemma serve_files_subtree {S : Type} (cleanPath : string -> string) (h : Host.t)
    (s : MinIOService.t S) (r : Request.t) (key : string) :
  Request.Path r = "/files/" +:+ key ->
  cleanPath (Request.Path r) = Request.Path r ->
  server.serve cleanPath h s r = server.getFileHandler s r.
Proof.
  intros Hp Hclean. unfold server.serve. rewrite Hclean, Hp.
  case_decide as Hd; [exfalso; apply (proj2 Hd); reflexivity |].
  assert (Hpre : String.prefix "/files/" ("/files/" +:+ key) = true)
    by (apply String.prefix_correct; destruct key; reflexivity).
  unfold server.routes. simpl server.exactMatch.
  repeat (case_decide; [discriminate |]).
  case_decide; [reflexivity |].
  unfold server.subtreeMatch.
  change (server.ends_in_slash "/upload") with false.
  change (server.ends_in_slash "/files") with false.
  change (server.ends_in_slash "/files/") with true.
  cbn [andb]. rewrite Hpre. reflexivity.
Qed.

(** C1: for a GET request whose path is [/files/] followed by [key] (the
    subtree that [main] registers the retrieve handler for), the handler
    behaves as follows.  If [key] is empty the reply is the 400
    envelope and the world is unchanged: no backend call is made.  If the
    existence check returns [false] without error the reply is the 404
    envelope, and if it returns an error the reply is the 500 envelope
    whose message ends with the text of that error; in both cases the
    existence check is the only thing that touched the world. *)
Theorem C1_retrieve_error_replies :
  forall (S : Type) (s : MinIOService.t S) (r : Request.t) (w : World S) (key : string),
    Request.Method r = http.MethodGet ->
    Request.Path r = "/files/" +:+ key ->
    (key = "" ->
        server.getFileHandler s r w
        = (server.Replied (server.sendResponse false "Object name is required" None 400), w))
    /\ (key <> "" ->
        (server.checkObjectExists s key w).1 = (false, None) ->
        server.getFileHandler s r w
        = (server.Replied (server.sendResponse false "File not found" None 404),
           (server.checkObjectExists s key w).2))
    /\ (key <> "" ->
        forall (b : bool) (err : error),
          (server.checkObjectExists s key w).1 = (b, Some err) ->
          server.getFileHandler s r w
          = (server.Replied
               (server.sendResponse false ("Error checking object: " +:+ Error err) None 500),
             (server.checkObjectExists s key w).2)).
Proof.
  intros S s r w key Hm Hp.
  unfold server.getFileHandler. rewrite Hm, Hp, slice_from_files.
  case_decide as Hget; [exfalso; apply Hget; reflexivity |].
  split; [| split].
  - intros ->. reflexivity.
  - intros Hk Hc. case_decide; [contradiction |].
    rewrite bind_run, Hc. reflexivity.
  - intros Hk b err Hc. case_decide; [contradiction |].
    rewrite bind_run, Hc. reflexivity.
Qed.

Lemma C1_witness :
  let down := memstore.mkFaults None None None None (fun _ => None)
                (fun _ => Some (OtherError "connection refused")) in
  let w := memstore.start memstore.sample in
  server.getFileHandler (memstore.service memstore.no_faults) (memstore.get "/files/" []) w
  = (server.Replied (server.sendResponse false "Object name is required" None 400), w)
  /\ (server.getFileHandler (memstore.service memstore.no_faults)
                            (memstore.get "/files/uploads/none" []) w).1
     = server.Replied (server.sendResponse false "File not found" None 404)
  /\ (server.getFileHandler (memstore.service down)
                            (memstore.get "/files/uploads/none" []) w).1
     = server.Replied
         (server.sendResponse false
            "Error checking object: failed to check if object exists: connection refused"
            None 500).
Proof.
  intros down w.
  destruct (C1_retrieve_error_replies memstore.Store
              (memstore.service memstore.no_faults) (memstore.get "/files/" []) w ""
              eq_refl eq_refl) as (H400 & _).
  destruct (C1_retrieve_error_replies memstore.Store
              (memstore.service memstore.no_faults)
              (memstore.get "/files/uploads/none" []) w "uploads/none"
              eq_refl eq_refl) as (_ & H404 & _).
  destruct (C1_retrieve_error_replies memstore.Store
              (memstore.service down)
              (memstore.get "/files/uploads/none" []) w "uploads/none"
              eq_refl eq_refl) as (_ & _ & H500).
  split; [| split].
  - apply H400. reflexivity.
  - rewrite H404; [reflexivity | discriminate | reflexivity].
  - rewrite
      (H500 ltac:(discriminate) false
            (OtherError "failed to check if object exists: connection refused") eq_refl).
    reflexivity.
Defined.

(** ** The upload route *)

Section Upload.
Context {S : Type} (h : Host.t) (s : MinIOService.t S).

Lemma getObjectURL_run (objectName : string) (expiry : time.Duration) (w : World S) :
  server.getObjectURL s objectName expiry w =
    (match presign_reply s objectName expiry w with
     | Ok url => (url, None)
     | Fail err => ("", Some (Errorf_w "failed to generate presigned URL" err))
     end, presign_world s objectName expiry w).
Proof.
  unfold server.getObjectURL, presign_reply, presign_world, bind, invoke, ret.
  destruct (minio.PresignedGetObject _ _ _ _ _) as [[url | err] st]; reflexivity.
Qed.

Lemma uploadFile_run (objectName filePath contentType : string)
    (content : list Byte.byte) (size : Z) (w : World S) :
  Host.Open h filePath = Ok content ->
  Host.Stat h filePath = Ok size ->
  server.uploadFile h s objectName filePath contentType w =
    (match put_reply s objectName content size contentType w with
     | Ok uploadInfo => (uploadInfo, None)
     | Fail err => (minio.UploadInfo.mk 0, Some (Errorf_w "failed to upload file" err))
     end, put_world s objectName content size contentType w).
Proof.
  intros Ho Hs.
  unfold server.uploadFile, put_reply, put_world, bind, invoke, ret.
  rewrite Ho, Hs.
  destruct (minio.PutObject _ _ _ _ _ _ _) as [[info | err] st]; reflexivity.
Qed.

(** The handler from the point where the temporary copy exists. *)
Lemma uploadHandler_accepted (r : Request.t) (handler : FileHeader.t)
    (file : list Byte.byte) (tempFile : string) (w : World S) :
  Request.Method r = http.MethodPost ->
  Request.FormFile r "file" = Ok (handler, file) ->
  Host.CreateTemp h ("upload-*" +:+ filepath.Ext (FileHeader.Filename handler))
    = Ok tempFile ->
  Host.Copy h tempFile file = None ->
  let objectName := upload_key h handler in
  let contentType := upload_content_type handler in
  server.uploadHandler h s r w =
    let up := server.uploadFile h s objectName tempFile contentType w in
    match up.1 with
    | (_, Some err) =>
        (server.sendResponse false ("Error uploading to MinIO: " +:+ Error err) None 500,
         up.2)
    | (uploadInfo, None) =>
        let u := server.getObjectURL s objectName (time.Hour * 24) up.2 in
        (server.sendResponse true "File uploaded successfully"
           (Some (DataFileInfo {|
              FileInfo.FileName := FileHeader.Filename handler;
              FileInfo.Size := minio.UploadInfo.Size uploadInfo;
              FileInfo.ContentType := contentType;
              FileInfo.URL := u.1.1;
              FileInfo.UploadedAt := Host.Now h 1 |})) 200,
         u.2)
    end.
Proof.
  intros Hm Hf Ht Hc objectName contentType.
  unfold server.uploadHandler. rewrite Hm, Hf, Ht, Hc.
  case_decide as Hpost; [exfalso; apply Hpost; reflexivity |].
  fold (upload_key h handler). fold (upload_content_type handler).
  fold objectName. fold contentType.
  rewrite bind_run.
  destruct (server.uploadFile h s objectName tempFile contentType w) as [[ui [e |]] w1];
    simpl; [reflexivity |].
  rewrite bind_run. reflexivity.
Qed.

End Upload.

(** C7: when an upload passes validation (POST, a [file] part named [f]
    whose part header gives content type [c], a temporary copy that can be
    written, opened and measured), the handler writes the object under the
    key "uploads/" + decimal Unix time of the upload + "-" + [f], with
    content type [c], or [application/octet-stream] when [c] is empty: that
    is the first call it issues and the transition the backend makes; the
    only other call is the request for a URL of that same key, made when the
    write succeeded. *)
Theorem C7_upload_key_and_content_type :
  forall (S : Type) (h : Host.t) (s : MinIOService.t S) (r : Request.t) (w : World S)
         (f : string) (header : list (string * string)) (file content : list Byte.byte)
         (tempFile : string) (size : Z),
    Request.Method r = http.MethodPost ->
    Request.FormFile r "file" = Ok (FileHeader.mk f header, file) ->
    Host.CreateTemp h ("upload-*" +:+ filepath.Ext f) = Ok tempFile ->
    Host.Copy h tempFile file = None ->
    Host.Open h tempFile = Ok content ->
    Host.Stat h tempFile = Ok size ->
    let c := Get header "Content-Type" in
    let key := "uploads/" +:+ fmt_d (time.Unix (Host.Now h 0)) +:+ "-" +:+ f in
    let contentType := if decide (c = "") then "application/octet-stream" else c in
    let written := put_world s key content size contentType w in
    (server.uploadHandler h s r w).2
    = match put_reply s key content size contentType w with
      | Ok _ => presign_world s key (time.Hour * 24) written
      | Fail _ => written
      end
    /\ exists rest : list minio.Call,
         calls (server.uploadHandler h s r w).2
         = (calls w ++ minio.CallPutObject (MinIOService.BucketName s) key size contentType
                    :: rest)%list.
Proof.
  intros S h s r w f header file content tempFile size Hm Hf Ht Hc Ho Hs
         c key contentType written.
  rewrite (uploadHandler_accepted h s r (FileHeader.mk f header) file tempFile w Hm Hf Ht Hc).
  change (upload_key h (FileHeader.mk f header)) with key.
  change (upload_content_type (FileHeader.mk f header)) with contentType.
  cbv zeta. rewrite (uploadFile_run h s key tempFile contentType content size w Ho Hs).
  fold written.
  destruct (put_reply s key content size contentType w) as [info | err]; simpl.
  - rewrite getObjectURL_run. simpl. split; [reflexivity |].
    eexists. rewrite <- app_assoc. reflexivity.
  - split; [reflexivity |]. eexists. reflexivity.
Qed.

Lemma C7_witness :
  let h := memstore.host [Byte.x68; Byte.x69] 1718000000 1718000001 in
  let s := memstore.service memstore.no_faults in
  let w := memstore.start memstore.sample in
  let after_plain := (server.uploadHandler h s
                        (memstore.post_file "/upload" "a.txt" "" [Byte.x68; Byte.x69]) w).2 in
  let after_typed := (server.uploadHandler h s
                        (memstore.post_file "/upload" "a.txt" "text/plain"
                                            [Byte.x68; Byte.x69]) w).2 in
  calls after_plain
  = [minio.CallPutObject "mybucket" "uploads/1718000000-a.txt" 2 "application/octet-stream";
     minio.CallPresignedGetObject "mybucket" "uploads/1718000000-a.txt" (24 * time.Hour)]
  /\ memstore.objects (backend after_plain) !! ("mybucket", "uploads/1718000000-a.txt")
     = Some ("application/octet-stream", [Byte.x68; Byte.x69])
  /\ memstore.objects (backend after_typed) !! ("mybucket", "uploads/1718000000-a.txt")
     = Some ("text/plain", [Byte.x68; Byte.x69]).
Proof.
  intros h s w after_plain after_typed.
  destruct (C7_upload_key_and_content_type memstore.Store h s
              (memstore.post_file "/upload" "a.txt" "" [Byte.x68; Byte.x69]) w
              "a.txt" [] [Byte.x68; Byte.x69] [Byte.x68; Byte.x69] "/tmp/upload-*.txt" 2
              eq_refl eq_refl eq_refl eq_refl eq_refl eq_refl) as [Hplain _].
  destruct (C7_upload_key_and_content_type memstore.Store h s
              (memstore.post_file "/upload" "a.txt" "text/plain" [Byte.x68; Byte.x69]) w
              "a.txt" [("Content-Type", "text/plain")] [Byte.x68; Byte.x69]
              [Byte.x68; Byte.x69] "/tmp/upload-*.txt" 2
              eq_refl eq_refl eq_refl eq_refl eq_refl eq_refl) as [Htyped _].
  subst after_plain after_typed. rewrite Hplain, Htyped.
  vm_compute. repeat split; reflexivity.
Defined.

Lemma encodeFileInfo_without_url (f : FileInfo.t) :
  FileInfo.URL f = "" ->
  server.encodeFileInfo f
  = json.JObject [("fileName", json.JString (FileInfo.FileName f));
                  ("size", json.JNumber (FileInfo.Size f));
                  ("contentType", json.JString (FileInfo.ContentType f));
                  ("uploadedAt", json.JTime (FileInfo.UploadedAt f))].
Proof.
  intros H. unfold server.encodeFileInfo. rewrite H.
  case_decide; [reflexivity | contradiction].
Qed.

(** C3: when the object write of an upload has succeeded and the backend
    then fails to presign a URL for the key, the handler still replies with
    status 200 and the success envelope "File uploaded successfully"; the
    file descriptor in it has an empty [URL], so the JSON object written for
    it has no [url] field. *)
Theorem C3_upload_survives_presign_failure :
  forall (S : Type) (h : Host.t) (s : MinIOService.t S) (r : Request.t) (w w1 : World S)
         (f : string) (header : list (string * string)) (file : list Byte.byte)
         (tempFile : string) (uploadInfo : minio.UploadInfo.t) (err : error),
    Request.Method r = http.MethodPost ->
    Request.FormFile r "file" = Ok (FileHeader.mk f header, file) ->
    Host.CreateTemp h ("upload-*" +:+ filepath.Ext f) = Ok tempFile ->
    Host.Copy h tempFile file = None ->
    let c := Get header "Content-Type" in
    let key := "uploads/" +:+ fmt_d (time.Unix (Host.Now h 0)) +:+ "-" +:+ f in
    let contentType := if decide (c = "") then "application/octet-stream" else c in
    server.uploadFile h s key tempFile contentType w = ((uploadInfo, None), w1) ->
    presign_reply s key (time.Hour * 24) w1 = Fail err ->
    let fileInfo := {| FileInfo.FileName := f;
                       FileInfo.Size := minio.UploadInfo.Size uploadInfo;
                       FileInfo.ContentType := contentType;
                       FileInfo.URL := "";
                       FileInfo.UploadedAt := Host.Now h 1 |} in
    let reply := (server.uploadHandler h s r w).1 in
    reply = server.sendResponse true "File uploaded successfully"
                                (Some (DataFileInfo fileInfo)) 200
    /\ Written.StatusCode reply = 200
    /\ Written.Body reply
       = BodyJSON (json.JObject
           [("success", json.JBool true);
            ("message", json.JString "File uploaded successfully");
            ("data", json.JObject
               [("fileName", json.JString f);
                ("size", json.JNumber (minio.UploadInfo.Size uploadInfo));
                ("contentType", json.JString contentType);
                ("uploadedAt", json.JTime (Host.Now h 1))])])
    /\ json.field "url" (server.encodeFileInfo fileInfo) = None.
Proof.
  intros S h s r w w1 f header file tempFile uploadInfo err Hm Hf Ht Hc
         c key contentType Hup Hsign fileInfo reply.
  assert (Hreply : reply = server.sendResponse true "File uploaded successfully"
                             (Some (DataFileInfo fileInfo)) 200).
  { subst reply.
    rewrite (uploadHandler_accepted h s r (FileHeader.mk f header) file tempFile w
               Hm Hf Ht Hc).
    change (upload_key h (FileHeader.mk f header)) with key.
    change (upload_content_type (FileHeader.mk f header)) with contentType.
    cbv zeta. rewrite Hup. simpl. rewrite getObjectURL_run, Hsign. reflexivity. }
  split; [exact Hreply |]. rewrite Hreply.
  split; [reflexivity |]. split; reflexivity.
Qed.

Lemma C3_witness :
  let unsigned := memstore.mkFaults None None None None
                    (fun _ => Some (OtherError "signing failed")) (fun _ => None) in
  let reply := (server.uploadHandler (memstore.host [Byte.x68; Byte.x69] 1718000000 1718000001)
                  (memstore.service unsigned)
                  (memstore.post_file "/upload" "a.txt" "text/plain" [Byte.x68; Byte.x69])
                  (memstore.start memstore.sample)).1 in
  Written.StatusCode reply = 200
  /\ Written.Body reply
     = BodyJSON (json.JObject
         [("success", json.JBool true);
          ("message", json.JString "File uploaded successfully");
          ("data", json.JObject
             [("fileName", json.JString "a.txt");
              ("size", json.JNumber 2);
              ("contentType", json.JString "text/plain");
              ("uploadedAt", json.JTime 1718000001)])]).
Proof.
  intros unsigned reply.
  edestruct (C3_upload_survives_presign_failure memstore.Store
               (memstore.host [Byte.x68; Byte.x69] 1718000000 1718000001)
               (memstore.service unsigned)
               (memstore.post_file "/upload" "a.txt" "text/plain" [Byte.x68; Byte.x69])
               (memstore.start memstore.sample))
    as (_ & Hcode & Hbody & _);
    [reflexivity | reflexivity | reflexivity | reflexivity
     | vm_compute; reflexivity | vm_compute; reflexivity |].
  split; [exact Hcode | exact Hbody].
Defined.

(** ** The list route *)

Section Listing.
Context {S : Type} (s : MinIOService.t S).

Lemma listObjects_run (prefix : string) (w : World S) :
  server.listObjects s prefix w
  = (server.collectObjects (list_reply s prefix w) [], list_world s prefix w).
Proof.
  unfold server.listObjects, list_reply, list_world, bind, invoke, ret.
  destruct (minio.ListObjects _ _ _ _ _) as [items st]. reflexivity.
Qed.

Lemma appendFileInfos_run (objects : list minio.ObjectInfo.t) :
  forall (fileList : list FileInfo.t) (w : World S),
    server.appendFileInfos s objects fileList w
    = (fileList ++ zip_with listed_entry objects (presignEach s objects w).1,
       (presignEach s objects w).2).
Proof.
  induction objects as [| obj rest IH]; intros fileList w.
  - simpl. unfold ret. rewrite app_nil_r. reflexivity.
  - simpl server.appendFileInfos. rewrite bind_run, IH. simpl.
    rewrite <- app_assoc. reflexivity.
Qed.

Lemma presignEach_length (objects : list minio.ObjectInfo.t) :
  forall w : World S, length (presignEach s objects w).1 = length objects.
Proof.
  induction objects as [| obj rest IH]; intros w; simpl; [reflexivity |].
  rewrite IH. reflexivity.
Qed.

(** A URL request that returned an error returned the empty string. *)
Lemma presignEach_failed (objects : list minio.ObjectInfo.t) :
  forall (w : World S) (i : nat) (url : string) (err : error),
    (presignEach s objects w).1 !! i = Some (url, Some err) -> url = "".
Proof.
  induction objects as [| obj rest IH]; intros w i url err; simpl.
  - intros H. discriminate.
  - destruct i as [| i]; simpl.
    + rewrite getObjectURL_run.
      destruct (presign_reply _ _ _ _); simpl; congruence.
    + apply IH.
Qed.

Lemma listFilesHandler_listed (r : Request.t) (w w1 : World S)
    (objects : list minio.ObjectInfo.t) :
  Request.Method r = http.MethodGet ->
  let q := Get (Request.Query r) "prefix" in
  let prefix := if decide (q = "") then "uploads/" else q in
  server.listObjects s prefix w = ((objects, None), w1) ->
  server.listFilesHandler s r w
  = (server.sendResponse true
       ("Found " +:+ fmt_d (Z.of_nat (length objects)) +:+ " files")
       (Some (DataFileList (zip_with listed_entry objects (presignEach s objects w1).1))) 200,
     (presignEach s objects w1).2).
Proof.
  intros Hm q prefix Hl. unfold server.listFilesHandler. rewrite Hm.
  case_decide as Hget; [exfalso; apply Hget; reflexivity |].
  fold q. fold prefix. rewrite bind_run, Hl. simpl.
  rewrite bind_run, appendFileInfos_run. simpl. unfold ret.
  rewrite length_zip_with_l_eq by (symmetry; apply presignEach_length).
  reflexivity.
Qed.

Lemma listFilesHandler_run (r : Request.t) (w : World S) :
  Request.Method r = http.MethodGet ->
  let q := Get (Request.Query r) "prefix" in
  let prefix := if decide (q = "") then "uploads/" else q in
  server.listFilesHandler s r w
  = match server.collectObjects (list_reply s prefix w) [] with
    | (_, Some err) =>
        (server.sendResponse false ("Error listing files: " +:+ Error err) None 500,
         list_world s prefix w)
    | (objects, None) =>
        (server.sendResponse true
           ("Found " +:+ fmt_d (Z.of_nat (length objects)) +:+ " files")
           (Some (DataFileList
                    (zip_with listed_entry objects
                              (presignEach s objects (list_world s prefix w)).1))) 200,
         (presignEach s objects (list_world s prefix w)).2)
    end.
Proof.
  intros Hm q prefix.
  pose proof (listObjects_run prefix w) as Hl.
  destruct (server.collectObjects (list_reply s prefix w) []) as [objects [e |]] eqn:E.
  - unfold server.listFilesHandler. rewrite Hm.
    case_decide as Hget; [exfalso; apply Hget; reflexivity |].
    fold q. fold prefix. rewrite bind_run, Hl. reflexivity.
  - apply (listFilesHandler_listed r w (list_world s prefix w) objects Hm). exact Hl.
Qed.

(** The URL requests of a listing add presign calls to the log, nothing
    else. *)
Lemma presignEach_calls (objects : list minio.ObjectInfo.t) :
  forall w : World S,
    exists rest : list minio.Call,
      calls (presignEach s objects w).2 = calls w ++ rest
      /\ Forall (fun c => exists key,
                   c = minio.CallPresignedGetObject (MinIOService.BucketName s) key
                                                    (time.Hour * 24)) rest.
Proof.
  induction objects as [| obj objects IH]; intros w; simpl.
  - exists []. rewrite app_nil_r. split; [reflexivity | constructor].
  - rewrite getObjectURL_run. simpl.
    destruct (IH (presign_world s (minio.ObjectInfo.Key obj) (time.Hour * 24) w))
      as (rest & Hc & Hall).
    exists (minio.CallPresignedGetObject (MinIOService.BucketName s)
              (minio.ObjectInfo.Key obj) (time.Hour * 24) :: rest).
    split.
    + rewrite Hc. simpl. rewrite <- app_assoc. reflexivity.
    + constructor; [eexists; reflexivity | exact Hall].
Qed.

End Listing.

Lemma Get_absent (values : list (string * string)) (key : string) :
  (forall v, (key, v) ∉ values) -> Get values key = "".
Proof.
  induction values as [| [k v] rest IH]; intros H; simpl; [reflexivity |].
  case_decide as Hk.
  - subst k. exfalso. apply (H v). left.
  - apply IH. intros v' Hin. apply (H v'). right. exact Hin.
Qed.

(** C4: for a GET on the list route, (a) when the query has no [prefix]
    value (the parameter is absent, or empty) the one listing the handler
    requests is that of prefix "uploads/", recursively, in the configured
    bucket; (b) when the backend's listing for the prefix in force has no
    item, the listing is the only call made and the reply is status 200
    with the success envelope "Found 0 files", not an error; the data the
    handler passes is the nil slice of file descriptors, which has no
    element and which the body carries as [null], not as an array. *)
Theorem C4_default_prefix_and_empty_listing :
  forall (S : Type) (s : MinIOService.t S) (r : Request.t) (w : World S),
    Request.Method r = http.MethodGet ->
    let q := Get (Request.Query r) "prefix" in
    let prefix := if decide (q = "") then "uploads/" else q in
    ((forall v, ("prefix", v) ∉ Request.Query r) -> q = "")
    /\ (q = "" ->
        exists rest : list minio.Call,
          calls (server.listFilesHandler s r w).2
          = calls w ++ minio.CallListObjects (MinIOService.BucketName s) "uploads/" true
                    :: rest
          /\ Forall (fun c => exists key,
                       c = minio.CallPresignedGetObject (MinIOService.BucketName s) key
                                                        (time.Hour * 24)) rest)
    /\ (list_reply s prefix w = [] ->
        server.listFilesHandler s r w
        = (server.sendResponse true "Found 0 files" (Some (DataFileList [])) 200,
           list_world s prefix w)
        /\ Written.StatusCode (server.listFilesHandler s r w).1 = 200
        /\ Written.Body (server.listFilesHandler s r w).1
           = BodyJSON (json.JObject [("success", json.JBool true);
                                     ("message", json.JString "Found 0 files");
                                     ("data", json.JNull)])).
Proof.
  intros S s r w Hm q prefix.
  split; [apply Get_absent |].
  pose proof (listFilesHandler_run s r w Hm) as Hrun. cbv zeta in Hrun.
  fold q in Hrun. fold prefix in Hrun.
  split.
  - intros Hq.
    assert (Hp : prefix = "uploads/") by (subst prefix; rewrite Hq; reflexivity).
    rewrite Hp in Hrun. rewrite Hrun.
    destruct (server.collectObjects (list_reply s "uploads/" w) []) as [objects [e |]].
    + exists []. split; [reflexivity | constructor].
    + destruct (presignEach_calls s objects (list_world s "uploads/" w))
        as (rest & Hc & Hall).
      exists rest. split; [| exact Hall].
      simpl. rewrite Hc. simpl. rewrite <- app_assoc. reflexivity.
  - intros Hnone. rewrite Hrun, Hnone. simpl. repeat split; reflexivity.
Qed.

Lemma C4_witness :
  let s := memstore.service memstore.no_faults in
  let bare := mkWorld (memstore.mkStore {["mybucket"]} ∅) [] in
  calls (server.listFilesHandler s (memstore.get "/files" []) bare).2
  = [minio.CallListObjects "mybucket" "uploads/" true]
  /\ (server.listFilesHandler s (memstore.get "/files" []) bare).1
     = server.sendResponse true "Found 0 files" (Some (DataFileList [])) 200
  /\ Written.Body (server.listFilesHandler s (memstore.get "/files" []) bare).1
     = BodyJSON (json.JObject [("success", json.JBool true);
                               ("message", json.JString "Found 0 files");
                               ("data", json.JNull)])
  /\ (server.listFilesHandler s (memstore.get "/files" [("prefix", "reports/")])
        (memstore.start memstore.sample)).1
     = server.sendResponse true "Found 0 files" (Some (DataFileList [])) 200.
Proof.
  intros s bare.
  destruct (C4_default_prefix_and_empty_listing memstore.Store s
              (memstore.get "/files" []) bare eq_refl) as (_ & _ & Hempty).
  destruct (C4_default_prefix_and_empty_listing memstore.Store s
              (memstore.get "/files" [("prefix", "reports/")])
              (memstore.start memstore.sample) eq_refl) as (_ & _ & Hother).
  destruct (Hempty eq_refl) as (Hrun & _ & Hbody).
  destruct (Hother eq_refl) as [Hrun' _].
  rewrite Hbody, Hrun, Hrun'. repeat split; reflexivity.
Defined.

(** C4, as stated, does not hold in its second half: the data of the reply
    to a listing without objects is not an empty list.  On a bucket that
    holds no object, GET /files is answered 200 "Found 0 files" with the
    [data] field written as [null]; so it is false that every such reply
    has an empty array under [data]. *)
Lemma C4_empty_listing_is_null :
  let s := memstore.service memstore.no_faults in
  let bare := mkWorld (memstore.mkStore {["mybucket"]} ∅) [] in
  let reply := (server.listFilesHandler s (memstore.get "/files" []) bare).1 in
  list_reply s "uploads/" bare = []
  /\ Written.StatusCode reply = 200
  /\ Written.Body reply
     = BodyJSON (json.JObject [("success", json.JBool true);
                               ("message", json.JString "Found 0 files");
                               ("data", json.JNull)])
  /\ ~ (forall (S : Type) (s' : MinIOService.t S) (r : Request.t) (w : World S),
          Request.Method r = http.MethodGet ->
          list_reply s' (if decide (Get (Request.Query r) "prefix" = "") then "uploads/"
                         else Get (Request.Query r) "prefix") w = [] ->
          exists v : json.value,
            Written.Body (server.listFilesHandler s' r w).1 = BodyJSON v
            /\ json.field "data" v = Some (json.JArray [])).
Proof.
  intros s bare reply.
  assert (Hbody : Written.Body reply
                  = BodyJSON (json.JObject [("success", json.JBool true);
                                            ("message", json.JString "Found 0 files");
                                            ("data", json.JNull)])).
  { vm_compute. reflexivity. }
  split; [vm_compute; reflexivity |].
  split; [vm_compute; reflexivity |].
  split; [exact Hbody |].
  intros H.
  destruct (H memstore.Store s (memstore.get "/files" []) bare) as (v & Hv & Hdata).
  { reflexivity. }
  { vm_compute. reflexivity. }
  fold reply in Hv. rewrite Hbody in Hv. injection Hv as <-.
  vm_compute in Hdata. discriminate Hdata.
Qed.

(** C9: for a GET on the list route whose listing succeeded with
    [objects], the reply is the 200 success envelope with one descriptor per
    listed object, in order, whatever the URL requests returned.  The
    descriptor at a position takes name, size, content type and time from
    the object at that position and its URL from that object's own request;
    where the request failed the error is dropped, the URL is empty and the
    JSON object written for the descriptor has no [url] field. *)
Theorem C9_listing_survives_presign_failures :
  forall (S : Type) (s : MinIOService.t S) (r : Request.t) (w w1 : World S)
         (objects : list minio.ObjectInfo.t),
    Request.Method r = http.MethodGet ->
    let q := Get (Request.Query r) "prefix" in
    let prefix := if decide (q = "") then "uploads/" else q in
    server.listObjects s prefix w = ((objects, None), w1) ->
    let outcomes := (presignEach s objects w1).1 in
    exists fileList : list FileInfo.t,
      server.listFilesHandler s r w
      = (server.sendResponse true
           ("Found " +:+ fmt_d (Z.of_nat (length objects)) +:+ " files")
           (Some (DataFileList fileList)) 200,
         (presignEach s objects w1).2)
      /\ length fileList = length objects
      /\ length outcomes = length objects
      /\ (forall (i : nat) (obj : minio.ObjectInfo.t) (u : string * option error),
            objects !! i = Some obj ->
            outcomes !! i = Some u ->
            fileList !! i
            = Some {| FileInfo.FileName := filepath.Base (minio.ObjectInfo.Key obj);
                      FileInfo.Size := minio.ObjectInfo.Size obj;
                      FileInfo.ContentType := minio.ObjectInfo.ContentType obj;
                      FileInfo.URL := u.1;
                      FileInfo.UploadedAt := minio.ObjectInfo.LastModified obj |})
      /\ (forall (i : nat) (obj : minio.ObjectInfo.t) (url : string) (err : error),
            objects !! i = Some obj ->
            outcomes !! i = Some (url, Some err) ->
            exists fileInfo : FileInfo.t,
              fileList !! i = Some fileInfo
              /\ FileInfo.FileName fileInfo = filepath.Base (minio.ObjectInfo.Key obj)
              /\ FileInfo.URL fileInfo = ""
              /\ json.field "url" (server.encodeFileInfo fileInfo) = None).
Proof.
  intros S s r w w1 objects Hm q prefix Hl outcomes.
  eexists. split; [apply (listFilesHandler_listed s r w w1 objects Hm Hl) |].
  fold outcomes.
  assert (Hlen : length outcomes = length objects) by apply presignEach_length.
  split; [rewrite length_zip_with_l_eq; [reflexivity | symmetry; exact Hlen] |].
  split; [exact Hlen |].
  split.
  - intros i obj u Hobj Hout. rewrite lookup_zip_with, Hobj, Hout. reflexivity.
  - intros i obj url err Hobj Hout.
    assert (Hurl : url = "") by (eapply presignEach_failed; exact Hout).
    subst url. eexists. split; [| split; [| split]].
    + rewrite lookup_zip_with, Hobj, Hout. reflexivity.
    + reflexivity.
    + reflexivity.
    + reflexivity.
Qed.


Lemma C9_witness :
  let partial := memstore.mkFaults None None None None
                   (fun key => if decide (key = "uploads/1-a.txt")
                               then Some (OtherError "signing failed") else None)
                   (fun _ => None) in
  exists fileList : list FileInfo.t,
    (server.listFilesHandler (memstore.service partial)
       (memstore.get "/files" []) (memstore.start memstore.sample)).1
    = server.sendResponse true "Found 2 files" (Some (DataFileList fileList)) 200
    /\ length fileList = 2%nat
    /\ exists fileInfo : FileInfo.t,
         fileList !! 0%nat = Some fileInfo
         /\ FileInfo.FileName fileInfo = "1-a.txt"
         /\ FileInfo.URL fileInfo = ""
         /\ json.field "url" (server.encodeFileInfo fileInfo) = None.
Proof.
  intros partial.
  edestruct (C9_listing_survives_presign_failures memstore.Store
               (memstore.service partial) (memstore.get "/files" [])
               (memstore.start memstore.sample))
    as (fileList & Hrun & Hlen & _ & _ & Hfail);
    [reflexivity | vm_compute; reflexivity |].
  exists fileList.
  split; [rewrite Hrun; reflexivity |].
  split; [exact Hlen |].
  edestruct (Hfail 0%nat) as (fileInfo & Hfi & Hname & Hurl & Hjson);
    [reflexivity | vm_compute; reflexivity |].
  exists fileInfo. split; [exact Hfi |].
  split; [rewrite Hname; vm_compute; reflexivity |].
  split; [exact Hurl | exact Hjson].
Defined.

(** ** Bucket provisioning *)

Lemma EnsureBucket_agree {S : Type} (s : MinIOService.t S) (w : World S) :
  storage.EnsureBucket s w = server.ensureBucket s w.
Proof. reflexivity. Qed.

Section EnsureBucket.
Context {S : Type} (s : MinIOService.t S).

Local Abbreviation client := (MinIOService.Client s).
Local Abbreviation bucket := (MinIOService.BucketName s).
Local Abbreviation region := (MinIOService.Location s).
Local Abbreviation after := (after_ensureBucket s).

Lemma ensureBucket_backend (w : World S) :
  backend (server.ensureBucket s w).2 = after (backend w).
Proof.
  unfold server.ensureBucket, after_ensureBucket, bind, invoke, ret.
  destruct (minio.BucketExists client bucket (backend w)) as [[[|] | err] st]; simpl;
    try reflexivity.
  destruct (minio.MakeBucket client bucket region st) as [[err |] st']; reflexivity.
Qed.

Lemma ensureBucket_calls (w : World S) :
  calls (server.ensureBucket s w).2
  = calls w ++ minio.CallBucketExists bucket
            :: match probe_reply s (backend w) with
               | Ok false => [minio.CallMakeBucket bucket region]
               | _ => []
               end.
Proof.
  unfold server.ensureBucket, probe_reply, bind, invoke, ret.
  destruct (minio.BucketExists client bucket (backend w)) as [[[|] | err] st]; simpl;
    try reflexivity.
  destruct (minio.MakeBucket client bucket region st) as [[err |] st']; simpl;
    rewrite <- app_assoc; reflexivity.
Qed.

Lemma ensureBucket_times_backend (n : nat) (w : World S) :
  backend (ensureBucket_times s n w) = Nat.iter n after (backend w).
Proof.
  induction n as [| n IH]; [reflexivity |].
  change (ensureBucket_times s (Datatypes.S n) w)
    with (server.ensureBucket s (ensureBucket_times s n w)).2.
  rewrite ensureBucket_backend, IH. reflexivity.
Qed.

(** The contract of the backend on buckets: the probe does not change the
    state, a bucket that was made is found by the next probe, and a creation
    that failed changed nothing. *)
Hypothesis probe_reads :
  forall st, (minio.BucketExists client bucket st).2 = st.
Hypothesis made_is_found :
  forall st st', minio.MakeBucket client bucket region st = (None, st') ->
                 (minio.BucketExists client bucket st').1 = Ok true.
Hypothesis failed_make_keeps :
  forall st err st', minio.MakeBucket client bucket region st = (Some err, st') -> st' = st.

Lemma after_idempotent (st : S) : after (after st) = after st.
Proof.
  unfold after_ensureBucket. rewrite !probe_reads.
  destruct (minio.BucketExists client bucket st).1 as [[|] | err] eqn:E.
  - rewrite E. reflexivity.
  - destruct (minio.MakeBucket client bucket region st) as [[err |] st'] eqn:Em; simpl.
    + pose proof (failed_make_keeps _ _ _ Em) as ->. rewrite E, Em. reflexivity.
    + rewrite (made_is_found _ _ Em). reflexivity.
  - rewrite E. reflexivity.
Qed.

Lemma after_iter (n : nat) (st : S) : Nat.iter (Datatypes.S n) after st = after st.
Proof.
  induction n as [| n IH]; [reflexivity |].
  change (after (Nat.iter (Datatypes.S n) after st) = after st).
  rewrite IH. apply after_idempotent.
Qed.

Lemma ensureBucket_existing (w : World S) :
  probe_reply s (backend w) = Ok true ->
  server.ensureBucket s w
  = (None, mkWorld (backend w) (calls w ++ [minio.CallBucketExists bucket])).
Proof.
  unfold probe_reply. intros H.
  pose proof (probe_reads (backend w)) as Hst.
  unfold server.ensureBucket, bind, invoke, ret.
  destruct (minio.BucketExists client bucket (backend w)) as [r st]; simpl in *.
  subst. reflexivity.
Qed.

Lemma ensureBucket_settles (w : World S) :
  (server.ensureBucket s w).1 = None ->
  probe_reply s (backend (server.ensureBucket s w).2) = Ok true.
Proof.
  intros Hok. rewrite ensureBucket_backend. revert Hok.
  unfold server.ensureBucket, after_ensureBucket, probe_reply, bind, invoke, ret.
  pose proof (probe_reads (backend w)) as Hst.
  destruct (minio.BucketExists client bucket (backend w)) as [[[|] | err] st] eqn:E;
    simpl in *; subst st.
  - intros _. rewrite E. reflexivity.
  - destruct (minio.MakeBucket client bucket region (backend w)) as [[err |] st'] eqn:Em;
      simpl; [discriminate |].
    intros _. apply (made_is_found _ _ Em).
  - discriminate.
Qed.

Lemma issued_app {A : Type} (m : M S A) (w : World S) (added : list minio.Call) :
  calls (m w).2 = calls w ++ added -> issued m w = added.
Proof. intros H. unfold issued. rewrite H. apply drop_app_length. Qed.

(** C8: under the backend's contract on buckets (the probe only reads, a
    bucket that was made is found afterwards, a failed creation changes
    nothing), [ensureBucket] is idempotent.  When the probe finds the bucket
    the call returns nil, leaves the backend as it was and issues the probe
    alone.  The calls issued are the probe, followed by a creation exactly
    when the probe answered that the bucket is absent.  The backend state
    after any positive number of calls in succession is the state after one
    call; and once a call has returned nil, each further call returns nil,
    leaves the backend unchanged and attempts no creation.  The exported
    [EnsureBucket] of package storage is the same function. *)
Theorem C8_ensureBucket_idempotent :
  forall w : World S,
    (probe_reply s (backend w) = Ok true ->
     server.ensureBucket s w
     = (None, mkWorld (backend w)
                      (calls w ++ [minio.CallBucketExists (MinIOService.BucketName s)])))
    /\ issued (server.ensureBucket s) w
       = minio.CallBucketExists (MinIOService.BucketName s)
         :: match probe_reply s (backend w) with
            | Ok false => [minio.CallMakeBucket (MinIOService.BucketName s)
                                                (MinIOService.Location s)]
            | _ => []
            end
    /\ (forall n : nat,
          backend (ensureBucket_times s (Datatypes.S n) w)
          = backend (server.ensureBucket s w).2)
    /\ ((server.ensureBucket s w).1 = None ->
        forall n : nat,
          let wn := ensureBucket_times s (Datatypes.S n) w in
          server.ensureBucket s wn
          = (None, mkWorld (backend wn)
                           (calls wn ++ [minio.CallBucketExists (MinIOService.BucketName s)])))
    /\ storage.EnsureBucket s w = server.ensureBucket s w.
Proof.
  intros w.
  assert (Hn : forall n : nat,
             backend (ensureBucket_times s (Datatypes.S n) w)
             = backend (server.ensureBucket s w).2).
  { intros n. rewrite ensureBucket_times_backend, after_iter, ensureBucket_backend.
    reflexivity. }
  split; [apply ensureBucket_existing |].
  split; [apply issued_app, ensureBucket_calls |].
  split; [exact Hn |].
  split; [| reflexivity].
  intros Hok n wn. apply ensureBucket_existing.
  subst wn. rewrite Hn. apply ensureBucket_settles. exact Hok.
Qed.

End EnsureBucket.

Lemma memstore_probe_reads (f : memstore.Faults) (bucket : string) (st : memstore.Store) :
  (minio.BucketExists (memstore.client f) bucket st).2 = st.
Proof. simpl. destruct (memstore.fault_exists f); reflexivity. Qed.

Lemma memstore_made_is_found (f : memstore.Faults) (bucket region : string)
    (st st' : memstore.Store) :
  memstore.fault_exists f = None ->
  minio.MakeBucket (memstore.client f) bucket region st = (None, st') ->
  (minio.BucketExists (memstore.client f) bucket st').1 = Ok true.
Proof.
  simpl. intros ->. destruct (memstore.fault_make f); [discriminate |].
  intros [= <-]. simpl. f_equal. apply bool_decide_eq_true. set_solver.
Qed.

Lemma memstore_failed_make_keeps (f : memstore.Faults) (bucket region : string)
    (st st' : memstore.Store) (err : error) :
  minio.MakeBucket (memstore.client f) bucket region st = (Some err, st') -> st' = st.
Proof. simpl. destruct (memstore.fault_make f); [intros [= _ <-]; reflexivity | discriminate]. Qed.

Lemma C8_witness :
  let s := memstore.service memstore.no_faults in
  let w := memstore.start memstore.empty in
  issued (server.ensureBucket s) w
  = [minio.CallBucketExists "mybucket"; minio.CallMakeBucket "mybucket" "us-east-1"]
  /\ backend (ensureBucket_times s 3 w) = backend (server.ensureBucket s w).2
  /\ issued (server.ensureBucket s) (ensureBucket_times s 1 w)
     = [minio.CallBucketExists "mybucket"]
  /\ (server.ensureBucket s (ensureBucket_times s 1 w)).1 = None.
Proof.
  intros s w.
  pose proof (C8_ensureBucket_idempotent s
                (memstore_probe_reads memstore.no_faults "mybucket")
                (fun st st' => memstore_made_is_found memstore.no_faults "mybucket"
                                 "us-east-1" st st' eq_refl)
                (fun st err st' => memstore_failed_make_keeps memstore.no_faults "mybucket"
                                     "us-east-1" st st' err)) as H.
  destruct (H w) as (_ & Hcalls & Hstate & Hagain & _).
  destruct (H (ensureBucket_times s 1 w)) as (_ & Hcalls' & _).
  split; [rewrite Hcalls; reflexivity |].
  split; [apply Hstate |].
  split; [rewrite Hcalls'; vm_compute; reflexivity |].
  rewrite (Hagain eq_refl 0%nat). reflexivity.
Defined.

(** ** Which backend calls the routes can issue *)

Section Calls.
Context {S : Type} (P : minio.Call -> Prop).

Lemma adds_only_ret {A : Type} (a : A) : adds_only (S := S) P (ret a).
Proof. intros w. exists []. simpl. rewrite app_nil_r. split; [reflexivity | constructor]. Qed.

Lemma adds_only_bind {A B : Type} (m : M S A) (k : A -> M S B) :
  adds_only P m -> (forall a, adds_only P (k a)) -> adds_only P (bind m k).
Proof.
  intros Hm Hk w. rewrite bind_run.
  destruct (Hm w) as (added1 & Hc1 & Hall1).
  destruct (Hk (m w).1 (m w).2) as (added2 & Hc2 & Hall2).
  exists (added1 ++ added2). split.
  - rewrite Hc2, Hc1, app_assoc. reflexivity.
  - apply Forall_app. split; assumption.
Qed.

Lemma adds_only_invoke {A : Type} (c : minio.Call) (op : S -> A * S) :
  P c -> adds_only P (invoke c op).
Proof.
  intros Hc w. rewrite invoke_run. exists [c]. simpl.
  split; [reflexivity | constructor; [exact Hc | constructor]].
Qed.

End Calls.

Ltac adds_only_step :=
  first
    [ apply adds_only_ret
    | apply adds_only_invoke; reflexivity
    | apply adds_only_bind; [| intros ?]
    | case_decide
    | case_match ].

Section NoDeletion.
Context {S : Type} (h : Host.t) (s : MinIOService.t S).

Lemma getObjectURL_no_remove (key : string) (expiry : time.Duration) :
  adds_only not_remove (server.getObjectURL s key expiry).
Proof. unfold server.getObjectURL. repeat adds_only_step. Qed.

Lemma listObjects_no_remove (prefix : string) :
  adds_only not_remove (server.listObjects s prefix).
Proof. unfold server.listObjects. repeat adds_only_step. Qed.

Lemma checkObjectExists_no_remove (key : string) :
  adds_only not_remove (server.checkObjectExists s key).
Proof. unfold server.checkObjectExists. repeat adds_only_step. Qed.

Lemma downloadBuffer_no_remove (key : string) :
  adds_only not_remove (server.downloadBuffer s key).
Proof. unfold server.downloadBuffer. repeat adds_only_step. Qed.

Lemma uploadFile_no_remove (objectName filePath contentType : string) :
  adds_only not_remove (server.uploadFile h s objectName filePath contentType).
Proof. unfold server.uploadFile. repeat adds_only_step. Qed.

Lemma appendFileInfos_no_remove (objects : list minio.ObjectInfo.t) :
  forall fileList, adds_only not_remove (server.appendFileInfos s objects fileList).
Proof.
  induction objects as [| obj rest IH]; intros fileList; simpl.
  - apply adds_only_ret.
  - apply adds_only_bind; [apply getObjectURL_no_remove | intros u; apply IH].
Qed.

Lemma uploadHandler_no_remove (r : Request.t) :
  adds_only not_remove (server.uploadHandler h s r).
Proof.
  unfold server.uploadHandler.
  repeat first [ apply uploadFile_no_remove | apply getObjectURL_no_remove
               | adds_only_step ].
Qed.

Lemma listFilesHandler_no_remove (r : Request.t) :
  adds_only not_remove (server.listFilesHandler s r).
Proof.
  unfold server.listFilesHandler.
  repeat first [ apply listObjects_no_remove | apply appendFileInfos_no_remove
               | adds_only_step ].
Qed.

Lemma getFileHandler_no_remove (r : Request.t) :
  adds_only not_remove (server.getFileHandler s r).
Proof.
  unfold server.getFileHandler.
  repeat first [ apply checkObjectExists_no_remove | apply downloadBuffer_no_remove
               | apply getObjectURL_no_remove | adds_only_step ].
Qed.

Lemma healthCheckHandler_no_remove (r : Request.t) :
  adds_only not_remove (server.healthCheckHandler s r).
Proof.
  unfold server.healthCheckHandler.
  repeat first [ apply listObjects_no_remove | adds_only_step ].
Qed.

Lemma routes_no_remove (pattern : string) (handler : server.Handler S) :
  In (pattern, handler) (server.routes h s) ->
  forall r : Request.t, adds_only not_remove (handler r).
Proof.
  unfold server.routes. simpl.
  intros [E | [E | [E | [E | []]]]] r; injection E as _ <-; unfold server.HandlerFunc.
  - apply adds_only_bind; [apply uploadHandler_no_remove | intros; apply adds_only_ret].
  - apply adds_only_bind; [apply listFilesHandler_no_remove | intros; apply adds_only_ret].
  - apply getFileHandler_no_remove.
  - apply adds_only_bind; [apply healthCheckHandler_no_remove | intros; apply adds_only_ret].
Qed.

Lemma exactMatch_In (table : list (string * server.Handler S)) (path : string)
    (handler : server.Handler S) :
  server.exactMatch table path = Some handler -> exists pattern, In (pattern, handler) table.
Proof.
  induction table as [| [pattern h0] rest IH]; simpl; [discriminate |].
  case_decide.
  - intros [= <-]. exists pattern. left. reflexivity.
  - intros Hm. destruct (IH Hm) as [p Hp]. exists p. right. exact Hp.
Qed.

Lemma subtreeMatch_In (table : list (string * server.Handler S)) (path : string)
    (handler : server.Handler S) :
  server.subtreeMatch table path = Some handler -> exists pattern, In (pattern, handler) table.
Proof.
  induction table as [| [pattern h0] rest IH]; simpl; [discriminate |].
  destruct (server.ends_in_slash pattern && String.prefix pattern path).
  - intros [= <-]. exists pattern. left. reflexivity.
  - intros Hm. destruct (IH Hm) as [p Hp]. exists p. right. exact Hp.
Qed.

Lemma serve_no_remove (cleanPath : string -> string) (r : Request.t) :
  adds_only not_remove (server.serve cleanPath h s r).
Proof.
  unfold server.serve. case_decide; [apply adds_only_ret |].
  destruct (server.exactMatch (server.routes h s) (Request.Path r)) as [handler |] eqn:E.
  - destruct (exactMatch_In _ _ _ E) as [pattern Hin].
    apply (routes_no_remove pattern handler Hin).
  - destruct (server.subtreeMatch (server.routes h s) (Request.Path r))
      as [handler |] eqn:E'.
    + destruct (subtreeMatch_In _ _ _ E') as [pattern Hin].
      apply (routes_no_remove pattern handler Hin).
    + apply adds_only_ret.
Qed.

Lemma deleteObject_calls (key : string) (w : World S) :
  calls (server.deleteObject s key w).2
  = calls w ++ [minio.CallRemoveObject (MinIOService.BucketName s) key].
Proof.
  unfold server.deleteObject, bind, invoke, ret.
  destruct (minio.RemoveObject _ _ _ _) as [[err |] st]; reflexivity.
Qed.

End NoDeletion.

Lemma issued_adds_only {S A : Type} (P : minio.Call -> Prop) (m : M S A) (w : World S) :
  adds_only P m -> Forall P (issued m w).
Proof.
  intros H. destruct (H w) as (added & Hc & Hall).
  rewrite (issued_app m w added Hc). exact Hall.
Qed.

(** C5, as the code has it: the gateway does implement [deleteObject], in
    package main and in package storage, and a call of it sends exactly one
    [RemoveObject] for the key in the configured bucket; but no route
    reaches it.  [main] registers the patterns /upload, /files, /files/ and
    /health; none of the handlers registered, on any request and in any
    world, sends a [RemoveObject] to the backend, and neither does the
    multiplexer that dispatches to them; a DELETE on an object's path gets
    405 from the retrieve handler and leaves the world untouched. *)
Theorem C5_no_route_deletes :
  forall (S : Type) (cleanPath : string -> string) (h : Host.t) (s : MinIOService.t S)
         (r : Request.t) (w : World S),
    map fst (server.routes h s) = ["/upload"; "/files"; "/files/"; "/health"]
    /\ (forall (pattern : string) (handler : server.Handler S),
          In (pattern, handler) (server.routes h s) ->
          Forall (fun c => minio.is_remove c = false) (issued (handler r) w))
    /\ Forall (fun c => minio.is_remove c = false) (issued (server.serve cleanPath h s r) w)
    /\ (forall key : string,
          issued (server.deleteObject s key) w
          = [minio.CallRemoveObject (MinIOService.BucketName s) key]
          /\ storage.DeleteObject s key w = server.deleteObject s key w)
    /\ (Request.Method r = "DELETE" ->
        server.getFileHandler s r w
        = (server.Replied (server.sendResponse false "Method not allowed" None 405), w)).
Proof.
  intros S cleanPath h s r w. split; [reflexivity |]. split; [| split; [| split]].
  - intros pattern handler Hin.
    apply (issued_adds_only not_remove), (routes_no_remove h s pattern handler Hin).
  - apply (issued_adds_only not_remove), serve_no_remove.
  - intros key. split; [| reflexivity].
    apply issued_app, deleteObject_calls.
  - intros Hm. unfold server.getFileHandler. rewrite Hm. reflexivity.
Qed.

Lemma C5_witness :
  let s := memstore.service memstore.no_faults in
  let w := memstore.start memstore.sample in
  let r := {| Request.Method := "DELETE"; Request.Path := "/files/uploads/1-a.txt";
              Request.Query := []; Request.FormFile := fun _ => Fail (OtherError "no form") |} in
  server.getFileHandler s r w
  = (server.Replied (server.sendResponse false "Method not allowed" None 405), w)
  /\ Forall (fun c => minio.is_remove c = false) (issued (server.getFileHandler s r) w).
Proof.
  intros s w r.
  destruct (C5_no_route_deletes memstore.Store (fun path => path) (memstore.host [] 0 0)
              s r w) as (_ & Hroutes & _ & _ & H405).
  split; [apply H405; reflexivity |].
  apply (Hroutes "/files/"). right. right. left. reflexivity.
Defined.

(** C5, as stated, does not hold: there is no backend, host, gateway
    handle, request and world for which a registered handler, or the
    multiplexer in front of them, sends a [RemoveObject] to the backend. *)
Lemma C5_deletion_is_not_exposed :
  ~ exists (S : Type) (cleanPath : string -> string) (h : Host.t) (s : MinIOService.t S)
           (r : Request.t) (w : World S) (bucket key : string),
      In (minio.CallRemoveObject bucket key) (issued (server.serve cleanPath h s r) w)
      \/ exists (pattern : string) (handler : server.Handler S),
           In (pattern, handler) (server.routes h s)
           /\ In (minio.CallRemoveObject bucket key) (issued (handler r) w).
Proof.
  intros (S & cleanPath & h & s & r & w & bucket & key & [Hin | Hin]).
  - pose proof (issued_adds_only not_remove (server.serve cleanPath h s r) w
                  (serve_no_remove h s cleanPath r)) as Hall.
    rewrite Forall_forall in Hall.
    apply list_elem_of_In in Hin. specialize (Hall _ Hin). discriminate.
  - destruct Hin as (pattern & handler & Hroute & Hin).
    pose proof (issued_adds_only not_remove (handler r) w
                  (routes_no_remove h s pattern handler Hroute r)) as Hall.
    rewrite Forall_forall in Hall.
    apply list_elem_of_In in Hin. specialize (Hall _ Hin). discriminate.
Qed.

(** ** Sample evaluations of the library models *)

Example fmt_d_samples :
  fmt_d 0 = "0" /\ fmt_d 1718000000 = "1718000000" /\ fmt_d (-42) = "-42".
Proof. vm_compute. auto. Qed.

Example ParseBool_samples :
  strconv.ParseBool "True" = Some true /\ strconv.ParseBool "0" = Some false
  /\ strconv.ParseBool "yes" = None /\ strconv.ParseBool "" = None
  /\ strconv.ParseBool "tRuE" = None.
Proof. vm_compute. auto 10. Qed.

Example filepath_samples :
  filepath.Base "uploads/1-a.txt" = "1-a.txt" /\ filepath.Base "a/b/" = "b"
  /\ filepath.Base "///" = "/" /\ filepath.Base "" = "."
  /\ filepath.Ext "a/b.c/d.tar.gz" = ".gz" /\ filepath.Ext "a.b/c" = "".
Proof. vm_compute. auto 10. Qed.

(** A stored object is retrieved by redirect to a one-hour URL. *)
Example retrieve_redirects :
  (server.serve (fun path => path) (memstore.host [] 0 0)
     (memstore.service memstore.no_faults)
     (memstore.get "/files/uploads/1-a.txt" []) (memstore.start memstore.sample)).1
  = server.Replied
      {| Written.StatusCode := 302;
         Written.Header := [("Location", "http://localhost:9000/mybucket/uploads/1-a.txt")];
         Written.Body := BodyRedirect "http://localhost:9000/mybucket/uploads/1-a.txt" |}.
Proof. vm_compute. reflexivity. Qed.

(** * Further properties of the code *)

(** ** Method checks *)

(** X1: the upload handler answers any method but POST, and the list and
    retrieve handlers any method but GET, with the 405 envelope "Method not
    allowed"; the world is left as it was, so no backend call is made and
    for the retrieve handler the path is not even looked at. *)
Theorem X1_wrong_method_is_rejected :
  forall (S : Type) (h : Host.t) (s : MinIOService.t S) (r : Request.t) (w : World S),
    (Request.Method r <> "POST" ->
     server.uploadHandler h s r w
     = (server.sendResponse false "Method not allowed" None 405, w))
    /\ (Request.Method r <> "GET" ->
        server.listFilesHandler s r w
        = (server.sendResponse false "Method not allowed" None 405, w)
        /\ server.getFileHandler s r w
           = (server.Replied (server.sendResponse false "Method not allowed" None 405), w)).
Proof.
  intros S h s r w. split.
  - intros Hm. unfold server.uploadHandler.
    case_decide; [reflexivity | contradiction].
  - intros Hm. split.
    + unfold server.listFilesHandler. case_decide; [reflexivity | contradiction].
    + unfold server.getFileHandler. case_decide; [reflexivity | contradiction].
Qed.

Lemma X1_witness :
  let s := memstore.service memstore.no_faults in
  let w := memstore.start memstore.sample in
  server.uploadHandler (memstore.host [] 0 0) s (memstore.get "/upload" []) w
  = (server.sendResponse false "Method not allowed" None 405, w)
  /\ server.getFileHandler s (memstore.post_file "/x" "a.txt" "" []) w
     = (server.Replied (server.sendResponse false "Method not allowed" None 405), w).
Proof.
  intros s w. split.
  - apply (X1_wrong_method_is_rejected memstore.Store (memstore.host [] 0 0) s
             (memstore.get "/upload" []) w). discriminate.
  - apply (X1_wrong_method_is_rejected memstore.Store (memstore.host [] 0 0) s
             (memstore.post_file "/x" "a.txt" "" []) w). discriminate.
Defined.

(** ** Listings *)

Lemma collectObjects_clean (items : list minio.ObjectInfo.t) :
  forall objects : list minio.ObjectInfo.t,
    Forall (fun item => minio.ObjectInfo.Err item = None) items ->
    server.collectObjects items objects = (objects ++ items, None).
Proof.
  induction items as [| item items IH]; intros objects Hall; simpl.
  - rewrite app_nil_r. reflexivity.
  - inversion Hall as [| ? ? Hitem Hrest]; subst. rewrite Hitem, (IH _ Hrest).
    rewrite <- app_assoc. reflexivity.
Qed.

Lemma collectObjects_failed (good : list minio.ObjectInfo.t) :
  forall (objects rest : list minio.ObjectInfo.t) (bad : minio.ObjectInfo.t) (e : error),
    Forall (fun item => minio.ObjectInfo.Err item = None) good ->
    minio.ObjectInfo.Err bad = Some e ->
    server.collectObjects (good ++ bad :: rest) objects
    = ([], Some (Errorf_w "error listing objects" e)).
Proof.
  induction good as [| item good IH]; intros objects rest bad e Hall Hbad; simpl.
  - rewrite Hbad. reflexivity.
  - inversion Hall as [| ? ? Hitem Hrest]; subst. rewrite Hitem. apply IH; assumption.
Qed.

Lemma storage_collectObjects_agree (items : list minio.ObjectInfo.t) :
  forall objects : list minio.ObjectInfo.t,
    storage_rest.collectObjects items objects = server.collectObjects items objects.
Proof.
  induction items as [| item items IH]; intros objects; simpl; [reflexivity |].
  destruct (minio.ObjectInfo.Err item); [reflexivity | apply IH].
Qed.

Lemma storage_ListObjects_agree {S : Type} (s : MinIOService.t S) (prefix : string)
    (w : World S) :
  storage_rest.ListObjects s prefix w = server.listObjects s prefix w.
Proof.
  unfold storage_rest.ListObjects, server.listObjects. rewrite !bind_run.
  unfold ret. rewrite storage_collectObjects_agree. reflexivity.
Qed.

(** X2: a listing is all or nothing.  [listObjects] asks the backend once,
    for the prefix, recursively, in the configured bucket.  If no item of
    the answer carries an error, it returns exactly the items, in the
    backend's order; if some item does, it returns no object at all, not
    even those listed before it, and the error of the first such item
    wrapped as "error listing objects: ...".  [ListObjects] of package
    storage does the same. *)
Theorem X2_listing_is_all_or_nothing :
  forall (S : Type) (s : MinIOService.t S) (prefix : string) (w : World S),
    let items := list_reply s prefix w in
    let clean := Forall (fun item => minio.ObjectInfo.Err item = None) in
    (clean items ->
     server.listObjects s prefix w = ((items, None), list_world s prefix w))
    /\ (forall (good rest : list minio.ObjectInfo.t) (bad : minio.ObjectInfo.t) (e : error),
          items = good ++ bad :: rest ->
          clean good ->
          minio.ObjectInfo.Err bad = Some e ->
          server.listObjects s prefix w
          = (([], Some (OtherError ("error listing objects: " +:+ Error e))),
             list_world s prefix w))
    /\ storage_rest.ListObjects s prefix w = server.listObjects s prefix w.
Proof.
  intros S s prefix w items clean.
  split; [| split; [| apply storage_ListObjects_agree]].
  - intros Hall. rewrite listObjects_run. fold items.
    rewrite (collectObjects_clean items [] Hall). reflexivity.
  - intros good rest bad e Hitems Hgood Hbad. rewrite listObjects_run. fold items.
    rewrite Hitems, (collectObjects_failed good [] rest bad e Hgood Hbad). reflexivity.
Qed.

Lemma X2_witness :
  let broken := memstore.mkFaults None None None (Some (OtherError "connection reset"))
                  (fun _ => None) (fun _ => None) in
  (server.listObjects (memstore.service broken) "uploads/"
     (memstore.start memstore.sample)).1
  = ([], Some (OtherError "error listing objects: connection reset"))
  /\ length (server.listObjects (memstore.service memstore.no_faults) "uploads/"
               (memstore.start memstore.sample)).1.1 = 2%nat.
Proof.
  intros broken.
  destruct (X2_listing_is_all_or_nothing memstore.Store (memstore.service broken)
              "uploads/" (memstore.start memstore.sample)) as (_ & Hfail & _).
  destruct (X2_listing_is_all_or_nothing memstore.Store
              (memstore.service memstore.no_faults)
              "uploads/" (memstore.start memstore.sample)) as (Hok & _).
  split.
  - erewrite (Hfail [] [] _ (OtherError "connection reset"));
      [reflexivity | vm_compute; reflexivity | constructor | reflexivity].
  - rewrite Hok; [vm_compute; reflexivity |].
    vm_compute. repeat constructor.
Defined.

(** X3: the health handler looks at nothing in the request, not even the
    method.  It lists the configured bucket once with the empty prefix and
    makes no other call; it answers 200 "Service is healthy", without data,
    when no item of the listing carries an error (an empty listing
    included), and 503 with the text of the first error otherwise. *)
Theorem X3_health_is_one_listing :
  forall (S : Type) (s : MinIOService.t S) (r : Request.t) (w : World S),
    let items := list_reply s "" w in
    let clean := Forall (fun item => minio.ObjectInfo.Err item = None) in
    (server.healthCheckHandler s r w).2 = list_world s "" w
    /\ issued (server.healthCheckHandler s r) w
       = [minio.CallListObjects (MinIOService.BucketName s) "" true]
    /\ (clean items ->
        (server.healthCheckHandler s r w).1
        = server.sendResponse true "Service is healthy" None 200)
    /\ (forall (good rest : list minio.ObjectInfo.t) (bad : minio.ObjectInfo.t) (e : error),
          items = good ++ bad :: rest ->
          clean good ->
          minio.ObjectInfo.Err bad = Some e ->
          (server.healthCheckHandler s r w).1
          = server.sendResponse false
              ("MinIO service is not healthy: error listing objects: " +:+ Error e)
              None 503).
Proof.
  intros S s r w items clean.
  assert (Hrun : server.healthCheckHandler s r w
                 = (match (server.collectObjects items []).2 with
                    | Some err =>
                        server.sendResponse false
                          ("MinIO service is not healthy: " +:+ Error err) None 503
                    | None => server.sendResponse true "Service is healthy" None 200
                    end, list_world s "" w)).
  { unfold server.healthCheckHandler. rewrite bind_run, listObjects_run. fold items.
    simpl. destruct (server.collectObjects items []) as [objects [e |]]; reflexivity. }
  split; [rewrite Hrun; reflexivity |].
  split; [apply issued_app; rewrite Hrun; reflexivity |].
  split.
  - intros Hall. rewrite Hrun, (collectObjects_clean items [] Hall). reflexivity.
  - intros good rest bad e Hitems Hgood Hbad.
    rewrite Hrun, Hitems, (collectObjects_failed good [] rest bad e Hgood Hbad).
    reflexivity.
Qed.

Lemma X3_witness :
  let down := memstore.mkFaults None None None (Some (OtherError "connection refused"))
                (fun _ => None) (fun _ => None) in
  (server.healthCheckHandler (memstore.service down)
     (memstore.post_file "/health" "a" "" []) (memstore.start memstore.sample)).1
  = server.sendResponse false
      "MinIO service is not healthy: error listing objects: connection refused" None 503
  /\ (server.healthCheckHandler (memstore.service memstore.no_faults)
        (memstore.get "/health" []) (memstore.start memstore.empty)).1
     = server.sendResponse true "Service is healthy" None 200.
Proof.
  intros down.
  destruct (X3_health_is_one_listing memstore.Store (memstore.service down)
              (memstore.post_file "/health" "a" "" []) (memstore.start memstore.sample))
    as (_ & _ & _ & Hdown).
  destruct (X3_health_is_one_listing memstore.Store (memstore.service memstore.no_faults)
              (memstore.get "/health" []) (memstore.start memstore.empty))
    as (_ & _ & Hup & _).
  split.
  - erewrite (Hdown [] [] _ (OtherError "connection refused"));
      [reflexivity | vm_compute; reflexivity | constructor | reflexivity].
  - apply Hup. vm_compute. constructor.
Defined.

Lemma presignEach_calls_exact {S : Type} (s : MinIOService.t S)
    (objects : list minio.ObjectInfo.t) :
  forall w : World S,
    calls (presignEach s objects w).2
    = calls w ++ presign_calls (MinIOService.BucketName s) objects.
Proof.
  induction objects as [| obj objects IH]; intros w; simpl.
  - rewrite app_nil_r. reflexivity.
  - rewrite IH, getObjectURL_run. simpl. rewrite <- app_assoc. reflexivity.
Qed.

(** X4: when the list handler is given a listing in which some item carries
    an error, it answers 500 with "Error listing files: error listing
    objects: " and the text of the first such error, without data; the
    objects listed before the error are discarded and no URL is requested
    for any of them: the listing is the only backend call. *)
Theorem X4_failed_listing_is_discarded :
  forall (S : Type) (s : MinIOService.t S) (r : Request.t) (w : World S)
         (good rest : list minio.ObjectInfo.t) (bad : minio.ObjectInfo.t) (e : error),
    Request.Method r = "GET" ->
    let q := Get (Request.Query r) "prefix" in
    let prefix := if decide (q = "") then "uploads/" else q in
    list_reply s prefix w = good ++ bad :: rest ->
    Forall (fun item => minio.ObjectInfo.Err item = None) good ->
    minio.ObjectInfo.Err bad = Some e ->
    server.listFilesHandler s r w
    = (server.sendResponse false
         ("Error listing files: error listing objects: " +:+ Error e) None 500,
       list_world s prefix w)
    /\ issued (server.listFilesHandler s r) w
       = [minio.CallListObjects (MinIOService.BucketName s) prefix true].
Proof.
  intros S s r w good rest bad e Hm q prefix Hitems Hgood Hbad.
  pose proof (listFilesHandler_run s r w Hm) as Hrun. cbv zeta in Hrun.
  fold q in Hrun. fold prefix in Hrun.
  rewrite Hitems, (collectObjects_failed good [] rest bad e Hgood Hbad) in Hrun.
  split; [exact Hrun |]. apply issued_app. rewrite Hrun. reflexivity.
Qed.

Lemma X4_witness :
  let broken := memstore.mkFaults None None None (Some (OtherError "connection reset"))
                  (fun _ => None) (fun _ => None) in
  (server.listFilesHandler (memstore.service broken) (memstore.get "/files" [])
     (memstore.start memstore.sample)).1
  = server.sendResponse false
      "Error listing files: error listing objects: connection reset" None 500.
Proof.
  intros broken.
  edestruct (X4_failed_listing_is_discarded memstore.Store (memstore.service broken)
               (memstore.get "/files" []) (memstore.start memstore.sample) [] []
               (minio.ObjectInfo.mk "" 0 "" 0 (Some (OtherError "connection reset")))
               (OtherError "connection reset")) as [Hrun _];
    [reflexivity | vm_compute; reflexivity | constructor | reflexivity |].
  rewrite Hrun. reflexivity.
Defined.

(** X5: a listing of n objects costs n + 1 backend calls.  When no item of
    the listing carries an error, the list handler issues the listing and
    then exactly one 24-hour URL request per listed object, in the order of
    the listing, all in the configured bucket, and nothing else; the count
    in the message is the number of listed objects. *)
Theorem X5_listing_costs_one_call_per_object :
  forall (S : Type) (s : MinIOService.t S) (r : Request.t) (w : World S),
    Request.Method r = "GET" ->
    let q := Get (Request.Query r) "prefix" in
    let prefix := if decide (q = "") then "uploads/" else q in
    let items := list_reply s prefix w in
    Forall (fun item => minio.ObjectInfo.Err item = None) items ->
    issued (server.listFilesHandler s r) w
    = minio.CallListObjects (MinIOService.BucketName s) prefix true
      :: map (fun obj => minio.CallPresignedGetObject (MinIOService.BucketName s)
                           (minio.ObjectInfo.Key obj) (24 * time.Hour)) items
    /\ length (issued (server.listFilesHandler s r) w) = Datatypes.S (length items)
    /\ exists fileList : list FileInfo.t,
         length fileList = length items
         /\ (server.listFilesHandler s r w).1
            = server.sendResponse true
                ("Found " +:+ fmt_d (Z.of_nat (length items)) +:+ " files")
                (Some (DataFileList fileList)) 200.
Proof.
  intros S s r w Hm q prefix items Hall.
  pose proof (listFilesHandler_run s r w Hm) as Hrun. cbv zeta in Hrun.
  fold q in Hrun. fold prefix in Hrun. fold items in Hrun.
  rewrite (collectObjects_clean items [] Hall) in Hrun. simpl in Hrun.
  assert (Hissued : issued (server.listFilesHandler s r) w
                    = minio.CallListObjects (MinIOService.BucketName s) prefix true
                      :: presign_calls (MinIOService.BucketName s) items).
  { apply issued_app. rewrite Hrun. simpl.
    rewrite presignEach_calls_exact. simpl. rewrite <- app_assoc. reflexivity. }
  split; [exact Hissued |].
  split; [rewrite Hissued; simpl; unfold presign_calls; rewrite length_map; reflexivity |].
  eexists. split; [| rewrite Hrun; reflexivity].
  rewrite length_zip_with_l_eq; [reflexivity |].
  symmetry. apply presignEach_length.
Qed.

Lemma X5_witness :
  issued (server.listFilesHandler (memstore.service memstore.no_faults)
            (memstore.get "/files" [])) (memstore.start memstore.sample)
  = [minio.CallListObjects "mybucket" "uploads/" true;
     minio.CallPresignedGetObject "mybucket" "uploads/1-a.txt" (24 * time.Hour);
     minio.CallPresignedGetObject "mybucket" "uploads/2-b.bin" (24 * time.Hour)].
Proof.
  destruct (X5_listing_costs_one_call_per_object memstore.Store
              (memstore.service memstore.no_faults) (memstore.get "/files" [])
              (memstore.start memstore.sample) eq_refl) as (Hcalls & _).
  { vm_compute. repeat constructor. }
  rewrite Hcalls. vm_compute. reflexivity.
Defined.

(** ** Retrieval *)

Section Retrieve.
Context {S : Type} (s : MinIOService.t S).

Lemma downloadBuffer_run (key : string) (w : World S) :
  server.downloadBuffer s key w
  = (match get_reply s key w with
     | Fail err => ([], Some (Errorf_w "failed to get object" err))
     | Ok (Fail err) => ([], Some (Errorf_w "failed to read object data" err))
     | Ok (Ok data) => (data, None)
     end, get_world s key w).
Proof.
  unfold server.downloadBuffer, get_reply, get_world, bind, invoke, ret.
  destruct (minio.GetObject _ _ _ _) as [[[data | err] | err] st]; reflexivity.
Qed.

(** The retrieve handler once the object is known to exist. *)
Lemma getFileHandler_found (r : Request.t) (w : World S) (key : string)
    (info : minio.ObjectInfo.t) :
  Request.Method r = "GET" ->
  Request.Path r = "/files/" +:+ key ->
  key <> "" ->
  stat_reply s key w = Ok info ->
  server.getFileHandler s r w
  = let w1 := stat_world s key w in
    if bool_decide (Get (Request.Query r) "download" = "true") then
      (match (server.downloadBuffer s key w1).1 with
       | (_, Some err) =>
           server.Replied (server.sendResponse false
                             ("Error downloading file: " +:+ Error err) None 500)
       | (data, None) =>
           server.Replied {|
             Written.StatusCode := 200;
             Written.Header :=
               [("Content-Disposition", "attachment; filename=" +:+ filepath.Base key);
                ("Content-Type", "application/octet-stream");
                ("Content-Length", fmt_d (Z.of_nat (length data)))];
             Written.Body := BodyBytes data |}
       end, get_world s key w1)
    else
      (match (server.getObjectURL s key time.Hour w1).1 with
       | (_, Some err) =>
           server.Replied (server.sendResponse false
                             ("Error generating URL: " +:+ Error err) None 500)
       | (url, None) =>
           server.Replied {| Written.StatusCode := 302;
                             Written.Header := [("Location", url)];
                             Written.Body := BodyRedirect url |}
       end, presign_world s key time.Hour w1).
Proof.
  intros Hm Hp Hk Hstat. unfold server.getFileHandler.
  rewrite Hm, Hp, slice_from_files.
  case_decide as Hget; [exfalso; apply Hget; reflexivity |].
  case_decide; [contradiction |].
  rewrite bind_run, checkObjectExists_run, Hstat. simpl.
  destruct (bool_decide (Get (Request.Query r) "download" = "true")).
  - rewrite bind_run, downloadBuffer_run. simpl.
    destruct (get_reply s key (stat_world s key w)) as [[data | err] | err]; reflexivity.
  - rewrite bind_run, getObjectURL_run. simpl.
    destruct (presign_reply s key time.Hour (stat_world s key w)); reflexivity.
Qed.

End Retrieve.

(** X6: retrieval with [download=true] of an object the stat found.  If the
    backend hands the object over and it can be read to the end, the reply
    is 200 with the bytes as body, [Content-Length] their number,
    [Content-Type] application/octet-stream (whatever type was stored) and
    [Content-Disposition] naming the last path element of the key; if the
    object cannot be got or cannot be read the reply is the 500 envelope
    "Error downloading file: ...".  Either way the handler made two backend
    calls, the stat and the get. *)
Theorem X6_download_streams_the_bytes :
  forall (S : Type) (s : MinIOService.t S) (r : Request.t) (w : World S)
         (key : string) (info : minio.ObjectInfo.t),
    Request.Method r = "GET" ->
    Request.Path r = "/files/" +:+ key ->
    key <> "" ->
    stat_reply s key w = Ok info ->
    Get (Request.Query r) "download" = "true" ->
    let got := get_reply s key (stat_world s key w) in
    let reply := (server.getFileHandler s r w).1 in
    issued (server.getFileHandler s r) w
    = [minio.CallStatObject (MinIOService.BucketName s) key;
       minio.CallGetObject (MinIOService.BucketName s) key]
    /\ (forall data : list Byte.byte,
          got = Ok (Ok data) ->
          reply = server.Replied {|
                    Written.StatusCode := 200;
                    Written.Header :=
                      [("Content-Disposition",
                        "attachment; filename=" +:+ filepath.Base key);
                       ("Content-Type", "application/octet-stream");
                       ("Content-Length", fmt_d (Z.of_nat (length data)))];
                    Written.Body := BodyBytes data |})
    /\ (forall err : error,
          got = Fail err ->
          reply = server.Replied
                    (server.sendResponse false
                       ("Error downloading file: failed to get object: " +:+ Error err)
                       None 500))
    /\ (forall err : error,
          got = Ok (Fail err) ->
          reply = server.Replied
                    (server.sendResponse false
                       ("Error downloading file: failed to read object data: "
                        +:+ Error err) None 500)).
Proof.
  intros S s r w key info Hm Hp Hk Hstat Hd got reply.
  pose proof (getFileHandler_found s r w key info Hm Hp Hk Hstat) as Hrun.
  cbv zeta in Hrun. rewrite Hd in Hrun.
  rewrite bool_decide_eq_true_2 in Hrun by reflexivity.
  rewrite downloadBuffer_run in Hrun. fold got in Hrun. simpl in Hrun.
  split.
  - apply issued_app. rewrite Hrun. simpl. rewrite <- app_assoc. reflexivity.
  - subst reply. rewrite Hrun. simpl.
    split; [| split]; intros x Hx; rewrite Hx; reflexivity.
Qed.

Lemma X6_witness :
  (server.getFileHandler (memstore.service memstore.no_faults)
     (memstore.get "/files/uploads/1-a.txt" [("download", "true")])
     (memstore.start memstore.sample)).1
  = server.Replied {|
      Written.StatusCode := 200;
      Written.Header := [("Content-Disposition", "attachment; filename=1-a.txt");
                         ("Content-Type", "application/octet-stream");
                         ("Content-Length", "2")];
      Written.Body := BodyBytes [Byte.x68; Byte.x69] |}.
Proof.
  edestruct (X6_download_streams_the_bytes memstore.Store
               (memstore.service memstore.no_faults)
               (memstore.get "/files/uploads/1-a.txt" [("download", "true")])
               (memstore.start memstore.sample) "uploads/1-a.txt")
    as (_ & Hok & _);
    [reflexivity | reflexivity | discriminate | vm_compute; reflexivity | reflexivity |].
  rewrite (Hok [Byte.x68; Byte.x69]); [vm_compute; reflexivity |].
  vm_compute. reflexivity.
Defined.

(** X7: retrieval without [download=true] (the parameter absent, or any
    other value, "TRUE" and "1" included) of an object the stat found.  The
    handler asks for a URL valid for one hour, not the 24 hours of upload
    and listing, and redirects to it with 302; unlike upload and listing it
    does not tolerate a signing failure: the reply is then the 500 envelope
    "Error generating URL: ...".  It never fetches the object. *)
Theorem X7_redirect_uses_a_one_hour_url :
  forall (S : Type) (s : MinIOService.t S) (r : Request.t) (w : World S)
         (key : string) (info : minio.ObjectInfo.t),
    Request.Method r = "GET" ->
    Request.Path r = "/files/" +:+ key ->
    key <> "" ->
    stat_reply s key w = Ok info ->
    Get (Request.Query r) "download" <> "true" ->
    let signed := presign_reply s key (3600 * time.Second) (stat_world s key w) in
    let reply := (server.getFileHandler s r w).1 in
    issued (server.getFileHandler s r) w
    = [minio.CallStatObject (MinIOService.BucketName s) key;
       minio.CallPresignedGetObject (MinIOService.BucketName s) key (3600 * time.Second)]
    /\ (forall url : string,
          signed = Ok url ->
          reply = server.Replied {| Written.StatusCode := 302;
                                    Written.Header := [("Location", url)];
                                    Written.Body := BodyRedirect url |})
    /\ (forall err : error,
          signed = Fail err ->
          reply = server.Replied
                    (server.sendResponse false
                       ("Error generating URL: failed to generate presigned URL: "
                        +:+ Error err) None 500)).
Proof.
  intros S s r w key info Hm Hp Hk Hstat Hd signed reply.
  pose proof (getFileHandler_found s r w key info Hm Hp Hk Hstat) as Hrun.
  cbv zeta in Hrun.
  rewrite bool_decide_eq_false_2 in Hrun by exact Hd.
  rewrite getObjectURL_run in Hrun.
  change time.Hour with (3600 * time.Second) in Hrun. fold signed in Hrun.
  split.
  - apply issued_app. rewrite Hrun. simpl. rewrite <- app_assoc. reflexivity.
  - subst reply. rewrite Hrun. simpl.
    split; intros x Hx; rewrite Hx; reflexivity.
Qed.

Lemma X7_witness :
  let unsigned := memstore.mkFaults None None None None
                    (fun _ => Some (OtherError "signing failed")) (fun _ => None) in
  (server.getFileHandler (memstore.service memstore.no_faults)
     (memstore.get "/files/uploads/1-a.txt" [("download", "TRUE")])
     (memstore.start memstore.sample)).1
  = server.Replied {|
      Written.StatusCode := 302;
      Written.Header := [("Location", "http://localhost:9000/mybucket/uploads/1-a.txt")];
      Written.Body := BodyRedirect "http://localhost:9000/mybucket/uploads/1-a.txt" |}
  /\ (server.getFileHandler (memstore.service unsigned)
        (memstore.get "/files/uploads/1-a.txt" []) (memstore.start memstore.sample)).1
     = server.Replied
         (server.sendResponse false
            "Error generating URL: failed to generate presigned URL: signing failed"
            None 500).
Proof.
  intros unsigned.
  edestruct (X7_redirect_uses_a_one_hour_url memstore.Store
               (memstore.service memstore.no_faults)
               (memstore.get "/files/uploads/1-a.txt" [("download", "TRUE")])
               (memstore.start memstore.sample) "uploads/1-a.txt")
    as (_ & Hok & _);
    [reflexivity | reflexivity | discriminate | vm_compute; reflexivity | discriminate |].
  edestruct (X7_redirect_uses_a_one_hour_url memstore.Store
               (memstore.service unsigned)
               (memstore.get "/files/uploads/1-a.txt" [])
               (memstore.start memstore.sample) "uploads/1-a.txt")
    as (_ & _ & Hfail);
    [reflexivity | reflexivity | discriminate | vm_compute; reflexivity | discriminate |].
  split.
  - apply Hok. vm_compute. reflexivity.
  - rewrite (Hfail (OtherError "signing failed")); [reflexivity |].
    vm_compute. reflexivity.
Defined.

(** ** Uploads *)

(** X8: an upload is refused before the backend is involved when the form
    has no usable [file] part (400, "Error retrieving file: ..."), when the
    temporary file cannot be created (500, "Error creating temporary file:
    ...") and when the part cannot be copied into it (500, "Error saving
    temporary file: ..."); in each case the world is as it was. *)
Theorem X8_upload_refused_before_the_backend :
  forall (S : Type) (h : Host.t) (s : MinIOService.t S) (r : Request.t) (w : World S),
    Request.Method r = "POST" ->
    (forall err : error,
       Request.FormFile r "file" = Fail err ->
       server.uploadHandler h s r w
       = (server.sendResponse false ("Error retrieving file: " +:+ Error err) None 400, w))
    /\ (forall (handler : FileHeader.t) (file : list Byte.byte) (err : error),
          Request.FormFile r "file" = Ok (handler, file) ->
          Host.CreateTemp h ("upload-*" +:+ filepath.Ext (FileHeader.Filename handler))
          = Fail err ->
          server.uploadHandler h s r w
          = (server.sendResponse false
               ("Error creating temporary file: " +:+ Error err) None 500, w))
    /\ (forall (handler : FileHeader.t) (file : list Byte.byte) (tempFile : string)
               (err : error),
          Request.FormFile r "file" = Ok (handler, file) ->
          Host.CreateTemp h ("upload-*" +:+ filepath.Ext (FileHeader.Filename handler))
          = Ok tempFile ->
          Host.Copy h tempFile file = Some err ->
          server.uploadHandler h s r w
          = (server.sendResponse false
               ("Error saving temporary file: " +:+ Error err) None 500, w)).
Proof.
  intros S h s r w Hm. unfold server.uploadHandler. rewrite Hm.
  case_decide as Hpost; [exfalso; apply Hpost; reflexivity |].
  split; [| split].
  - intros err ->. reflexivity.
  - intros handler file err -> ->. reflexivity.
  - intros handler file tempFile err -> -> ->. reflexivity.
Qed.

Lemma X8_witness :
  let w := memstore.start memstore.sample in
  server.uploadHandler (memstore.host [] 0 0) (memstore.service memstore.no_faults)
    {| Request.Method := "POST"; Request.Path := "/upload"; Request.Query := [];
       Request.FormFile := fun _ => Fail (OtherError "http: no such file") |} w
  = (server.sendResponse false "Error retrieving file: http: no such file" None 400, w).
Proof.
  intros w.
  set (r := Request.mk _ _ _ _).
  destruct (X8_upload_refused_before_the_backend memstore.Store (memstore.host [] 0 0)
              (memstore.service memstore.no_faults) r w eq_refl) as [Hform _].
  apply (Hform (OtherError "http: no such file")). reflexivity.
Defined.

Lemma uploadFile_local_failure {S : Type} (h : Host.t) (s : MinIOService.t S)
    (objectName filePath contentType : string) (w : World S) :
  (forall err, Host.Open h filePath = Fail err ->
               server.uploadFile h s objectName filePath contentType w
               = ((minio.UploadInfo.mk 0, Some (Errorf_w "failed to open file" err)), w))
  /\ (forall file err, Host.Open h filePath = Ok file ->
                       Host.Stat h filePath = Fail err ->
                       server.uploadFile h s objectName filePath contentType w
                       = ((minio.UploadInfo.mk 0,
                           Some (Errorf_w "failed to get file stats" err)), w)).
Proof.
  unfold server.uploadFile. split.
  - intros err ->. reflexivity.
  - intros file err -> ->. reflexivity.
Qed.

(** X9: once the temporary copy exists, a failed write fails the upload:
    if the copy cannot be opened or measured the reply is 500 with "Error
    uploading to MinIO: failed to open file: ..." (or "failed to get file
    stats: ...") and no backend call is made; if the backend refuses the
    object the reply is 500 with "Error uploading to MinIO: failed to upload
    file: ..." and the write is the only call.  In none of these cases is a
    URL requested. *)
Theorem X9_failed_write_fails_the_upload :
  forall (S : Type) (h : Host.t) (s : MinIOService.t S) (r : Request.t) (w : World S)
         (f : string) (header : list (string * string)) (file : list Byte.byte)
         (tempFile : string),
    Request.Method r = "POST" ->
    Request.FormFile r "file" = Ok (FileHeader.mk f header, file) ->
    Host.CreateTemp h ("upload-*" +:+ filepath.Ext f) = Ok tempFile ->
    Host.Copy h tempFile file = None ->
    let c := Get header "Content-Type" in
    let key := "uploads/" +:+ fmt_d (time.Unix (Host.Now h 0)) +:+ "-" +:+ f in
    let contentType := if decide (c = "") then "application/octet-stream" else c in
    (forall err : error,
       Host.Open h tempFile = Fail err ->
       server.uploadHandler h s r w
       = (server.sendResponse false
            ("Error uploading to MinIO: failed to open file: " +:+ Error err) None 500, w))
    /\ (forall (content : list Byte.byte) (err : error),
          Host.Open h tempFile = Ok content ->
          Host.Stat h tempFile = Fail err ->
          server.uploadHandler h s r w
          = (server.sendResponse false
               ("Error uploading to MinIO: failed to get file stats: " +:+ Error err)
               None 500, w))
    /\ (forall (content : list Byte.byte) (size : Z) (err : error),
          Host.Open h tempFile = Ok content ->
          Host.Stat h tempFile = Ok size ->
          put_reply s key content size contentType w = Fail err ->
          server.uploadHandler h s r w
          = (server.sendResponse false
               ("Error uploading to MinIO: failed to upload file: " +:+ Error err)
               None 500,
             put_world s key content size contentType w)
          /\ issued (server.uploadHandler h s r) w
             = [minio.CallPutObject (MinIOService.BucketName s) key size contentType]).
Proof.
  intros S h s r w f header file tempFile Hm Hf Ht Hc c key contentType.
  pose proof (uploadHandler_accepted h s r (FileHeader.mk f header) file tempFile w
                Hm Hf Ht Hc) as Hrun.
  change (upload_key h (FileHeader.mk f header)) with key in Hrun.
  change (upload_content_type (FileHeader.mk f header)) with contentType in Hrun.
  cbv zeta in Hrun.
  destruct (uploadFile_local_failure h s key tempFile contentType w) as [Hopen Hstat].
  split; [| split].
  - intros err Ho. rewrite Hrun, (Hopen err Ho). reflexivity.
  - intros content err Ho Hs. rewrite Hrun, (Hstat content err Ho Hs). reflexivity.
  - intros content size err Ho Hs Hput.
    rewrite (uploadFile_run h s key tempFile contentType content size w Ho Hs), Hput
      in Hrun.
    simpl in Hrun. split; [exact Hrun |].
    apply issued_app. rewrite Hrun. reflexivity.
Qed.

Lemma X9_witness :
  let full := memstore.mkFaults None None (Some (OtherError "disk full")) None
                (fun _ => None) (fun _ => None) in
  (server.uploadHandler (memstore.host [Byte.x68] 7 8) (memstore.service full)
     (memstore.post_file "/upload" "a.txt" "" [Byte.x68])
     (memstore.start memstore.sample)).1
  = server.sendResponse false
      "Error uploading to MinIO: failed to upload file: disk full" None 500.
Proof.
  intros full.
  destruct (X9_failed_write_fails_the_upload memstore.Store (memstore.host [Byte.x68] 7 8)
              (memstore.service full) (memstore.post_file "/upload" "a.txt" "" [Byte.x68])
              (memstore.start memstore.sample) "a.txt" [] [Byte.x68] "/tmp/upload-*.txt"
              eq_refl eq_refl eq_refl eq_refl) as (_ & _ & Hput).
  destruct (Hput [Byte.x68] 1 (OtherError "disk full") eq_refl eq_refl eq_refl)
    as [Hrun _].
  rewrite Hrun. reflexivity.
Defined.

(** X10: a successful upload.  When the write succeeds and the URL is
    signed, the handler has made exactly two backend calls, the write and a
    request for a URL valid for 24 hours for the same key, and the reply is
    the 200 envelope whose descriptor gives the file name of the part, the
    size the backend reported for the write (not the size measured
    locally), the content type sent to the backend, the signed URL and the
    second reading of the clock. *)
Theorem X10_upload_reports_what_the_backend_stored :
  forall (S : Type) (h : Host.t) (s : MinIOService.t S) (r : Request.t) (w : World S)
         (f : string) (header : list (string * string)) (file content : list Byte.byte)
         (tempFile : string) (size : Z) (uploadInfo : minio.UploadInfo.t) (url : string),
    Request.Method r = "POST" ->
    Request.FormFile r "file" = Ok (FileHeader.mk f header, file) ->
    Host.CreateTemp h ("upload-*" +:+ filepath.Ext f) = Ok tempFile ->
    Host.Copy h tempFile file = None ->
    Host.Open h tempFile = Ok content ->
    Host.Stat h tempFile = Ok size ->
    let c := Get header "Content-Type" in
    let key := "uploads/" +:+ fmt_d (time.Unix (Host.Now h 0)) +:+ "-" +:+ f in
    let contentType := if decide (c = "") then "application/octet-stream" else c in
    let written := put_world s key content size contentType w in
    put_reply s key content size contentType w = Ok uploadInfo ->
    presign_reply s key (24 * time.Hour) written = Ok url ->
    (server.uploadHandler h s r w).1
    = server.sendResponse true "File uploaded successfully"
        (Some (DataFileInfo {| FileInfo.FileName := f;
                               FileInfo.Size := minio.UploadInfo.Size uploadInfo;
                               FileInfo.ContentType := contentType;
                               FileInfo.URL := url;
                               FileInfo.UploadedAt := Host.Now h 1 |})) 200
    /\ issued (server.uploadHandler h s r) w
       = [minio.CallPutObject (MinIOService.BucketName s) key size contentType;
          minio.CallPresignedGetObject (MinIOService.BucketName s) key (24 * time.Hour)].
Proof.
  intros S h s r w f header file content tempFile size uploadInfo url
         Hm Hf Ht Hc Ho Hs c key contentType written Hput Hsign.
  pose proof (uploadHandler_accepted h s r (FileHeader.mk f header) file tempFile w
                Hm Hf Ht Hc) as Hrun.
  change (upload_key h (FileHeader.mk f header)) with key in Hrun.
  change (upload_content_type (FileHeader.mk f header)) with contentType in Hrun.
  cbv zeta in Hrun.
  rewrite (uploadFile_run h s key tempFile contentType content size w Ho Hs), Hput
    in Hrun.
  simpl in Hrun. fold written in Hrun.
  rewrite getObjectURL_run in Hrun.
  change (time.Hour * 24) with (24 * time.Hour) in Hrun.
  rewrite Hsign in Hrun. simpl in Hrun.
  split; [rewrite Hrun; reflexivity |].
  apply issued_app. rewrite Hrun. simpl. rewrite <- app_assoc. reflexivity.
Qed.

Lemma X10_witness :
  (server.uploadHandler (memstore.host [Byte.x68; Byte.x69] 1718000000 1718000001)
     (memstore.service memstore.no_faults)
     (memstore.post_file "/upload" "a.txt" "text/plain" [Byte.x68; Byte.x69])
     (memstore.start memstore.sample)).1
  = server.sendResponse true "File uploaded successfully"
      (Some (DataFileInfo {|
         FileInfo.FileName := "a.txt";
         FileInfo.Size := 2;
         FileInfo.ContentType := "text/plain";
         FileInfo.URL := "http://localhost:9000/mybucket/uploads/1718000000-a.txt";
         FileInfo.UploadedAt := 1718000001 |})) 200.
Proof.
  edestruct (X10_upload_reports_what_the_backend_stored memstore.Store
               (memstore.host [Byte.x68; Byte.x69] 1718000000 1718000001)
               (memstore.service memstore.no_faults)
               (memstore.post_file "/upload" "a.txt" "text/plain" [Byte.x68; Byte.x69])
               (memstore.start memstore.sample) "a.txt" [("Content-Type", "text/plain")]
               [Byte.x68; Byte.x69] [Byte.x68; Byte.x69] "/tmp/upload-*.txt" 2)
    as [Hrun _];
    [reflexivity | reflexivity | reflexivity | reflexivity | reflexivity | reflexivity
     | vm_compute; reflexivity | vm_compute; reflexivity |].
  rewrite Hrun. reflexivity.
Defined.

(** ** Startup *)

(** X11: the loader cannot fail.  Whatever the environment, every string
    field of the loaded configuration is non-empty and the loader returns no
    error, in package main and in package config: a variable that is unset
    and a variable set to the empty string both give the default, any other
    value is taken as it is.  Hence [main] never exits with "Failed to load
    MinIO configuration": every fatal exit of startup is a "Failed to
    initialize MinIO service: ..." one. *)
Theorem X11_configuration_always_loads :
  forall (S : Type)
         (New : string -> string -> string -> bool -> result (minio.Client S))
         (env : os.Environ) (w : World S),
    let cfg := (server.loadMinIOConfig env).1 in
    (server.loadMinIOConfig env).2 = None
    /\ config.LoadMinIOConfig env = server.loadMinIOConfig env
    /\ MinIOConfig.Endpoint cfg <> "" /\ MinIOConfig.AccessKeyID cfg <> ""
    /\ MinIOConfig.SecretAccessKey cfg <> "" /\ MinIOConfig.BucketName cfg <> ""
    /\ MinIOConfig.Location cfg <> ""
    /\ (forall key defaultValue : string,
          (env !! key = None \/ env !! key = Some "" ->
           server.getEnv env key defaultValue = defaultValue)
          /\ (forall value, env !! key = Some value -> value <> "" ->
                            server.getEnv env key defaultValue = value))
    /\ (forall message : string,
          (server.main New env w).1 = server.Fatal message ->
          String.prefix "Failed to initialize MinIO service: " message = true).
Proof.
  intros S New env w cfg. subst cfg.
  split; [apply loadMinIOConfig_never_fails |]. split; [apply loaders_agree |].
  rewrite loadMinIOConfig_value. simpl.
  repeat (split; [apply server_getEnv_nonempty; discriminate |]).
  split.
  - intros key d. split.
    + intros [H | H]; [apply getEnv_unset | apply getEnv_empty_is_unset]; exact H.
    + intros value. apply getEnv_set.
  - intros message. unfold server.main. rewrite loadMinIOConfig_value.
    unfold server.startup, server.newMinIOService. simpl.
    destruct (New _ _ _ _) as [client | err]; simpl.
    + rewrite !bind_run. simpl.
      destruct (server.ensureBucket _ w).1 as [err |]; simpl; [| discriminate].
      intros [= <-]. apply String.prefix_correct. reflexivity.
    + unfold ret. simpl. intros [= <-]. apply String.prefix_correct. reflexivity.
Qed.

Lemma X11_witness :
  let env : os.Environ := {["MINIO_BUCKET" := ""; "MINIO_ENDPOINT" := "minio:9000"]} in
  server.getEnv env "MINIO_BUCKET" "mybucket" = "mybucket"
  /\ server.getEnv env "MINIO_ENDPOINT" "localhost:9000" = "minio:9000"
  /\ (server.loadMinIOConfig env).2 = None.
Proof.
  intros env.
  destruct (X11_configuration_always_loads memstore.Store
              (fun _ _ _ _ => Ok (memstore.client memstore.no_faults)) env
              (memstore.start memstore.empty))
    as (Hnone & _ & _ & _ & _ & _ & _ & Hget & _).
  split; [| split; [| exact Hnone]].
  - destruct (Hget "MINIO_BUCKET" "mybucket") as [Hunset _].
    apply Hunset. right. reflexivity.
  - destruct (Hget "MINIO_ENDPOINT" "localhost:9000") as [_ Hset].
    apply Hset; [reflexivity | discriminate].
Defined.

Lemma ensureBucket_value {S : Type} (s : MinIOService.t S) (w : World S) :
  (server.ensureBucket s w).1
  = match probe_reply s (backend w) with
    | Fail err => Some (Errorf_w "failed to check if bucket exists" err)
    | Ok true => None
    | Ok false =>
        match make_reply s (backend w) with
        | Some err => Some (Errorf_w "failed to create bucket" err)
        | None => None
        end
    end.
Proof.
  unfold server.ensureBucket, probe_reply, make_reply, bind, invoke, ret.
  destruct (minio.BucketExists _ _ _) as [[[|] | err] st]; simpl; try reflexivity.
  destruct (minio.MakeBucket _ _ _ _) as [[err |] st']; reflexivity.
Qed.

(** X12: startup.  [main] builds the client from the loaded endpoint,
    keys and TLS flag, and the gateway handle from the loaded bucket and
    region.  If the client cannot be built the process exits without any
    backend call.  Otherwise the only backend calls of startup are those of
    bucket provisioning; a failed probe and a failed creation are fatal,
    with the chain of messages "Failed to initialize MinIO service: failed
    to ensure bucket exists: failed to check if bucket exists: ..." (or
    "failed to create bucket: ..."); and the process reaches the point of
    serving, on the port of PORT or 8080, exactly when the probe found the
    bucket or the probe found none and the creation succeeded. *)
Theorem X12_startup_serves_only_with_a_bucket :
  forall (S : Type)
         (New : string -> string -> string -> bool -> result (minio.Client S))
         (env : os.Environ) (w : World S),
    let cfg := (server.loadMinIOConfig env).1 in
    let made := New (MinIOConfig.Endpoint cfg) (MinIOConfig.AccessKeyID cfg)
                    (MinIOConfig.SecretAccessKey cfg) (MinIOConfig.UseSSL cfg) in
    Forall (fun c => is_provisioning c = true) (issued (server.main New env) w)
    /\ (forall err : error,
          made = Fail err ->
          server.main New env w
          = (server.Fatal ("Failed to initialize MinIO service: "
                           +:+ "failed to initialize MinIO client: " +:+ Error err), w))
    /\ (forall client : minio.Client S,
          made = Ok client ->
          let service := MinIOService.mk client (MinIOConfig.BucketName cfg)
                                         (MinIOConfig.Location cfg) in
          (forall err : error,
             probe_reply service (backend w) = Fail err ->
             (server.main New env w).1
             = server.Fatal ("Failed to initialize MinIO service: "
                             +:+ "failed to ensure bucket exists: "
                             +:+ "failed to check if bucket exists: " +:+ Error err))
          /\ (forall err : error,
                probe_reply service (backend w) = Ok false ->
                make_reply service (backend w) = Some err ->
                (server.main New env w).1
                = server.Fatal ("Failed to initialize MinIO service: "
                                +:+ "failed to ensure bucket exists: "
                                +:+ "failed to create bucket: " +:+ Error err))
          /\ ((server.main New env w).1
              = server.Serving (server.getEnv env "PORT" "8080") service
              <-> probe_reply service (backend w) = Ok true
                  \/ (probe_reply service (backend w) = Ok false
                      /\ make_reply service (backend w) = None)))
    /\ (forall (port : string) (service : MinIOService.t S),
          (server.main New env w).1 = server.Serving port service ->
          port = server.getEnv env "PORT" "8080"
          /\ made = Ok (MinIOService.Client service)
          /\ MinIOService.BucketName service = server.getEnv env "MINIO_BUCKET" "mybucket"
          /\ MinIOService.Location service
             = server.getEnv env "MINIO_LOCATION" "us-east-1").
Proof.
  intros S New env w cfg made.
  pose proof (main_run New env w) as Hrun. cbv zeta in Hrun.
  fold cfg in Hrun. fold made in Hrun.
  split; [| split; [| split]].
  - destruct made as [client | err].
    + erewrite issued_app; [| rewrite Hrun; simpl; apply ensureBucket_calls].
      constructor; [reflexivity |].
      destruct (probe_reply _ _) as [[|] | e]; repeat constructor.
    + erewrite issued_app; [constructor |]. rewrite Hrun. simpl.
      rewrite app_nil_r. reflexivity.
  - intros err Hmade. rewrite Hrun, Hmade. reflexivity.
  - intros client Hmade service. rewrite Hrun, Hmade. simpl.
    fold service. rewrite ensureBucket_value.
    split; [| split].
    + intros err ->. reflexivity.
    + intros err -> ->. reflexivity.
    + destruct (probe_reply service (backend w)) as [[|] | e].
      * split; [intros _; left; reflexivity | reflexivity].
      * destruct (make_reply service (backend w)) as [e |].
        -- split; [discriminate |].
           intros [H | [_ H]]; discriminate.
        -- split; [intros _; right; split; reflexivity | reflexivity].
      * split; [discriminate |]. intros [H | [H _]]; discriminate.
  - intros port service Hserving. rewrite Hrun in Hserving.
    destruct made as [client | err]; simpl in Hserving; [| discriminate].
    destruct (server.ensureBucket _ w).1 as [err |]; [discriminate |].
    injection Hserving as <- <-. simpl.
    subst cfg. rewrite loadMinIOConfig_value. simpl. auto.
Qed.

Lemma X12_witness :
  let New := fun (_ _ _ : string) (_ : bool) => Ok (memstore.client memstore.no_faults) in
  let unreachable := memstore.mkFaults (Some (OtherError "connection refused")) None None
                       None (fun _ => None) (fun _ => None) in
  (server.main New ∅ (memstore.start memstore.empty)).1
  = server.Serving "8080" (memstore.service memstore.no_faults)
  /\ (server.main (fun _ _ _ _ => Ok (memstore.client unreachable)) ∅
        (memstore.start memstore.empty)).1
     = server.Fatal
         ("Failed to initialize MinIO service: failed to ensure bucket exists: "
          +:+ "failed to check if bucket exists: connection refused").
Proof.
  intros New unreachable.
  destruct (X12_startup_serves_only_with_a_bucket memstore.Store New ∅
              (memstore.start memstore.empty)) as (_ & _ & Hok & _).
  destruct (X12_startup_serves_only_with_a_bucket memstore.Store
              (fun _ _ _ _ => Ok (memstore.client unreachable)) ∅
              (memstore.start memstore.empty)) as (_ & _ & Hdown & _).
  split.
  - destruct (Hok (memstore.client memstore.no_faults) eq_refl) as (_ & _ & Hserve).
    apply Hserve. right. split; reflexivity.
  - destruct (Hdown (memstore.client unreachable) eq_refl) as (Hprobe & _).
    apply (Hprobe (OtherError "connection refused")). reflexivity.
Defined.

(** ** What the routes reply *)

Lemma returns_ret {S A : Type} (P : A -> Prop) (a : A) : P a -> returns (S := S) P (ret a).
Proof. intros H w. exact H. Qed.

Lemma returns_bind {S A B : Type} (P : B -> Prop) (m : M S A) (k : A -> M S B) :
  (forall a, returns P (k a)) -> returns P (bind m k).
Proof. intros H w. rewrite bind_run. apply H. Qed.

Lemma returns_bind_from {S A B : Type} (Q : A -> Prop) (P : B -> Prop) (m : M S A)
    (k : A -> M S B) :
  returns Q m -> (forall a, Q a -> returns P (k a)) -> returns P (bind m k).
Proof. intros Hm Hk w. rewrite bind_run. apply Hk, Hm. Qed.

Lemma known_status_in (reply : Written.t) :
  Written.StatusCode reply = 200 \/ Written.StatusCode reply = 301
  \/ Written.StatusCode reply = 302 \/ Written.StatusCode reply = 400
  \/ Written.StatusCode reply = 404 \/ Written.StatusCode reply = 405
  \/ Written.StatusCode reply = 500 \/ Written.StatusCode reply = 503 ->
  known_status reply.
Proof.
  unfold known_status. intros H. repeat rewrite elem_of_cons.
  intuition auto.
Qed.

Lemma sendResponse_failure_ok (message : string) (statusCode : Z) :
  statusCode = 400 \/ statusCode = 404 \/ statusCode = 405 \/ statusCode = 500
  \/ statusCode = 503 ->
  envelope_ok (server.sendResponse false message None statusCode)
  /\ known_status (server.sendResponse false message None statusCode).
Proof.
  intros H. split.
  - exists false, message. simpl.
    split; [reflexivity |]. split; [reflexivity |].
    split; [split; [discriminate | intros ->; intuition discriminate] | reflexivity].
  - apply known_status_in. simpl. intuition auto.
Qed.

Lemma sendResponse_success_ok (message : string) (data : option payload) :
  envelope_ok (server.sendResponse true message data 200)
  /\ known_status (server.sendResponse true message data 200).
Proof.
  split.
  - exists true, message. simpl.
    split; [reflexivity |]. split; [reflexivity |].
    split; [split; reflexivity | discriminate].
  - apply known_status_in. left. reflexivity.
Qed.

Ltac reply_leaf :=
  simpl outcome_ok;
  first
    [ apply sendResponse_success_ok
    | apply sendResponse_failure_ok; simpl; intuition auto
    | split; [exact I | apply known_status_in; simpl; intuition auto] ].

Ltac returns_step leaf :=
  first
    [ apply returns_bind; intros ?
    | apply returns_ret; leaf
    | case_decide
    | case_match ].

Lemma prefix_length (p str : string) :
  String.prefix p str = true -> (String.length p <= String.length str)%nat.
Proof.
  revert str. induction p as [| a p IH]; intros str; [simpl; lia |].
  destruct str as [| b str]; simpl; [discriminate |].
  destruct (ascii_dec a b); [| discriminate].
  intros H. specialize (IH str H). lia.
Qed.

Section Replies.
Context {S : Type} (h : Host.t) (s : MinIOService.t S).

Lemma uploadHandler_reply_ok (r : Request.t) :
  returns (fun reply => outcome_ok (server.Replied reply)) (server.uploadHandler h s r).
Proof. unfold server.uploadHandler. repeat returns_step reply_leaf. Qed.

Lemma listFilesHandler_reply_ok (r : Request.t) :
  returns (fun reply => outcome_ok (server.Replied reply)) (server.listFilesHandler s r).
Proof. unfold server.listFilesHandler. repeat returns_step reply_leaf. Qed.

Lemma healthCheckHandler_reply_ok (r : Request.t) :
  returns (fun reply => outcome_ok (server.Replied reply)) (server.healthCheckHandler s r).
Proof. unfold server.healthCheckHandler. repeat returns_step reply_leaf. Qed.

Lemma slice_from_None (path : string) (n : nat) :
  server.slice_from path n = None <-> (String.length path < n)%nat.
Proof.
  unfold server.slice_from. case_decide; split; intros; try discriminate;
    try reflexivity; try lia.
Qed.

Lemma getFileHandler_reply_ok (r : Request.t) :
  (7 <= String.length (Request.Path r))%nat ->
  returns outcome_ok (server.getFileHandler s r).
Proof.
  intros Hlen. unfold server.getFileHandler.
  case_decide; [apply returns_ret; reply_leaf |].
  destruct (server.slice_from (Request.Path r) (String.length "/files/")) as [key |] eqn:E.
  - repeat returns_step reply_leaf.
  - apply slice_from_None in E. simpl in E. lia.
Qed.

Lemma getFileHandler_panics (r : Request.t) (w : World S) :
  (server.getFileHandler s r w).1 = server.Panicked
  <-> Request.Method r = "GET" /\ (String.length (Request.Path r) < 7)%nat.
Proof.
  split.
  - intros Hp.
    destruct (decide (7 <= String.length (Request.Path r))%nat) as [Hlen | Hlen].
    + pose proof (getFileHandler_reply_ok r Hlen w) as Hok.
      rewrite Hp in Hok. contradiction.
    + split; [| lia].
      destruct (decide (Request.Method r = "GET")) as [Hm | Hm]; [exact Hm |].
      exfalso. revert Hp. unfold server.getFileHandler.
      case_decide; [discriminate | contradiction].
  - intros [Hm Hlen]. unfold server.getFileHandler. rewrite Hm.
    case_decide as Hget; [exfalso; apply Hget; reflexivity |].
    apply (slice_from_None _ (String.length "/files/")) in Hlen. rewrite Hlen.
    reflexivity.
Qed.

Lemma HandlerFunc_reply_ok (f : Request.t -> M S Written.t) (r : Request.t) :
  returns (fun reply => outcome_ok (server.Replied reply)) (f r) ->
  returns outcome_ok (server.HandlerFunc f r).
Proof.
  intros Hf. unfold server.HandlerFunc.
  apply (returns_bind_from _ _ _ _ Hf). intros reply Hreply.
  apply returns_ret. exact Hreply.
Qed.

Lemma serve_reply_ok (cleanPath : string -> string) (r : Request.t) :
  returns outcome_ok (server.serve cleanPath h s r).
Proof.
  unfold server.serve. case_decide; [apply returns_ret; reply_leaf |].
  unfold server.routes. simpl server.exactMatch.
  case_decide; [apply HandlerFunc_reply_ok, uploadHandler_reply_ok |].
  case_decide; [apply HandlerFunc_reply_ok, listFilesHandler_reply_ok |].
  case_decide as Hroot.
  { apply getFileHandler_reply_ok. rewrite <- Hroot. simpl. lia. }
  case_decide; [apply HandlerFunc_reply_ok, healthCheckHandler_reply_ok |].
  unfold server.subtreeMatch.
  change (server.ends_in_slash "/upload") with false.
  change (server.ends_in_slash "/files") with false.
  change (server.ends_in_slash "/files/") with true.
  change (server.ends_in_slash "/health") with false.
  cbn [andb].
  destruct (String.prefix "/files/" (Request.Path r)) eqn:Hpre.
  - apply getFileHandler_reply_ok. apply prefix_length in Hpre. exact Hpre.
  - apply returns_ret. reply_leaf.
Qed.

End Replies.

(** X13: the slice [r.URL.Path[len("/files/"):]] of the retrieve handler
    panics exactly when the method is GET and the path has fewer than seven
    bytes; the multiplexer never hands it such a path, so serving a
    request, whatever it is, never panics. *)
Theorem X13_serving_never_panics :
  forall (S : Type) (cleanPath : string -> string) (h : Host.t) (s : MinIOService.t S)
         (r : Request.t) (w : World S),
    (server.serve cleanPath h s r w).1 <> server.Panicked
    /\ ((server.getFileHandler s r w).1 = server.Panicked
        <-> Request.Method r = "GET" /\ (String.length (Request.Path r) < 7)%nat).
Proof.
  intros S cleanPath h s r w. split; [| apply getFileHandler_panics].
  intros Hp. pose proof (serve_reply_ok h s cleanPath r w) as Hok.
  rewrite Hp in Hok. exact Hok.
Qed.

Lemma X13_witness :
  (server.getFileHandler (memstore.service memstore.no_faults) (memstore.get "/f" [])
     (memstore.start memstore.sample)).1 = server.Panicked
  /\ (server.serve (fun path => path) (memstore.host [] 0 0)
        (memstore.service memstore.no_faults) (memstore.get "/f" [])
        (memstore.start memstore.sample)).1 = server.Replied server.notFound.
Proof.
  destruct (X13_serving_never_panics memstore.Store (fun path => path)
              (memstore.host [] 0 0) (memstore.service memstore.no_faults)
              (memstore.get "/f" []) (memstore.start memstore.sample)) as [_ Hiff].
  split; [apply Hiff; split; [reflexivity | simpl; lia] | reflexivity].
Defined.

(** X14: the shape of every reply.  Whatever the request and the state of
    the backend, the status a route answers with is one of 200, 301, 302,
    400, 404, 405, 500 and 503; and when the body is the JSON envelope, it
    has a [success] and a [message] field, [success] is true exactly when
    the status is 200, and a failure carries no [data]. *)
Theorem X14_reply_shape :
  forall (S : Type) (cleanPath : string -> string) (h : Host.t) (s : MinIOService.t S)
         (r : Request.t) (w : World S),
    exists reply : Written.t,
      (server.serve cleanPath h s r w).1 = server.Replied reply
      /\ Written.StatusCode reply ∈ [200; 301; 302; 400; 404; 405; 500; 503]
      /\ (forall v : json.value,
            Written.Body reply = BodyJSON v ->
            exists (success : bool) (message : string),
              json.field "success" v = Some (json.JBool success)
              /\ json.field "message" v = Some (json.JString message)
              /\ (success = true <-> Written.StatusCode reply = 200)
              /\ (success = false -> json.field "data" v = None)).
Proof.
  intros S cleanPath h s r w.
  pose proof (serve_reply_ok h s cleanPath r w) as Hok.
  destruct (server.serve cleanPath h s r w).1 as [reply |]; [| contradiction].
  destruct Hok as [Henv Hstatus].
  exists reply. split; [reflexivity |]. split; [exact Hstatus |].
  intros v Hv. unfold envelope_ok in Henv. rewrite Hv in Henv. exact Henv.
Qed.

Lemma X14_witness :
  exists reply : Written.t,
    (server.serve (fun path => path) (memstore.host [] 0 0)
       (memstore.service memstore.no_faults) (memstore.get "/files/missing" [])
       (memstore.start memstore.sample)).1 = server.Replied reply
    /\ Written.StatusCode reply = 404
    /\ exists v, Written.Body reply = BodyJSON v
                 /\ json.field "success" v = Some (json.JBool false)
                 /\ json.field "data" v = None.
Proof.
  destruct (X14_reply_shape memstore.Store (fun path => path) (memstore.host [] 0 0)
              (memstore.service memstore.no_faults) (memstore.get "/files/missing" [])
              (memstore.start memstore.sample)) as (reply & Hreply & _ & Hjson).
  exists reply. split; [exact Hreply |].
  vm_compute in Hreply. injection Hreply as <-.
  split; [reflexivity |]. eexists. split; [reflexivity |].
  split; reflexivity.
Defined.

(** ** Which calls the routes make, and on which bucket *)

Lemma adds_only_weaken {S A : Type} (P Q : minio.Call -> Prop) (m : M S A) :
  (forall c, P c -> Q c) -> adds_only P m -> adds_only Q m.
Proof.
  intros HPQ Hm w. destruct (Hm w) as (added & Hc & Hall).
  exists added. split; [exact Hc |]. eapply Forall_impl; eassumption.
Qed.

Ltac calls_step :=
  first
    [ apply adds_only_ret
    | apply adds_only_invoke;
      first [ split; reflexivity
            | split; [reflexivity | left; reflexivity]
            | split; [reflexivity | right; reflexivity] ]
    | apply adds_only_bind; [| intros ?]
    | case_decide
    | case_match ].

Section CallKinds.
Context {S : Type} (h : Host.t) (s : MinIOService.t S).

Let reads (c : minio.Call) : Prop :=
  call_bucket c = MinIOService.BucketName s /\ is_object_read c = true.

Let reads_or_writes (c : minio.Call) : Prop :=
  call_bucket c = MinIOService.BucketName s
  /\ (is_write c = true \/ is_object_read c = true).

Lemma getObjectURL_reads (key : string) (expiry : time.Duration) :
  adds_only reads (server.getObjectURL s key expiry).
Proof. unfold server.getObjectURL. repeat calls_step. Qed.

Lemma listObjects_reads (prefix : string) : adds_only reads (server.listObjects s prefix).
Proof. unfold server.listObjects. repeat calls_step. Qed.

Lemma appendFileInfos_reads (objects : list minio.ObjectInfo.t) :
  forall fileList, adds_only reads (server.appendFileInfos s objects fileList).
Proof.
  induction objects as [| obj rest IH]; intros fileList; simpl.
  - apply adds_only_ret.
  - apply adds_only_bind; [apply getObjectURL_reads | intros u; apply IH].
Qed.

Lemma listFilesHandler_reads (r : Request.t) :
  adds_only reads (server.listFilesHandler s r).
Proof.
  unfold server.listFilesHandler.
  repeat first [ apply listObjects_reads | apply appendFileInfos_reads | calls_step ].
Qed.

Lemma getFileHandler_reads (r : Request.t) :
  adds_only reads (server.getFileHandler s r).
Proof.
  unfold server.getFileHandler, server.checkObjectExists, server.downloadBuffer.
  repeat first [ apply getObjectURL_reads | calls_step ].
Qed.

Lemma healthCheckHandler_reads (r : Request.t) :
  adds_only reads (server.healthCheckHandler s r).
Proof.
  unfold server.healthCheckHandler. repeat first [ apply listObjects_reads | calls_step ].
Qed.

Lemma uploadHandler_reads_or_writes (r : Request.t) :
  adds_only reads_or_writes (server.uploadHandler h s r).
Proof.
  unfold server.uploadHandler, server.uploadFile, server.getObjectURL.
  repeat calls_step.
Qed.

Lemma reads_weaken (c : minio.Call) : reads c -> reads_or_writes c.
Proof. intros [Hb Hr]. split; [exact Hb | right; exact Hr]. Qed.

Lemma HandlerFunc_adds_only (P : minio.Call -> Prop) (f : Request.t -> M S Written.t)
    (r : Request.t) :
  adds_only P (f r) -> adds_only P (server.HandlerFunc f r).
Proof.
  intros Hf. unfold server.HandlerFunc.
  apply adds_only_bind; [exact Hf | intros; apply adds_only_ret].
Qed.

Lemma serve_reads_or_writes (cleanPath : string -> string) (r : Request.t) :
  adds_only reads_or_writes (server.serve cleanPath h s r)
  /\ (Request.Path r <> "/upload" -> adds_only reads (server.serve cleanPath h s r)).
Proof.
  unfold server.serve.
  case_decide; [split; [| intros _]; apply adds_only_ret |].
  unfold server.routes. simpl server.exactMatch.
  case_decide as Hup.
  { split; [apply HandlerFunc_adds_only, uploadHandler_reads_or_writes |].
    intros Hne. exfalso. apply Hne. symmetry. exact Hup. }
  assert (Hrest :
    adds_only reads
      (match
         (if decide ("/files" = Request.Path r) then
            Some (server.HandlerFunc (server.listFilesHandler s))
          else if decide ("/files/" = Request.Path r) then Some (server.getFileHandler s)
          else if decide ("/health" = Request.Path r) then
            Some (server.HandlerFunc (server.healthCheckHandler s))
          else None)
       with
       | Some handler => handler r
       | None =>
           match server.subtreeMatch (server.routes h s) (Request.Path r) with
           | Some handler => handler r
           | None => ret (server.Replied server.notFound)
           end
       end)).
  { case_decide; [apply HandlerFunc_adds_only, listFilesHandler_reads |].
    case_decide; [apply getFileHandler_reads |].
    case_decide; [apply HandlerFunc_adds_only, healthCheckHandler_reads |].
    unfold server.routes, server.subtreeMatch.
    change (server.ends_in_slash "/upload") with false.
    change (server.ends_in_slash "/files") with false.
    change (server.ends_in_slash "/files/") with true.
    change (server.ends_in_slash "/health") with false.
    cbn [andb].
    destruct (String.prefix "/files/" (Request.Path r));
      [apply getFileHandler_reads | apply adds_only_ret]. }
  split; [| intros _; exact Hrest].
  apply (adds_only_weaken reads reads_or_writes); [apply reads_weaken | exact Hrest].
Qed.

End CallKinds.

(** X15: the running server works on one bucket and only upload writes.
    Every backend call that serving a request makes names the configured
    bucket and is a write of an object or a read (stat, get, list,
    presign): the server never probes, creates or empties a bucket and
    never removes an object.  The list, retrieve and health handlers, and
    every request whose path is not /upload, make read calls only. *)
Theorem X15_one_bucket_and_only_upload_writes :
  forall (S : Type) (cleanPath : string -> string) (h : Host.t) (s : MinIOService.t S)
         (r : Request.t) (w : World S),
    let reads := fun c => call_bucket c = MinIOService.BucketName s
                          /\ is_object_read c = true in
    Forall (fun c => call_bucket c = MinIOService.BucketName s
                     /\ (is_write c = true \/ is_object_read c = true))
           (issued (server.serve cleanPath h s r) w)
    /\ Forall (fun c => call_bucket c = MinIOService.BucketName s
                        /\ (is_write c = true \/ is_object_read c = true))
              (issued (server.uploadHandler h s r) w)
    /\ Forall reads (issued (server.listFilesHandler s r) w)
    /\ Forall reads (issued (server.getFileHandler s r) w)
    /\ Forall reads (issued (server.healthCheckHandler s r) w)
    /\ (Request.Path r <> "/upload" ->
        Forall reads (issued (server.serve cleanPath h s r) w)).
Proof.
  intros S cleanPath h s r w reads.
  destruct (serve_reads_or_writes h s cleanPath r) as [Hall Hread].
  split; [apply issued_adds_only, Hall |].
  split; [apply issued_adds_only, uploadHandler_reads_or_writes |].
  split; [apply issued_adds_only, listFilesHandler_reads |].
  split; [apply issued_adds_only, getFileHandler_reads |].
  split; [apply issued_adds_only, healthCheckHandler_reads |].
  intros Hne. apply issued_adds_only, Hread, Hne.
Qed.

Lemma X15_witness :
  Forall (fun c => call_bucket c = "mybucket" /\ is_object_read c = true)
         (issued (server.serve (fun path => path) (memstore.host [] 0 0)
                    (memstore.service memstore.no_faults)
                    (memstore.get "/files/uploads/1-a.txt" []))
                 (memstore.start memstore.sample)).
Proof.
  destruct (X15_one_bucket_and_only_upload_writes memstore.Store (fun path => path)
              (memstore.host [] 0 0) (memstore.service memstore.no_faults)
              (memstore.get "/files/uploads/1-a.txt" [])
              (memstore.start memstore.sample)) as (_ & _ & _ & _ & _ & Hread).
  apply Hread. discriminate.
Defined.

(** ** Object keys and file names *)

Lemma list_ascii_of_string_app (a b : string) :
  list_ascii_of_string (a +:+ b) = list_ascii_of_string a ++ list_ascii_of_string b.
Proof.
  induction a as [| c a IH]; [reflexivity |].
  change (String c a +:+ b) with (String c (a +:+ b)). simpl. rewrite IH. reflexivity.
Qed.

Lemma list_ascii_of_string_inj (a b : string) :
  list_ascii_of_string a = list_ascii_of_string b -> a = b.
Proof.
  intros H. rewrite <- (string_of_list_ascii_of_string a),
              <- (string_of_list_ascii_of_string b), H. reflexivity.
Qed.

Lemma pretty_N_char_digit (x : N) : is_digit (pretty_N_char x).
Proof.
  unfold is_digit, pretty_N_char. repeat case_match; repeat rewrite elem_of_cons; auto 12.
Qed.

Lemma pretty_N_go_digits (x : N) :
  forall str : string,
    Forall is_digit (list_ascii_of_string str) ->
    Forall is_digit (list_ascii_of_string (pretty_N_go x str)).
Proof.
  induction (N.lt_wf_0 x) as [x _ IH]. intros str Hstr.
  destruct (decide (x = 0)%N) as [-> | Hx]; [rewrite pretty_N_go_0; exact Hstr |].
  rewrite pretty_N_go_step by lia.
  apply IH; [apply N.div_lt; lia |].
  simpl. constructor; [apply pretty_N_char_digit | exact Hstr].
Qed.

Lemma pretty_N_go_nonempty (x : N) :
  forall str : string, str <> "" -> pretty_N_go x str <> "".
Proof.
  induction (N.lt_wf_0 x) as [x _ IH]. intros str Hstr.
  destruct (decide (x = 0)%N) as [-> | Hx]; [rewrite pretty_N_go_0; exact Hstr |].
  rewrite pretty_N_go_step by lia.
  apply IH; [apply N.div_lt; lia | discriminate].
Qed.

Lemma pretty_positive_digits (p : positive) :
  Forall is_digit (list_ascii_of_string (pretty p)) /\ pretty p <> "".
Proof.
  unfold pretty, pretty_positive, pretty, pretty_N.
  case_decide; [discriminate |]. split.
  - apply pretty_N_go_digits. constructor.
  - rewrite pretty_N_go_step by lia. apply pretty_N_go_nonempty. discriminate.
Qed.

(** What [%d] prints: an optional minus sign and at least one digit. *)
Lemma fmt_d_shape (n : Z) :
  exists (sign digits : list ascii),
    list_ascii_of_string (fmt_d n) = sign ++ digits
    /\ (sign = [] \/ sign = ["-"%char])
    /\ Forall is_digit digits /\ digits <> [].
Proof.
  unfold fmt_d, pretty, pretty_Z. destruct n as [| p | p].
  - exists [], ["0"%char]. split; [reflexivity |]. split; [left; reflexivity |].
    split; [| discriminate]. constructor; [| constructor].
    unfold is_digit. left.
  - destruct (pretty_positive_digits p) as [Hd Hne].
    exists [], (list_ascii_of_string (pretty p)).
    split; [reflexivity |]. split; [left; reflexivity |]. split; [exact Hd |].
    intros Hnil. apply Hne. apply list_ascii_of_string_inj. rewrite Hnil. reflexivity.
  - destruct (pretty_positive_digits p) as [Hd Hne].
    exists ["-"%char], (list_ascii_of_string (pretty p)).
    split; [apply (list_ascii_of_string_app "-") |].
    split; [right; reflexivity |]. split; [exact Hd |].
    intros Hnil. apply Hne. apply list_ascii_of_string_inj. rewrite Hnil. reflexivity.
Qed.

Lemma digit_not_dash (c : ascii) : is_digit c -> c <> "-"%char.
Proof.
  unfold is_digit. repeat rewrite elem_of_cons. rewrite elem_of_nil.
  intros H ->. intuition discriminate.
Qed.

Lemma digit_not_slash (c : ascii) : is_digit c -> c <> filepath.slash.
Proof.
  unfold is_digit, filepath.slash. repeat rewrite elem_of_cons. rewrite elem_of_nil.
  intros H ->. intuition discriminate.
Qed.

Lemma digits_dash_split (d1 : list ascii) :
  forall d2 r1 r2 : list ascii,
    Forall is_digit d1 -> Forall is_digit d2 ->
    d1 ++ "-"%char :: r1 = d2 ++ "-"%char :: r2 -> d1 = d2 /\ r1 = r2.
Proof.
  induction d1 as [| c d1 IH]; intros d2 r1 r2 H1 H2 E.
  - destruct d2 as [| c2 d2]; simpl in E.
    + injection E as <-. split; reflexivity.
    + injection E as <- _. inversion H2 as [| ? ? Hc _]; subst.
      exfalso. exact (digit_not_dash _ Hc eq_refl).
  - destruct d2 as [| c2 d2]; simpl in E.
    + injection E as -> _. inversion H1 as [| ? ? Hc _]; subst.
      exfalso. exact (digit_not_dash _ Hc eq_refl).
    + injection E as <- E. inversion H1; inversion H2; subst.
      destruct (IH d2 r1 r2) as [<- <-]; auto.
Qed.

Lemma numeral_dash_split (n1 n2 : Z) (r1 r2 : list ascii) :
  list_ascii_of_string (fmt_d n1) ++ "-"%char :: r1
  = list_ascii_of_string (fmt_d n2) ++ "-"%char :: r2 ->
  n1 = n2 /\ r1 = r2.
Proof.
  destruct (fmt_d_shape n1) as (s1 & d1 & E1 & Hs1 & Hd1 & Hn1).
  destruct (fmt_d_shape n2) as (s2 & d2 & E2 & Hs2 & Hd2 & Hn2).
  intros E.
  assert (Hsplit : list_ascii_of_string (fmt_d n1) = list_ascii_of_string (fmt_d n2)
                   /\ r1 = r2).
  { rewrite E1, E2 in *. rewrite <- !app_assoc in E.
    destruct Hs1 as [-> | ->], Hs2 as [-> | ->]; simpl in *.
    - destruct (digits_dash_split d1 d2 r1 r2 Hd1 Hd2 E) as [-> ->]. auto.
    - destruct d1 as [| c d1]; [contradiction |]. injection E as -> _.
      inversion Hd1 as [| ? ? Hc _]; subst. exfalso. exact (digit_not_dash _ Hc eq_refl).
    - destruct d2 as [| c d2]; [contradiction |]. injection E as <- _.
      inversion Hd2 as [| ? ? Hc _]; subst. exfalso. exact (digit_not_dash _ Hc eq_refl).
    - injection E as E.
      destruct (digits_dash_split d1 d2 r1 r2 Hd1 Hd2 E) as [-> ->]. auto. }
  destruct Hsplit as [Hn Hr]. split; [| exact Hr].
  apply list_ascii_of_string_inj in Hn. unfold fmt_d in Hn.
  exact (pretty_Z_inj _ _ Hn).
Qed.

(** X16: when two uploads collide.  The keys the upload handler derives for
    two uploads are equal exactly when the two clock readings fall in the
    same Unix second and the two parts have the same file name; the
    timestamp and the name cannot run into each other, whatever characters
    the name has. *)
Theorem X16_keys_collide_only_on_same_second_and_name :
  forall (h1 h2 : Host.t) (handler1 handler2 : FileHeader.t),
    "uploads/" +:+ fmt_d (time.Unix (Host.Now h1 0)) +:+ "-"
               +:+ FileHeader.Filename handler1
    = "uploads/" +:+ fmt_d (time.Unix (Host.Now h2 0)) +:+ "-"
                 +:+ FileHeader.Filename handler2
    <-> time.Unix (Host.Now h1 0) = time.Unix (Host.Now h2 0)
        /\ FileHeader.Filename handler1 = FileHeader.Filename handler2.
Proof.
  intros h1 h2 handler1 handler2. split.
  - intros E. apply (f_equal list_ascii_of_string) in E.
    rewrite !list_ascii_of_string_app in E.
    apply app_inv_head in E. simpl in E.
    destruct (numeral_dash_split _ _ _ _ E) as [Ht Hf].
    split; [exact Ht | apply list_ascii_of_string_inj; exact Hf].
  - intros [-> ->]. reflexivity.
Qed.

Lemma last_element_stops (l : list ascii) :
  forall (rest acc : list ascii),
    Forall (fun c => c <> filepath.slash) l ->
    filepath.last_element (l ++ filepath.slash :: rest) acc = rev l ++ acc.
Proof.
  induction l as [| c l IH]; intros rest acc Hl; simpl.
  - reflexivity.
  - inversion Hl as [| ? ? Hc Hrest]; subst.
    case_decide; [contradiction |].
    rewrite IH by exact Hrest. rewrite <- app_assoc. reflexivity.
Qed.

Lemma last_element_of_path (dir name : list ascii) :
  name <> [] ->
  Forall (fun c => c <> filepath.slash) name ->
  filepath.last_element (filepath.strip_slashes (rev (dir ++ filepath.slash :: name))) []
  = name.
Proof.
  intros Hne Hns.
  rewrite rev_app_distr. simpl rev at 1. rewrite <- app_assoc. simpl app at 2.
  assert (Hrev : Forall (fun c => c <> filepath.slash) (rev name)).
  { rewrite Forall_forall in *. intros c Hc. apply Hns.
    apply list_elem_of_In. apply list_elem_of_In, in_rev in Hc. exact Hc. }
  destruct (rev name) as [| c l] eqn:E.
  { exfalso. apply Hne.
    apply (f_equal (@rev ascii)) in E. rewrite rev_involutive in E. exact E. }
  simpl filepath.strip_slashes.
  inversion Hrev as [| ? ? Hc Hl]; subst.
  case_decide; [contradiction |].
  change (c :: l ++ filepath.slash :: rev dir)
    with ((c :: l) ++ filepath.slash :: rev dir).
  rewrite last_element_stops by exact Hrev.
  rewrite app_nil_r, <- E, rev_involutive. reflexivity.
Qed.

(** [filepath.Base] of a path that ends in a slash-free, non-empty element
    is that element. *)
Lemma Base_of_last_element (dir name : string) :
  name <> "" -> no_slash name -> filepath.Base (dir +:+ "/" +:+ name) = name.
Proof.
  intros Hne Hns. unfold filepath.Base.
  case_decide as Hempty.
  { apply (f_equal list_ascii_of_string) in Hempty.
    rewrite !list_ascii_of_string_app in Hempty. simpl in Hempty.
    destruct (list_ascii_of_string dir); discriminate. }
  assert (Hchars : list_ascii_of_string (dir +:+ "/" +:+ name)
                   = list_ascii_of_string dir ++ filepath.slash :: list_ascii_of_string name).
  { rewrite !list_ascii_of_string_app. reflexivity. }
  assert (Hname : list_ascii_of_string name <> []).
  { intros E. apply Hne. apply list_ascii_of_string_inj. rewrite E. reflexivity. }
  cbv zeta. rewrite Hchars, (last_element_of_path _ _ Hname Hns).
  destruct (list_ascii_of_string name) eqn:En; [contradiction |].
  rewrite <- En. apply string_of_list_ascii_of_string.
Qed.

Lemma fmt_d_no_slash (n : Z) : no_slash (fmt_d n).
Proof.
  unfold no_slash. destruct (fmt_d_shape n) as (sign & digits & -> & Hs & Hd & _).
  apply Forall_app. split.
  - destruct Hs as [-> | ->]; repeat constructor. discriminate.
  - eapply Forall_impl; [exact Hd | apply digit_not_slash].
Qed.

(** X17: the name a listing shows is not the name that was uploaded.  For
    an object stored under the key of an upload, "uploads/" + Unix second +
    "-" + file name, where the file name has no slash, the list handler
    reports as [fileName] the last path element of the key, that is the
    Unix second, a hyphen and the file name, whereas the reply to the
    upload itself gave the bare file name. *)
Theorem X17_listing_shows_the_timestamped_name :
  forall (S : Type) (s : MinIOService.t S) (r : Request.t) (w w1 : World S)
         (objects : list minio.ObjectInfo.t) (i : nat) (obj : minio.ObjectInfo.t)
         (t : time.Time) (f : string),
    Request.Method r = "GET" ->
    let q := Get (Request.Query r) "prefix" in
    let prefix := if decide (q = "") then "uploads/" else q in
    server.listObjects s prefix w = ((objects, None), w1) ->
    objects !! i = Some obj ->
    minio.ObjectInfo.Key obj = "uploads/" +:+ fmt_d (time.Unix t) +:+ "-" +:+ f ->
    no_slash f ->
    filepath.Base (minio.ObjectInfo.Key obj) = fmt_d (time.Unix t) +:+ "-" +:+ f
    /\ exists (fileList : list FileInfo.t) (fileInfo : FileInfo.t),
         (server.listFilesHandler s r w).1
         = server.sendResponse true
             ("Found " +:+ fmt_d (Z.of_nat (length objects)) +:+ " files")
             (Some (DataFileList fileList)) 200
         /\ fileList !! i = Some fileInfo
         /\ FileInfo.FileName fileInfo = fmt_d (time.Unix t) +:+ "-" +:+ f
         /\ FileInfo.FileName fileInfo <> f.
Proof.
  intros S s r w w1 objects i obj t f Hm q prefix Hl Hobj Hkey Hns.
  assert (Hbase : filepath.Base (minio.ObjectInfo.Key obj)
                  = fmt_d (time.Unix t) +:+ "-" +:+ f).
  { rewrite Hkey.
    apply (Base_of_last_element "uploads" (fmt_d (time.Unix t) +:+ "-" +:+ f)).
    - intros E. apply (f_equal list_ascii_of_string) in E.
      rewrite !list_ascii_of_string_app in E. simpl in E.
      destruct (list_ascii_of_string (fmt_d (time.Unix t))); discriminate.
    - unfold no_slash. rewrite !list_ascii_of_string_app.
      apply Forall_app. split; [apply fmt_d_no_slash |].
      apply Forall_app. split; [repeat constructor; discriminate | exact Hns]. }
  split; [exact Hbase |].
  pose proof (listFilesHandler_listed s r w w1 objects Hm Hl) as Hrun.
  pose proof (presignEach_length s objects w1) as Hlen.
  destruct ((presignEach s objects w1).1 !! i) as [u |] eqn:Hu.
  2:{ apply lookup_ge_None in Hu. apply lookup_lt_Some in Hobj. lia. }
  eexists. eexists. split; [rewrite Hrun; reflexivity |].
  split; [rewrite lookup_zip_with, Hobj, Hu; reflexivity |].
  split; [exact Hbase |].
  simpl. rewrite Hbase. intros E.
  apply (f_equal list_ascii_of_string) in E.
  rewrite !list_ascii_of_string_app in E.
  apply (f_equal (@length ascii)) in E.
  rewrite !length_app in E. simpl in E. lia.
Qed.

Lemma X17_witness :
  exists (fileList : list FileInfo.t) (fileInfo : FileInfo.t),
    (server.listFilesHandler (memstore.service memstore.no_faults)
       (memstore.get "/files" []) (memstore.start memstore.sample)).1
    = server.sendResponse true "Found 2 files" (Some (DataFileList fileList)) 200
    /\ fileList !! 0%nat = Some fileInfo
    /\ FileInfo.FileName fileInfo = "1-a.txt".
Proof.
  edestruct X17_listing_shows_the_timestamped_name
    with (S := memstore.Store) (s := memstore.service memstore.no_faults)
         (r := memstore.get "/files" []) (w := memstore.start memstore.sample)
         (i := 0%nat) (t := 1) (f := "a.txt")
    as (_ & fileList & fileInfo & Hrun & Hfi & Hname & _);
    [reflexivity | vm_compute; reflexivity | reflexivity | reflexivity
     | unfold no_slash; simpl; repeat constructor; discriminate |].
  exists fileList, fileInfo. split; [rewrite Hrun; reflexivity |].
  split; [exact Hfi | rewrite Hname; vm_compute; reflexivity].
Defined.

(** ** Composition of gateway operations *)

Section Composition.
Context {S : Type} (s : MinIOService.t S).

Lemma UploadBuffer_run (key : string) (data : list Byte.byte) (contentType : string)
    (w : World S) :
  storage_rest.UploadBuffer s key data contentType w
  = (match put_reply s key data (Z.of_nat (length data)) contentType w with
     | Ok uploadInfo => (uploadInfo, None)
     | Fail err => (minio.UploadInfo.mk 0, Some (Errorf_w "failed to upload data" err))
     end, put_world s key data (Z.of_nat (length data)) contentType w).
Proof.
  unfold storage_rest.UploadBuffer, put_reply, put_world, bind, invoke, ret.
  destruct (minio.PutObject _ _ _ _ _ _ _) as [[info | err] st]; reflexivity.
Qed.

Lemma DownloadBuffer_agree (key : string) (w : World S) :
  storage_rest.DownloadBuffer s key w = server.downloadBuffer s key w.
Proof. reflexivity. Qed.

Lemma deleteObject_run (key : string) (w : World S) :
  server.deleteObject s key w
  = (match (minio.RemoveObject (MinIOService.Client s) (MinIOService.BucketName s) key
                               (backend w)).1 with
     | Some err => Some (Errorf_w "failed to delete object" err)
     | None => None
     end,
     mkWorld (minio.RemoveObject (MinIOService.Client s) (MinIOService.BucketName s) key
                                 (backend w)).2
             (calls w ++ [minio.CallRemoveObject (MinIOService.BucketName s) key])).
Proof.
  unfold server.deleteObject, bind, invoke, ret.
  destruct (minio.RemoveObject _ _ _ _) as [[err |] st]; reflexivity.
Qed.

End Composition.

(** X18: what [UploadBuffer] stores, [DownloadBuffer] and
    [CheckObjectExists] find.  [UploadBuffer] sends the bytes it is given
    under the key it is given, to the configured bucket, and declares as
    size their number.  With a backend on which an object that was put can
    be got and stat'ed, a successful [UploadBuffer] followed by
    [DownloadBuffer] of the same key returns exactly the bytes, without
    error, and [CheckObjectExists] returns true. *)
Theorem X18_buffer_round_trip :
  forall (S : Type) (s : MinIOService.t S) (key contentType : string)
         (data : list Byte.byte) (w w1 : World S) (uploadInfo : minio.UploadInfo.t),
    (forall (st st' : S) (info : minio.UploadInfo.t),
       minio.PutObject (MinIOService.Client s) (MinIOService.BucketName s) key data
                       (Z.of_nat (length data)) contentType st = (Ok info, st') ->
       (minio.GetObject (MinIOService.Client s) (MinIOService.BucketName s) key st').1
       = Ok (Ok data)
       /\ exists found,
            (minio.StatObject (MinIOService.Client s) (MinIOService.BucketName s) key st').1
            = Ok found) ->
    storage_rest.UploadBuffer s key data contentType w = ((uploadInfo, None), w1) ->
    issued (storage_rest.UploadBuffer s key data contentType) w
    = [minio.CallPutObject (MinIOService.BucketName s) key (Z.of_nat (length data))
                           contentType]
    /\ (storage_rest.DownloadBuffer s key w1).1 = (data, None)
    /\ (storage.CheckObjectExists s key w1).1 = (true, None).
Proof.
  intros S s key contentType data w w1 uploadInfo Hcontract Hup.
  rewrite UploadBuffer_run in Hup.
  split; [apply issued_app; rewrite UploadBuffer_run; reflexivity |].
  unfold put_reply, put_world in Hup.
  destruct (minio.PutObject _ _ _ _ _ _ _) as [[info | err] st'] eqn:Eput;
    simpl in Hup; [| discriminate].
  injection Hup as -> <-.
  destruct (Hcontract _ _ _ Eput) as [Hget [found Hstat]].
  split.
  - rewrite DownloadBuffer_agree, downloadBuffer_run. unfold get_reply. simpl.
    rewrite Hget. reflexivity.
  - rewrite CheckObjectExists_agree, checkObjectExists_run. unfold stat_reply. simpl.
    rewrite Hstat. reflexivity.
Qed.

Lemma memstore_put_then_read (f : memstore.Faults) (bucket key contentType : string)
    (data : list Byte.byte) (st st' : memstore.Store) (info : minio.UploadInfo.t) :
  (forall k, memstore.fault_stat f k = None) ->
  minio.PutObject (memstore.client f) bucket key data (Z.of_nat (length data))
                  contentType st = (Ok info, st') ->
  (minio.GetObject (memstore.client f) bucket key st').1 = Ok (Ok data)
  /\ exists found, (minio.StatObject (memstore.client f) bucket key st').1 = Ok found.
Proof.
  intros Hstat. simpl. destruct (memstore.fault_put f); [discriminate |].
  case_decide; [| discriminate]. intros [= _ <-]. simpl.
  rewrite Hstat, lookup_insert_eq. simpl. eauto.
Qed.

Lemma X18_witness :
  let s := memstore.service memstore.no_faults in
  let w1 := (storage_rest.UploadBuffer s "notes/x" [Byte.x68; Byte.x69] "text/plain"
               (memstore.start memstore.sample)).2 in
  (storage_rest.DownloadBuffer s "notes/x" w1).1 = ([Byte.x68; Byte.x69], None)
  /\ (storage.CheckObjectExists s "notes/x" w1).1 = (true, None).
Proof.
  intros s w1.
  edestruct (X18_buffer_round_trip memstore.Store s "notes/x" "text/plain"
               [Byte.x68; Byte.x69] (memstore.start memstore.sample) w1)
    as (_ & Hget & Hstat).
  - intros st st' info. apply memstore_put_then_read. reflexivity.
  - vm_compute. reflexivity.
  - split; [exact Hget | exact Hstat].
Defined.

(** X19: what was deleted is reported absent.  [deleteObject] sends one
    removal and checks nothing itself.  With a backend on which the stat of
    a removed key fails with the code [NoSuchKey], a successful
    [deleteObject] followed by [checkObjectExists] of the key returns false
    without error, and a GET of the key on the retrieve route is answered
    404 "File not found". *)
Theorem X19_deleted_is_not_found :
  forall (S : Type) (s : MinIOService.t S) (key : string) (r : Request.t)
         (w w1 : World S),
    (forall st st' : S,
       minio.RemoveObject (MinIOService.Client s) (MinIOService.BucketName s) key st
       = (None, st') ->
       exists message,
         (minio.StatObject (MinIOService.Client s) (MinIOService.BucketName s) key st').1
         = Fail (ErrorResponse "NoSuchKey" message)) ->
    server.deleteObject s key w = (None, w1) ->
    Request.Method r = "GET" ->
    Request.Path r = "/files/" +:+ key ->
    key <> "" ->
    (server.checkObjectExists s key w1).1 = (false, None)
    /\ (server.getFileHandler s r w1).1
       = server.Replied (server.sendResponse false "File not found" None 404).
Proof.
  intros S s key r w w1 Hcontract Hdel Hm Hp Hk.
  rewrite deleteObject_run in Hdel.
  destruct (minio.RemoveObject _ _ _ _) as [[err |] st'] eqn:Erm; simpl in Hdel;
    [discriminate |].
  injection Hdel as <-.
  destruct (Hcontract _ _ Erm) as [message Hstat].
  assert (Hcheck : (server.checkObjectExists s key
                      (mkWorld st' (calls w ++ [minio.CallRemoveObject
                                                  (MinIOService.BucketName s) key]))).1
                   = (false, None)).
  { rewrite checkObjectExists_run. unfold stat_reply. simpl. rewrite Hstat. reflexivity. }
  split; [exact Hcheck |].
  unfold server.getFileHandler. rewrite Hm, Hp, slice_from_files.
  case_decide as Hget; [exfalso; apply Hget; reflexivity |].
  case_decide; [contradiction |].
  rewrite bind_run, Hcheck. reflexivity.
Qed.

Lemma memstore_removed_is_gone (bucket key : string) (st st' : memstore.Store) :
  minio.RemoveObject (memstore.client memstore.no_faults) bucket key st = (None, st') ->
  exists message,
    (minio.StatObject (memstore.client memstore.no_faults) bucket key st').1
    = Fail (ErrorResponse "NoSuchKey" message).
Proof.
  simpl. intros [= <-]. simpl. rewrite lookup_delete_eq. eexists. reflexivity.
Qed.

Lemma X19_witness :
  let s := memstore.service memstore.no_faults in
  let w1 := (server.deleteObject s "uploads/1-a.txt" (memstore.start memstore.sample)).2 in
  (server.checkObjectExists s "uploads/1-a.txt" w1).1 = (false, None)
  /\ (server.getFileHandler s (memstore.get "/files/uploads/1-a.txt" []) w1).1
     = server.Replied (server.sendResponse false "File not found" None 404).
Proof.
  intros s w1.
  apply (X19_deleted_is_not_found memstore.Store s "uploads/1-a.txt"
           (memstore.get "/files/uploads/1-a.txt" []) (memstore.start memstore.sample) w1).
  - intros st st'. apply memstore_removed_is_gone.
  - reflexivity.
  - reflexivity.
  - reflexivity.
  - discriminate.
Defined.

(** X20: an upload can be downloaded again.  Take a backend on which
    presigning and stat do not change the state and on which an object that
    was put can be stat'ed and got, and a host on which the temporary copy
    reads back as the part that was copied into it.  Then after an upload
    whose write succeeded (whether or not the URL could be signed), a GET of
    /files/ followed by the upload's key with [download=true] is answered
    200 with exactly the uploaded bytes as body and their number as
    [Content-Length]. *)
Theorem X20_upload_then_download :
  forall (S : Type) (h : Host.t) (s : MinIOService.t S) (r_up r_get : Request.t)
         (w : World S) (f : string) (header : list (string * string))
         (file : list Byte.byte) (tempFile : string) (size : Z)
         (uploadInfo : minio.UploadInfo.t),
    let client := MinIOService.Client s in
    let bucket := MinIOService.BucketName s in
    (forall key expiry st, (minio.PresignedGetObject client bucket key expiry st).2 = st) ->
    (forall key st, (minio.StatObject client bucket key st).2 = st) ->
    (forall key content n contentType st info st',
       minio.PutObject client bucket key content n contentType st = (Ok info, st') ->
       (minio.GetObject client bucket key st').1 = Ok (Ok content)
       /\ exists found, (minio.StatObject client bucket key st').1 = Ok found) ->
    Request.Method r_up = "POST" ->
    Request.FormFile r_up "file" = Ok (FileHeader.mk f header, file) ->
    Host.CreateTemp h ("upload-*" +:+ filepath.Ext f) = Ok tempFile ->
    Host.Copy h tempFile file = None ->
    Host.Open h tempFile = Ok file ->
    Host.Stat h tempFile = Ok size ->
    let c := Get header "Content-Type" in
    let key := "uploads/" +:+ fmt_d (time.Unix (Host.Now h 0)) +:+ "-" +:+ f in
    let contentType := if decide (c = "") then "application/octet-stream" else c in
    put_reply s key file size contentType w = Ok uploadInfo ->
    Request.Method r_get = "GET" ->
    Request.Path r_get = "/files/" +:+ key ->
    Get (Request.Query r_get) "download" = "true" ->
    (server.getFileHandler s r_get (server.uploadHandler h s r_up w).2).1
    = server.Replied {|
        Written.StatusCode := 200;
        Written.Header :=
          [("Content-Disposition", "attachment; filename=" +:+ filepath.Base key);
           ("Content-Type", "application/octet-stream");
           ("Content-Length", fmt_d (Z.of_nat (length file)))];
        Written.Body := BodyBytes file |}.
Proof.
  intros S h s r_up r_get w f header file tempFile size uploadInfo client bucket
         Hsign Hstat Hput Hm Hf Ht Hc Ho Hs c key contentType Hok Hget Hpath Hdl.
  subst client bucket.
  (* the world the upload leaves *)
  pose proof (uploadHandler_accepted h s r_up (FileHeader.mk f header) file tempFile w
                Hm Hf Ht Hc) as Hrun.
  change (upload_key h (FileHeader.mk f header)) with key in Hrun.
  change (upload_content_type (FileHeader.mk f header)) with contentType in Hrun.
  cbv zeta in Hrun.
  rewrite (uploadFile_run h s key tempFile contentType file size w Ho Hs), Hok in Hrun.
  simpl in Hrun. rewrite getObjectURL_run in Hrun. simpl in Hrun.
  set (w1 := put_world s key file size contentType w) in *.
  set (w2 := presign_world s key (time.Hour * 24) w1) in *.
  assert (Hw2 : (server.uploadHandler h s r_up w).2 = w2) by (rewrite Hrun; reflexivity).
  rewrite Hw2. clear Hrun Hw2.
  (* the backend state in it is the one the write left *)
  unfold put_reply in Hok.
  destruct (minio.PutObject (MinIOService.Client s) (MinIOService.BucketName s) key file
                            size contentType (backend w)) as [res st'] eqn:Eput.
  simpl in Hok. subst res.
  destruct (Hput _ _ _ _ _ _ _ Eput) as [Hgot [found Hfound]].
  assert (Hb2 : backend w2 = st').
  { subst w2 w1. unfold presign_world, put_world. simpl.
    rewrite Hsign, Eput. reflexivity. }
  clearbody w2.
  assert (Hkey : key <> "").
  { subst key. intros E. apply (f_equal list_ascii_of_string) in E.
    rewrite !list_ascii_of_string_app in E. discriminate. }
  assert (Hst : stat_reply s key w2 = Ok found).
  { unfold stat_reply. rewrite Hb2. exact Hfound. }
  pose proof (getFileHandler_found s r_get w2 key found Hget Hpath Hkey Hst) as Hrun.
  cbv zeta in Hrun. rewrite Hdl in Hrun.
  rewrite bool_decide_eq_true_2 in Hrun by reflexivity.
  rewrite downloadBuffer_run in Hrun.
  assert (Hg : get_reply s key (stat_world s key w2) = Ok (Ok file)).
  { unfold get_reply, stat_world. simpl. rewrite Hstat, Hb2. exact Hgot. }
  rewrite Hg in Hrun. rewrite Hrun. reflexivity.
Qed.

Lemma X20_witness :
  let h := memstore.host [Byte.x68; Byte.x69] 1718000000 1718000001 in
  let s := memstore.service memstore.no_faults in
  let after := (server.uploadHandler h s
                  (memstore.post_file "/upload" "a.txt" "text/plain" [Byte.x68; Byte.x69])
                  (memstore.start memstore.sample)).2 in
  (server.getFileHandler s
     (memstore.get "/files/uploads/1718000000-a.txt" [("download", "true")]) after).1
  = server.Replied {|
      Written.StatusCode := 200;
      Written.Header :=
        [("Content-Disposition", "attachment; filename=1718000000-a.txt");
         ("Content-Type", "application/octet-stream");
         ("Content-Length", "2")];
      Written.Body := BodyBytes [Byte.x68; Byte.x69] |}.
Proof.
  intros h s after. subst after.
  erewrite (X20_upload_then_download memstore.Store h s
              (memstore.post_file "/upload" "a.txt" "text/plain" [Byte.x68; Byte.x69])
              (memstore.get "/files/uploads/1718000000-a.txt" [("download", "true")])
              (memstore.start memstore.sample) "a.txt" [("Content-Type", "text/plain")]
              [Byte.x68; Byte.x69] "/tmp/upload-*.txt" 2).
  - vm_compute. reflexivity.
  - reflexivity.
  - intros key st. simpl. destruct (memstore.objects st !! _); reflexivity.
  - intros key content n contentType st info st'. simpl.
    case_decide; [| discriminate]. intros [= _ <-]. simpl.
    rewrite lookup_insert_eq. simpl. eauto.
  - reflexivity.
  - reflexivity.
  - reflexivity.
  - reflexivity.
  - reflexivity.
  - reflexivity.
  - vm_compute. reflexivity.
  - reflexivity.
  - vm_compute. reflexivity.
  - reflexivity.
Defined.

(** ** The temporary file of an upload *)

Lemma Ext_scan_spec (rpath : list ascii) :
  forall acc : list ascii,
    Forall (fun c => c <> filepath.slash) acc ->
    Forall (fun c => c <> filepath.slash) (filepath.Ext_scan rpath acc)
    /\ (filepath.Ext_scan rpath acc = []
        \/ exists rest, filepath.Ext_scan rpath acc = filepath.dot :: rest)
    /\ exists pre, rev rpath ++ acc = pre ++ filepath.Ext_scan rpath acc.
Proof.
  induction rpath as [| c rpath IH]; intros acc Hacc; simpl.
  - split; [constructor |]. split; [left; reflexivity |].
    exists acc. rewrite app_nil_r. reflexivity.
  - case_decide as Hslash.
    { split; [constructor |]. split; [left; reflexivity |].
      eexists. rewrite app_nil_r. reflexivity. }
    case_decide as Hdot.
    { subst c. split; [constructor; [discriminate | exact Hacc] |].
      split; [right; eexists; reflexivity |].
      exists (rev rpath). rewrite <- app_assoc. reflexivity. }
    destruct (IH (c :: acc)) as (Hns & Hshape & pre & Hpre).
    { constructor; assumption. }
    split; [exact Hns |]. split; [exact Hshape |].
    exists pre. rewrite <- app_assoc. exact Hpre.
Qed.

Lemma string_of_list_ascii_app (a b : list ascii) :
  string_of_list_ascii (a ++ b) = string_of_list_ascii a +:+ string_of_list_ascii b.
Proof. induction a as [| c a IH]; simpl; [reflexivity | rewrite IH; reflexivity]. Qed.

(** X21: the pattern of the temporary file is always acceptable.  The
    extension the upload handler takes from the file name is a suffix of the
    name, is empty or begins with a dot, and contains no path separator,
    whatever the name; so the pattern "upload-*" + extension handed to
    [os.CreateTemp] never contains one either. *)
Theorem X21_temp_pattern_has_no_separator :
  forall f : string,
    no_slash ("upload-*" +:+ filepath.Ext f)
    /\ (filepath.Ext f = "" \/ exists rest, filepath.Ext f = "." +:+ rest)
    /\ exists stem, f = stem +:+ filepath.Ext f.
Proof.
  intros f. unfold filepath.Ext.
  destruct (Ext_scan_spec (rev (list_ascii_of_string f)) []) as (Hns & Hshape & pre & Hpre);
    [constructor |].
  set (e := filepath.Ext_scan (rev (list_ascii_of_string f)) []) in *.
  rewrite rev_involutive, app_nil_r in Hpre.
  split; [| split].
  - unfold no_slash. rewrite list_ascii_of_string_app, list_ascii_of_string_of_list_ascii.
    apply Forall_app. split; [repeat constructor; discriminate | exact Hns].
  - destruct Hshape as [-> | [rest ->]]; [left; reflexivity |].
    right. exists (string_of_list_ascii rest). reflexivity.
  - exists (string_of_list_ascii pre).
    rewrite <- string_of_list_ascii_app, <- Hpre. symmetry.
    apply string_of_list_ascii_of_string.
Qed.

(** ** The two gateways *)

(** X23: package storage is the gateway of package main.  Method for
    method, the exported gateway of package storage and the gateway inside
    package main return the same value and make the same backend calls from
    the same world: construction, bucket provisioning, upload of a file,
    download to a buffer, listing, deletion, URL signing and the existence
    check.  [UploadBuffer], which package main lacks, is [UploadFile] on a
    file that holds the buffer and measures as its length, except for the
    prefix of the error text. *)
Theorem X23_storage_mirrors_main :
  forall (S : Type)
         (New : string -> string -> string -> bool -> result (minio.Client S))
         (config : MinIOConfig.t) (h : Host.t) (s : MinIOService.t S)
         (objectName filePath contentType prefix : string) (expiry : time.Duration)
         (data : list Byte.byte) (w : World S),
    storage_rest.NewMinIOService New config w = server.newMinIOService New config w
    /\ storage.EnsureBucket s w = server.ensureBucket s w
    /\ storage_rest.UploadFile h s objectName filePath contentType w
       = server.uploadFile h s objectName filePath contentType w
    /\ storage_rest.DownloadBuffer s objectName w = server.downloadBuffer s objectName w
    /\ storage_rest.ListObjects s prefix w = server.listObjects s prefix w
    /\ storage.DeleteObject s objectName w = server.deleteObject s objectName w
    /\ storage_rest.GetObjectURL s objectName expiry w
       = server.getObjectURL s objectName expiry w
    /\ storage.CheckObjectExists s objectName w = server.checkObjectExists s objectName w
    /\ (Host.Open h filePath = Ok data ->
        Host.Stat h filePath = Ok (Z.of_nat (length data)) ->
        (storage_rest.UploadBuffer s objectName data contentType w).2
        = (server.uploadFile h s objectName filePath contentType w).2
        /\ (forall uploadInfo : minio.UploadInfo.t,
              (storage_rest.UploadBuffer s objectName data contentType w).1
              = (uploadInfo, None)
              <-> (server.uploadFile h s objectName filePath contentType w).1
                  = (uploadInfo, None))).
Proof.
  intros S New config h s objectName filePath contentType prefix expiry data w.
  repeat (split; [reflexivity |]).
  intros Ho Hs.
  rewrite UploadBuffer_run, (uploadFile_run h s _ _ _ data _ w Ho Hs).
  split; [reflexivity |]. intros uploadInfo. simpl.
  destruct (put_reply s objectName data (Z.of_nat (length data)) contentType w);
    split; intros E; try discriminate; exact E.
Qed.

Lemma X23_witness :
  let s := memstore.service memstore.no_faults in
  let w := memstore.start memstore.sample in
  (storage_rest.UploadBuffer s "k" [Byte.x68] "text/plain" w).2
  = (server.uploadFile (memstore.host [Byte.x68] 0 0) s "k" "/tmp/x" "text/plain" w).2.
Proof.
  intros s w.
  destruct (X23_storage_mirrors_main memstore.Store
              (fun _ _ _ _ => Ok (memstore.client memstore.no_faults))
              (MinIOConfig.mk "e" "a" "k" false "mybucket" "us-east-1")
              (memstore.host [Byte.x68] 0 0) s "k" "/tmp/x" "text/plain" "" 0
              [Byte.x68] w) as (_ & _ & _ & _ & _ & _ & _ & _ & Hbuf).
  destruct (Hbuf eq_refl eq_refl) as [Hworld _]. exact Hworld.
Defined.

Lemma X16_witness :
  let h1 := memstore.host [] 1718000000 1718000001 in
  let h2 := memstore.host [Byte.x68] 1718000000 1718000005 in
  "uploads/" +:+ fmt_d (time.Unix (Host.Now h1 0)) +:+ "-" +:+ "a.txt"
  = "uploads/" +:+ fmt_d (time.Unix (Host.Now h2 0)) +:+ "-" +:+ "a.txt".
Proof.
  intros h1 h2.
  apply (X16_keys_collide_only_on_same_second_and_name h1 h2
           (FileHeader.mk "a.txt" []) (FileHeader.mk "a.txt" [("Content-Type", "x")])).
  split; reflexivity.
Defined.
